(** * Bursary application form: the client-side wizard of [app.js]

    A shallow embedding of the form controller of [staticfiles/app.js]:
    radio defaults, conditional visibility, step validation, the
    financial cross-field rule, step navigation, the blur handler of the
    amount field and the submit handler.  [static/app.js] has the same
    text for [setRadioDefault], [validateFinancialFields], [goToStep], the
    blur handler and the submit handler.  The earlier copy
    [unnamed/part_000] (whose [goToStep], required-field loop and Enter
    shortcut are those of the root [app.js]) is embedded where it differs.

    JavaScript numbers are IEEE 754 binary64 values: they are embedded as
    Rocq's primitive [float], so every comparison and product below is the
    one the browser computes.  Strings are strings of code units below
    256.

    The DOM is embedded as a record of the parts the script reads and
    writes.  The page itself (the HTML and the style sheet) is not part of
    the script and is arbitrary here, with these conventions: every form
    control lies in one of the sections; a control is identified by its id
    ([getElementById] returns the first one in document order); the radio
    buttons of one group carry one name.  Scrolling, the progress bar, the
    [active]/[completed] classes and the file previews are written by the
    script and read by nothing in it: they are left out.

    The message boxes and the submit button are taken to exist.  The
    financial fields need not: the script reads them with [?.] and calls
    [focus()] on them without it, so that a call on a page lacking one of
    them ends by a TypeError, which is embedded as a result [None].

    Further modules embed what the other scripts have of their own: the
    clearing conditional blocks and the field-level validation of
    [static/app.js] (whose second declaration of [validateStep] is the one
    in force there), the two listeners of [toStep3] in the older script
    kept in [staticfiles/app.js], the start-up code, the change listener
    and the step validation of the root [app.js], and the help chatbot
    and [getCookie] of [static/chatbot.js]. *)

From Stdlib Require Import ZArith Floats Lia.
From stdpp Require Import base gmap strings list.

#[local] Set Warnings "-inexact-float".
#[local] Open Scope Z_scope.

(** ** JavaScript numbers *)

Module JsNum.

(** [x > y] is evaluated by the engine as [y < x]. *)
Definition js_gt (x y : float) : bool := PrimFloat.ltb y x.
Definition js_lt (x y : float) : bool := PrimFloat.ltb x y.
Definition js_le (x y : float) : bool := PrimFloat.leb x y.
Definition js_eq (x y : float) : bool := PrimFloat.eqb x y.

#[global] Arguments js_gt : simpl never.
#[global] Arguments js_lt : simpl never.
#[global] Arguments js_le : simpl never.
#[global] Arguments js_eq : simpl never.

End JsNum.

(** ** The document *)

(** Text shown by [showError]; a constructor per template of the script,
    its interpolated values as arguments. *)
Inductive Message :=
  | MsgAttachFile (what : string)
      (* `Please attach required file: ${...}` *)
  | MsgSelectAll
      (* "Please select all required options." *)
  | MsgFillIn (label : string)
      (* `Please fill in: ${...}` *)
  | MsgRadio (groupLabel : string)
      (* `Please select an option for: ${groupLabel}` *)
  | MsgTuitionPositive
      (* 'Tuition fee must be greater than zero.' *)
  | MsgAmountPositive
      (* 'Amount requested must be greater than zero.' *)
  | MsgExceeds (amountRequested tuitionFee : float)
      (* `Amount requested (KES ${amountRequested}) cannot exceed tuition
         fee (KES ${tuitionFee}).` *)
  | MsgBlurExceeds (tuitionFee : float)
      (* `Amount requested cannot exceed tuition fee of KES ${tuitionFee}` *)
  | MsgAggregate
      (* 'Please correct the highlighted errors before submitting.' *)
  | MsgAttachFiles
      (* part_000: "Please attach required file(s) before continuing." *)
  | MsgSelectRequired
      (* part_000: "Please select required options." *)
  | MsgFillAll
      (* part_000: "Please fill all required fields in this section." *)
  | MsgRadioDot (groupLabel : string).
      (* part_000: `Please select an option for: ${groupLabel}.` *)

(** Text of a [confirm] dialog. *)
Inductive Prompt :=
  | AskBelowTenPercent (amountRequested : float)
      (* `Amount requested (KES ...) is less than 10% of tuition fee. ...` *)
  | AskIncomeHigh (annualIncome : float).
      (* `Your annual family income (KES ...) appears ...` *)

(** The two message boxes: [showError] shows the error box and hides the
    success box, [clearMessages] hides both. *)
Inductive Banner :=
  | BannerNone
  | BannerError (m : Message)
  | BannerSuccess (m : Message).

Inductive Tag := INPUT | SELECT | TEXTAREA.

#[global] Instance Tag_eq_dec : EqDecision Tag.
Proof. solve_decision. Defined.

(** An ancestor of a control that a selector of the script can reach. *)
Record Container := {
  c_id : string;          (* its id *)
  c_conditional : bool    (* carries the class [conditional] *)
}.

(** A form control (input, select or textarea). *)
Record Element := {
  el_id : string;
  el_name : string;
  el_tag : Tag;                         (* tagName *)
  el_type : string;                     (* type: 'file', 'radio', 'text', ... *)
  el_required : bool;                   (* hasAttribute('required') *)
  el_originalRequired : option bool;    (* dataset.originalRequired *)
  el_value : string;
  el_checked : bool;
  el_files : nat;                       (* files.length *)
  el_ancestors : list Container;        (* enclosing containers, nearest first *)
  el_label : string;
    (* closest('.form-group')?.querySelector('label')?.textContent
       .replace('*', '').trim(), the empty string when there is none *)
  el_prevText : string
    (* previousElementSibling?.textContent, empty when there is none *)
}.

(** A [.form-group .radio-group] block of a section. *)
Record RadioGroupDiv := {
  rg_key : string;                      (* identifies its form-group *)
  rg_requiredLabel : option string;
    (* text of closest('.form-group')?.querySelector('label.required'),
       with '*' removed and trimmed *)
  rg_groupName : string
    (* querySelector('input[type="radio"]')?.name, empty when missing *)
}.

Record FormSection := {
  sec_fields : list Element;            (* its controls, in document order *)
  sec_radioGroups : list RadioGroupDiv
}.

(** What the script reads and writes. *)
Record State := mkState {
  currentStep : Z;
  sections : list FormSection;          (* form.querySelectorAll('.form-section') *)
  containers : gset string;             (* ids getElementById resolves *)
  shown : gset string;                  (* containers carrying the class [show] *)
  hasError : gset string;               (* form-groups carrying [has-error] *)
  banner : Banner;
  focused : option string;              (* id of the control last given focus *)
  submitDisabled : bool;                (* submitBtn.disabled *)
  submitText : string;                  (* submitBtn.textContent *)
  dialogs : list Prompt;                (* confirm dialogs opened so far *)
  submitted : bool                      (* form.submit() has been called *)
}.

Definition totalSteps (st : State) : Z := Z.of_nat (length (sections st)).

Definition set_currentStep (n : Z) (st : State) : State :=
  mkState n (sections st) (containers st) (shown st) (hasError st) (banner st)
    (focused st) (submitDisabled st) (submitText st) (dialogs st) (submitted st).
Definition set_sections (s : list FormSection) (st : State) : State :=
  mkState (currentStep st) s (containers st) (shown st) (hasError st) (banner st)
    (focused st) (submitDisabled st) (submitText st) (dialogs st) (submitted st).
Definition set_shown (s : gset string) (st : State) : State :=
  mkState (currentStep st) (sections st) (containers st) s (hasError st) (banner st)
    (focused st) (submitDisabled st) (submitText st) (dialogs st) (submitted st).
Definition set_hasError (s : gset string) (st : State) : State :=
  mkState (currentStep st) (sections st) (containers st) (shown st) s (banner st)
    (focused st) (submitDisabled st) (submitText st) (dialogs st) (submitted st).
Definition set_banner (b : Banner) (st : State) : State :=
  mkState (currentStep st) (sections st) (containers st) (shown st) (hasError st) b
    (focused st) (submitDisabled st) (submitText st) (dialogs st) (submitted st).
Definition set_focused (f : option string) (st : State) : State :=
  mkState (currentStep st) (sections st) (containers st) (shown st) (hasError st)
    (banner st) f (submitDisabled st) (submitText st) (dialogs st) (submitted st).
Definition set_submitBtn (disabled : bool) (text : string) (st : State) : State :=
  mkState (currentStep st) (sections st) (containers st) (shown st) (hasError st)
    (banner st) (focused st) disabled text (dialogs st) (submitted st).
Definition add_dialog (p : Prompt) (st : State) : State :=
  mkState (currentStep st) (sections st) (containers st) (shown st) (hasError st)
    (banner st) (focused st) (submitDisabled st) (submitText st)
    (dialogs st ++ [p]) (submitted st).
Definition set_submitted (b : bool) (st : State) : State :=
  mkState (currentStep st) (sections st) (containers st) (shown st) (hasError st)
    (banner st) (focused st) (submitDisabled st) (submitText st) (dialogs st) b.

(** ** Helpers shared by every copy of the script *)

Definition showError (m : Message) (st : State) : State :=
  set_banner (BannerError m) st.
Definition clearMessages (st : State) : State := set_banner BannerNone st.
Definition focus (id : string) (st : State) : State := set_focused (Some id) st.

(** [x || d] on strings: the empty string is falsy. *)
Definition orElse (x d : string) : string := if decide (x = "") then d else x.

(** Characters [String.prototype.trim] strips (code units below 256). *)
Definition isWhiteSpace (c : Ascii.ascii) : bool :=
  let n := Ascii.nat_of_ascii c in
  bool_decide (n ∈ [9; 10; 11; 12; 13; 32; 160]%nat).

(** [!v || v.trim() === ''] *)
Fixpoint isBlank (v : string) : bool :=
  match v with
  | EmptyString => true
  | String c rest => isWhiteSpace c && isBlank rest
  end.

Definition fieldsOf (ss : list FormSection) : list Element :=
  concat (map sec_fields ss).

Definition allFields (st : State) : list Element := fieldsOf (sections st).

(** [sections[step - 1]]: [undefined] outside the list. *)
Definition sectionAt (step : Z) (st : State) : option FormSection :=
  if decide (step - 1 < 0) then None else sections st !! Z.to_nat (step - 1).

Definition getElementById (id : string) (st : State) : option Element :=
  List.find (fun el => bool_decide (el_id el = id)) (allFields st).

(** [form.querySelector(`input[name="${name}"]:checked`)] *)
Definition isCheckedInput (name : string) (el : Element) : bool :=
  bool_decide (el_tag el = INPUT) && bool_decide (el_name el = name) && el_checked el.

Definition getRadioValue (name : string) (st : State) : option string :=
  el_value <$> List.find (isCheckedInput name) (allFields st).

(** Rewriting controls in place. *)
Definition mapSection (f : Element -> Element) (s : FormSection) : FormSection :=
  {| sec_fields := map f (sec_fields s); sec_radioGroups := sec_radioGroups s |}.
Definition mapFields (f : Element -> Element) (st : State) : State :=
  set_sections (map (mapSection f) (sections st)) st.

Definition with_value (v : string) (el : Element) : Element :=
  {| el_id := el_id el; el_name := el_name el; el_tag := el_tag el;
     el_type := el_type el; el_required := el_required el;
     el_originalRequired := el_originalRequired el; el_value := v;
     el_checked := el_checked el; el_files := el_files el;
     el_ancestors := el_ancestors el; el_label := el_label el;
     el_prevText := el_prevText el |}.
Definition with_checked (b : bool) (el : Element) : Element :=
  {| el_id := el_id el; el_name := el_name el; el_tag := el_tag el;
     el_type := el_type el; el_required := el_required el;
     el_originalRequired := el_originalRequired el; el_value := el_value el;
     el_checked := b; el_files := el_files el;
     el_ancestors := el_ancestors el; el_label := el_label el;
     el_prevText := el_prevText el |}.
Definition with_required (req : bool) (orig : option bool) (el : Element) : Element :=
  {| el_id := el_id el; el_name := el_name el; el_tag := el_tag el;
     el_type := el_type el; el_required := req;
     el_originalRequired := orig; el_value := el_value el;
     el_checked := el_checked el; el_files := el_files el;
     el_ancestors := el_ancestors el; el_label := el_label el;
     el_prevText := el_prevText el |}.

Definition with_files (n : nat) (el : Element) : Element :=
  {| el_id := el_id el; el_name := el_name el; el_tag := el_tag el;
     el_type := el_type el; el_required := el_required el;
     el_originalRequired := el_originalRequired el; el_value := el_value el;
     el_checked := el_checked el; el_files := n;
     el_ancestors := el_ancestors el; el_label := el_label el;
     el_prevText := el_prevText el |}.

Definition hasId (id : string) (el : Element) : bool := bool_decide (el_id el = id).

(** [el.closest('.conditional')] and the test [!classList.contains('show')]. *)
Definition closestConditional (el : Element) : option Container :=
  List.find c_conditional (el_ancestors el).

Definition inHiddenConditional (sh : gset string) (el : Element) : bool :=
  match closestConditional el with
  | Some c => negb (bool_decide (c_id c ∈ sh))
  | None => false
  end.

(** Apply [f] to the first control satisfying [p] (the node a
    [querySelector] returns). *)
Fixpoint updateFirst (p : Element -> bool) (f : Element -> Element)
    (l : list Element) : list Element :=
  match l with
  | [] => []
  | el :: rest => if p el then f el :: rest else el :: updateFirst p f rest
  end.

Fixpoint updateFirstInSections (p : Element -> bool) (f : Element -> Element)
    (ss : list FormSection) : list FormSection :=
  match ss with
  | [] => []
  | s :: rest =>
      if existsb p (sec_fields s)
      then {| sec_fields := updateFirst p f (sec_fields s);
              sec_radioGroups := sec_radioGroups s |} :: rest
      else s :: updateFirstInSections p f rest
  end.

(** The financial fields are cached by id at start-up. *)
Definition ID_INCOME : string := "annual_family_income".
Definition ID_TUITION : string := "tuition_fee".
Definition ID_AMOUNT : string := "amount_requested".
Definition ID_REASON : string := "reason_for_application".

(** The five conditional containers. *)
Definition ORPHAN_NOTE : string := "orphanNote".
Definition DISABILITY_DETAILS : string := "disabilityDetails".
Definition PREVIOUS_BURSARY_DETAILS : string := "previousBursaryDetails".
Definition PREVIOUS_BURSARY_DETAILS_CONTINUED : string :=
  "previousBursaryDetailsContinued".
Definition PROVIDER_NOTE : string := "providerNote".

(** What the financial rule decides, before it is written to the page. *)
Record FinOutcome := {
  fin_ok : bool;                  (* the value of its [return] statement *)
  fin_error : option Message;     (* showError(...) *)
  fin_focus : option string;      (* the control whose [focus()] is called *)
  fin_asked : list Prompt         (* confirm dialogs opened, in order *)
}.

(** [financialFields.x.focus()]: the financial fields are read with [?.]
    but focused without it, so the call throws a TypeError when the page
    has no such control (the cached reference is [null]).  [None] stands
    for the exception. *)
Definition focusCached (id : string) (st : State) : option unit * State :=
  match getElementById id st with
  | Some _ => (Some tt, focus id st)
  | None => (None, st)
  end.

(** The outcome written to the page, in the order of the script: the
    dialogs, the error box, the focus, and then the [return], which is
    not reached when [focus()] throws.  The first component is the value
    returned, [None] when the call is ended by the exception. *)
Definition applyOutcome (o : FinOutcome) (st : State) : option bool * State :=
  let st1 := fold_left (fun s p => add_dialog p s) (fin_asked o) st in
  let st2 := match fin_error o with Some m => showError m st1 | None => st1 end in
  match fin_focus o with
  | Some id =>
      match focusCached id st2 with
      | (Some _, st3) => (Some (fin_ok o), st3)
      | (None, st3) => (None, st3)
      end
  | None => (Some (fin_ok o), st2)
  end.

(** ** Behaviour supplied by the browser

    [parseFloat] is the built-in; [offsetParentSet step sh key] tells
    whether the radio-group block [key] has a non-null [offsetParent]
    under the style sheet when step [step] is active and the containers
    [sh] carry [show]; the answers to [confirm] dialogs come with each
    event.  None of them is part of the script. *)

(** [parseFloat(field?.value || 0)] *)
Definition fieldNumber (parseFloat : string -> float) (id : string)
    (st : State) : float :=
  match getElementById id st with
  | Some el =>
      if decide (el_value el = "") then 0%float else parseFloat (el_value el)
  | None => 0%float
  end.

(** Whether some control named [name] of the section is checked:
    [sec.querySelector(`input[name="${groupName}"]:checked`)]. *)
Definition sectionHasChecked (name : string) (sec : FormSection) : bool :=
  existsb (isCheckedInput name) (sec_fields sec).

(** The steps the submit handler walks: [1 .. totalSteps]. *)
Definition stepsOf (st : State) : list Z :=
  map (fun i => Z.of_nat i + 1) (seq 0 (length (sections st))).

(** [radio.checked = true]: the first control matching [p] becomes
    checked; when it is a radio button the browser unchecks the other
    radio buttons of its group first. *)
Definition uncheckGroup (name : string) (el : Element) : Element :=
  if bool_decide (el_type el = "radio") && bool_decide (el_name el = name)
  then with_checked false el else el.

Definition checkFirst (p : Element -> bool) (st : State) : State :=
  match List.find p (allFields st) with
  | None => st
  | Some r =>
      let ss :=
        if bool_decide (el_type r = "radio")
        then map (mapSection (uncheckGroup (el_name r))) (sections st)
        else sections st in
      set_sections (updateFirstInSections p (with_checked true) ss) st
  end.

(** [input[name="${name}"][value="${value}"]] *)
Definition isOption (name value : string) (el : Element) : bool :=
  bool_decide (el_tag el = INPUT) && bool_decide (el_name el = name)
  && bool_decide (el_value el = value).

(** [element.querySelectorAll('input, select, textarea')] *)
Definition isDescendantOf (id : string) (el : Element) : bool :=
  existsb (fun c => bool_decide (c_id c = id)) (el_ancestors el).

(** The eight navigation buttons and the step each one asks for. *)
Inductive NavButton :=
  | toStep2 | backTo1 | toStep3 | backTo2 | toStep4 | backTo3 | toStep5 | backTo4.

Definition navTarget (b : NavButton) : Z :=
  match b with
  | toStep2 => 2 | backTo1 => 1 | toStep3 => 3 | backTo2 => 2
  | toStep4 => 4 | backTo3 => 3 | toStep5 => 5 | backTo4 => 4
  end.

(** ** staticfiles/app.js *)
Module Staticfiles.
Section Script.

Variable parseFloat : string -> float.
Variable offsetParentSet : Z -> gset string -> string -> bool.

(** *** Radio defaults and conditional visibility *)

Definition setRadioDefault (name value : string) (st : State) : State :=
  match List.find (isOption name value) (allFields st), getRadioValue name st with
  | Some _, None => checkFirst (isOption name value) st
  | _, _ => st
  end.

Definition setDefaults (st : State) : State :=
  setRadioDefault "singleParent" "False"
    (setRadioDefault "previousBursary" "False"
      (setRadioDefault "disability" "False"
        (setRadioDefault "orphan" "False" st))).

Definition showHideField (show : bool) (field : Element) : Element :=
  let orig :=
    match el_originalRequired field with
    | Some b => b
    | None => el_required field
    end in
  with_required (show && orig) (Some orig) field.

Definition showHideConditional (id : string) (show : bool) (st : State) : State :=
  if bool_decide (id ∈ containers st) then
    let sh := if show then shown st ∪ {[ id ]} else shown st ∖ {[ id ]} in
    mapFields (fun el => if isDescendantOf id el then showHideField show el else el)
      (set_shown sh st)
  else st.

Definition handleConditionalFields (st : State) : State :=
  let isOrphan := bool_decide (getRadioValue "orphan" st = Some "True") in
  let hasDisability := bool_decide (getRadioValue "disability" st = Some "True") in
  let previousBursary :=
    bool_decide (getRadioValue "previousBursary" st = Some "True") in
  let bothParentsAlive :=
    bool_decide (getRadioValue "bothParentsAlive" st = Some "True") in
  let singleParent := bool_decide (getRadioValue "singleParent" st = Some "True") in
  let st := showHideConditional ORPHAN_NOTE isOrphan st in
  let st := showHideConditional DISABILITY_DETAILS hasDisability st in
  let st := showHideConditional PREVIOUS_BURSARY_DETAILS previousBursary st in
  let st := showHideConditional PREVIOUS_BURSARY_DETAILS_CONTINUED previousBursary st in
  let needsProviderNote := isOrphan || negb bothParentsAlive || singleParent in
  showHideConditional PROVIDER_NOTE needsProviderNote st.

(** *** Step validation *)

(** The three tests of the loop over [requiredEls], for one control. *)
Definition fieldError (el : Element) : option Message :=
  if bool_decide (el_type el = "file") then
    if bool_decide (el_files el = 0%nat)
    then Some (MsgAttachFile (orElse (el_prevText el) "file"))
    else None
  else if bool_decide (el_tag el = SELECT) && bool_decide (el_value el = "")
  then Some MsgSelectAll
  else if isBlank (el_value el)
  then Some (MsgFillIn (orElse (el_label el) "all required fields"))
  else None.

(** The loop over [requiredEls]: the first control it returns on. *)
Fixpoint firstInvalid (sh : gset string) (requiredEls : list Element)
    : option (Element * Message) :=
  match requiredEls with
  | [] => None
  | el :: rest =>
      if inHiddenConditional sh el then firstInvalid sh rest
      else match fieldError el with
           | Some m => Some (el, m)
           | None => firstInvalid sh rest
           end
  end.

(** The loop over the radio-group blocks: the block it returns on, if
    any, and the [has-error] classes it leaves behind. *)
Fixpoint firstUnanswered (step : Z) (sh : gset string) (sec : FormSection)
    (groups : list RadioGroupDiv) (he : gset string)
    : option (RadioGroupDiv * string) * gset string :=
  match groups with
  | [] => (None, he)
  | g :: rest =>
      match rg_requiredLabel g with
      | Some groupLabel =>
          if negb (bool_decide (rg_groupName g = ""))
             && offsetParentSet step sh (rg_key g)
          then
            if sectionHasChecked (rg_groupName g) sec
            then firstUnanswered step sh sec rest (he ∖ {[ rg_key g ]})
            else (Some (g, groupLabel), he ∪ {[ rg_key g ]})
          else firstUnanswered step sh sec rest he
      | None => firstUnanswered step sh sec rest he
      end
  end.

Definition requiredEls (sec : FormSection) : list Element :=
  List.filter el_required (sec_fields sec).

(** The control a failed [validateStep] stops on. *)
Definition blockingField (step : Z) (st : State) : option (Element * Message) :=
  match sectionAt step st with
  | Some sec => firstInvalid (shown st) (requiredEls sec)
  | None => None
  end.

Definition validateStep (step : Z) (st : State) : bool * State :=
  match sectionAt step st with
  | None => (false, st)
  | Some sec =>
      match firstInvalid (shown st) (requiredEls sec) with
      | Some (el, m) =>
          (false,
           if bool_decide (el_type el = "file") then showError m st
           else focus (el_id el) (showError m st))
      | None =>
          match firstUnanswered (currentStep st) (shown st) sec
                  (sec_radioGroups sec) (hasError st) with
          | (Some (_, groupLabel), he) =>
              (false, set_hasError he (showError (MsgRadio groupLabel) st))
          | (None, he) => (true, clearMessages (set_hasError he st))
          end
      end
  end.

(** *** The financial cross-field rule *)

(** The body of [validateFinancialFields] on the three parsed numbers;
    [answer] is what the user replies to a [confirm] dialog. *)
Definition financialRule (answer : Prompt -> bool)
    (annualIncome tuitionFee amountRequested : float) : FinOutcome :=
  if JsNum.js_le tuitionFee 0 then
    {| fin_ok := false; fin_error := Some MsgTuitionPositive;
       fin_focus := Some ID_TUITION; fin_asked := [] |}
  else if JsNum.js_le amountRequested 0 then
    {| fin_ok := false; fin_error := Some MsgAmountPositive;
       fin_focus := Some ID_AMOUNT; fin_asked := [] |}
  else if JsNum.js_gt amountRequested tuitionFee then
    {| fin_ok := false;
       fin_error := Some (MsgExceeds amountRequested tuitionFee);
       fin_focus := Some ID_AMOUNT; fin_asked := [] |}
  else
    let low := JsNum.js_lt amountRequested (tuitionFee * 0.1)%float in
    let asked1 := if low then [AskBelowTenPercent amountRequested] else [] in
    if low && negb (answer (AskBelowTenPercent amountRequested)) then
      {| fin_ok := false; fin_error := None;
         fin_focus := Some ID_AMOUNT; fin_asked := asked1 |}
    else
      let high := JsNum.js_gt annualIncome (tuitionFee * 10)%float in
      let asked2 := asked1 ++ (if high then [AskIncomeHigh annualIncome] else []) in
      if high && negb (answer (AskIncomeHigh annualIncome)) then
        {| fin_ok := false; fin_error := None;
           fin_focus := Some ID_REASON; fin_asked := asked2 |}
      else
        {| fin_ok := true; fin_error := None;
           fin_focus := None; fin_asked := asked2 |}.

(** The value returned and the page left; [None] when the call throws. *)
Definition validateFinancialFields (answer : Prompt -> bool) (st : State)
    : option bool * State :=
  let annualIncome := fieldNumber parseFloat ID_INCOME st in
  let tuitionFee := fieldNumber parseFloat ID_TUITION st in
  let amountRequested := fieldNumber parseFloat ID_AMOUNT st in
  applyOutcome (financialRule answer annualIncome tuitionFee amountRequested) st.

(** *** Navigation *)

(** [updateProgress] and [window.scrollTo] write presentation only (the
    bar's width and the [active]/[completed] classes, all functions of
    [currentStep]); they leave the state below as it is. *)
Definition enterStep (n : Z) (st : State) : State :=
  clearMessages (set_currentStep n st).

(** A call [goToStep(n)] and how it ends: [Some tt] when it returns,
    [None] when the exception of [validateFinancialFields] ends it. *)
Definition goToStepCall (answer : Prompt -> bool) (n : Z) (st : State)
    : option unit * State :=
  if decide (n > currentStep st) then
    let '(ok, st1) := validateStep (currentStep st) st in
    if negb ok then (Some tt, st1)
    else if decide (currentStep st1 = 2) then
      match validateFinancialFields answer st1 with
      | (Some ok2, st2) =>
          if negb ok2 then (Some tt, st2) else (Some tt, enterStep n st2)
      | (None, st2) => (None, st2)
      end
    else (Some tt, enterStep n st1)
  else (Some tt, enterStep n st).

(** The page [goToStep(n)] leaves, which is all a click listener
    [() => goToStep(n)] shows of the call: an exception ends the
    listener and is reported to the console. *)
Definition goToStep (answer : Prompt -> bool) (n : Z) (st : State) : State :=
  (goToStepCall answer n st).2.

(** *** Real-time check of the amount requested (blur) *)
Definition amountBlur (st : State) : State :=
  let tuitionFee := fieldNumber parseFloat ID_TUITION st in
  let amountRequested := fieldNumber parseFloat ID_AMOUNT st in
  if JsNum.js_gt amountRequested tuitionFee && JsNum.js_gt tuitionFee 0 then
    focus ID_AMOUNT
      (set_sections
         (updateFirstInSections (hasId ID_AMOUNT) (with_value "") (sections st))
         (showError (MsgBlurExceeds tuitionFee) st))
  else clearMessages st.

(** *** Submission

    [e.preventDefault()] comes first, so nothing is submitted unless
    [form.submit()] is reached.  An exception thrown inside [goToStep(s)]
    ends the listener before the aggregate banner is shown. *)
Fixpoint submitLoop (answer : Prompt -> bool) (steps : list Z) (st : State)
    : State :=
  match steps with
  | [] => set_submitted true (set_submitBtn true "Submitting..." st)
  | s :: rest =>
      let '(ok, st1) := validateStep s st in
      if ok then submitLoop answer rest st1
      else
        match goToStepCall answer s st1 with
        | (Some _, st2) =>
            set_submitBtn false "Submit Application" (showError MsgAggregate st2)
        | (None, st2) => st2
        end
  end.

Definition submitHandler (answer : Prompt -> bool) (st : State) : State :=
  submitLoop answer (stepsOf st) st.

(** *** Page load and events *)
Definition init (html : State) : State :=
  handleConditionalFields (setDefaults (set_currentStep 1 html)).

Inductive Event :=
  | Click (b : NavButton) (answer : Prompt -> bool)
  | RadioChange (id : string)          (* the user picks the radio [id] *)
  | Edit (id : string) (value : string)(* the user types into [id] *)
  | ChooseFiles (id : string) (n : nat)
  | BlurAmount
  | Submit (answer : Prompt -> bool).

Definition step (ev : Event) (st : State) : State :=
  match ev with
  | Click b answer => goToStep answer (navTarget b) st
  | RadioChange id =>
      handleConditionalFields
        (checkFirst (fun el => hasId id el && bool_decide (el_type el = "radio")) st)
  | Edit id v =>
      set_sections (updateFirstInSections (hasId id) (with_value v) (sections st)) st
  | ChooseFiles id n =>
      set_sections (updateFirstInSections (hasId id) (with_files n) (sections st)) st
  | BlurAmount => amountBlur st
  | Submit answer => submitHandler answer st
  end.

Inductive reachable (html : State) : State -> Prop :=
  | reach_init : reachable html (init html)
  | reach_step ev st : reachable html st -> reachable html (step ev st).

End Script.
End Staticfiles.

(** ** unnamed/part_000: the copy with the cached DOM references

    An earlier copy of the same script.  Its conditional-visibility code
    and its blur handler are the text of staticfiles/app.js and are
    reused from there; what differs is restated here. *)
Module Cached.
Section Script.

Variable parseFloat : string -> float.
Variable offsetParentSet : Z -> gset string -> string -> bool.

(** [if (radio) radio.checked = true;] *)
Definition setRadioDefault (name value : string) (st : State) : State :=
  checkFirst (isOption name value) st.

Definition setDefaults (st : State) : State :=
  setRadioDefault "singleParent" "False"
    (setRadioDefault "previousBursary" "False"
      (setRadioDefault "disability" "False"
        (setRadioDefault "orphan" "False" st))).

(** The loop over [requiredEls]: no control is skipped. *)
Definition fieldError (el : Element) : option Message :=
  if bool_decide (el_type el = "file") then
    if bool_decide (el_files el = 0%nat) then Some MsgAttachFiles else None
  else if bool_decide (el_tag el = SELECT) && bool_decide (el_value el = "")
  then Some MsgSelectRequired
  else if isBlank (el_value el) then Some MsgFillAll
  else None.

Fixpoint firstInvalid (requiredEls : list Element) : option (Element * Message) :=
  match requiredEls with
  | [] => None
  | el :: rest =>
      match fieldError el with
      | Some m => Some (el, m)
      | None => firstInvalid rest
      end
  end.

Definition validateStep (step : Z) (st : State) : bool * State :=
  match sectionAt step st with
  | None => (false, st)
  | Some sec =>
      match firstInvalid (Staticfiles.requiredEls sec) with
      | Some (el, m) => (false, focus (el_id el) (showError m st))
      | None =>
          match Staticfiles.firstUnanswered offsetParentSet (currentStep st)
                  (shown st) sec (sec_radioGroups sec) (hasError st) with
          | (Some (_, groupLabel), he) =>
              (false, set_hasError he (showError (MsgRadioDot groupLabel) st))
          | (None, he) => (true, clearMessages (set_hasError he st))
          end
      end
  end.

(** [validateFinancialFields] without the test [amountRequested <= 0]. *)
Definition financialRule (answer : Prompt -> bool)
    (annualIncome tuitionFee amountRequested : float) : FinOutcome :=
  if JsNum.js_le tuitionFee 0 then
    {| fin_ok := false; fin_error := Some MsgTuitionPositive;
       fin_focus := Some ID_TUITION; fin_asked := [] |}
  else if JsNum.js_gt amountRequested tuitionFee then
    {| fin_ok := false;
       fin_error := Some (MsgExceeds amountRequested tuitionFee);
       fin_focus := Some ID_AMOUNT; fin_asked := [] |}
  else
    let low := JsNum.js_lt amountRequested (tuitionFee * 0.1)%float in
    let asked1 := if low then [AskBelowTenPercent amountRequested] else [] in
    if low && negb (answer (AskBelowTenPercent amountRequested)) then
      {| fin_ok := false; fin_error := None;
         fin_focus := Some ID_AMOUNT; fin_asked := asked1 |}
    else
      let high := JsNum.js_gt annualIncome (tuitionFee * 10)%float in
      let asked2 := asked1 ++ (if high then [AskIncomeHigh annualIncome] else []) in
      if high && negb (answer (AskIncomeHigh annualIncome)) then
        {| fin_ok := false; fin_error := None;
           fin_focus := Some ID_REASON; fin_asked := asked2 |}
      else
        {| fin_ok := true; fin_error := None;
           fin_focus := None; fin_asked := asked2 |}.

Definition validateFinancialFields (answer : Prompt -> bool) (st : State)
    : option bool * State :=
  let annualIncome := fieldNumber parseFloat ID_INCOME st in
  let tuitionFee := fieldNumber parseFloat ID_TUITION st in
  let amountRequested := fieldNumber parseFloat ID_AMOUNT st in
  applyOutcome (financialRule answer annualIncome tuitionFee amountRequested) st.

Definition goToStep (n : Z) (st : State) : State :=
  if decide (n > currentStep st) then
    let '(ok, st1) := validateStep (currentStep st) st in
    if negb ok then st1 else set_currentStep n st1
  else set_currentStep n st.

(** The listener of [toStep3]:
    [if (validateStep(2) && validateFinancialFields()) goToStep(3)];
    an exception of [validateFinancialFields] ends it. *)
Definition clickToStep3 (answer : Prompt -> bool) (st : State) : State :=
  let '(ok, st1) := validateStep 2 st in
  if negb ok then st1
  else
    match validateFinancialFields answer st1 with
    | (Some ok2, st2) => if negb ok2 then st2 else goToStep 3 st2
    | (None, st2) => st2
    end.

Definition click (b : NavButton) (answer : Prompt -> bool) (st : State) : State :=
  match b with
  | toStep3 => clickToStep3 answer st
  | _ => goToStep (navTarget b) st
  end.

(** The submit handler: the current step first, then every step; the
    form is submitted natively when [preventDefault] is not called. *)
Fixpoint submitLoop (steps : list Z) (st : State) : State :=
  match steps with
  | [] => set_submitted true (set_submitBtn true "Submitting..." st)
  | s :: rest =>
      let '(ok, st1) := validateStep s st in
      if ok then submitLoop rest st1
      else
        let st2 := showError MsgAggregate (goToStep s st1) in
        set_submitBtn false (submitText st2) st2
  end.

Definition submitHandler (st : State) : State :=
  let '(ok, st1) := validateStep (currentStep st) st in
  if negb ok then st1 else submitLoop (stepsOf st1) st1.

(** The keydown listener; [activeTag] is [document.activeElement.tagName]
    ([None] when the active element is not a form control). *)
Definition keydownEnter (activeTag : option Tag) (st : State) : State :=
  if decide (currentStep st < totalSteps st) then
    if bool_decide (activeTag = Some TEXTAREA) then st
    else goToStep (currentStep st + 1) st
  else st.

Definition init (html : State) : State :=
  Staticfiles.handleConditionalFields (setDefaults (set_currentStep 1 html)).

Inductive Event :=
  | Click (b : NavButton) (answer : Prompt -> bool)
  | RadioChange (id : string)
  | Edit (id : string) (value : string)
  | ChooseFiles (id : string) (n : nat)
  | BlurAmount
  | KeydownEnter (activeTag : option Tag)
  | Submit.

Definition step (ev : Event) (st : State) : State :=
  match ev with
  | Click b answer => click b answer st
  | RadioChange id =>
      Staticfiles.handleConditionalFields
        (checkFirst
           (fun el => hasId id el && bool_decide (el_type el = "radio")) st)
  | Edit id v =>
      set_sections
        (updateFirstInSections (hasId id) (with_value v) (sections st)) st
  | ChooseFiles id n =>
      set_sections
        (updateFirstInSections (hasId id) (with_files n)
           (sections st)) st
  | BlurAmount => Staticfiles.amountBlur parseFloat st
  | KeydownEnter tag => keydownEnter tag st
  | Submit => submitHandler st
  end.

Inductive reachable (html : State) : State -> Prop :=
  | reach_init : reachable html (init html)
  | reach_step ev st : reachable html st -> reachable html (step ev st).

End Script.
End Cached.

(** ** A concrete page, to run the script on

    [parseDecimal] reads a string of decimal digits as [parseFloat] does
    (exactly, below 2^53); any other string reads as NaN here. *)
Definition digitValue (c : Ascii.ascii) : option float :=
  match Z.of_nat (Ascii.nat_of_ascii c) - 48 with
  | 0 => Some 0%float | 1 => Some 1%float | 2 => Some 2%float
  | 3 => Some 3%float | 4 => Some 4%float | 5 => Some 5%float
  | 6 => Some 6%float | 7 => Some 7%float | 8 => Some 8%float
  | 9 => Some 9%float
  | _ => None
  end.

Fixpoint parseDigits (acc : float) (s : string) : float :=
  match s with
  | EmptyString => acc
  | String c rest =>
      match digitValue c with
      | Some d => parseDigits (acc * 10 + d)%float rest
      | None => nan
      end
  end.

Definition parseDecimal (s : string) : float :=
  match s with
  | EmptyString => nan
  | _ => parseDigits 0%float s
  end.

Definition textInput (id value : string) (required : bool)
    (ancestors : list Container) : Element :=
  {| el_id := id; el_name := id; el_tag := INPUT; el_type := "text";
     el_required := required; el_originalRequired := None; el_value := value;
     el_checked := false; el_files := 0; el_ancestors := ancestors;
     el_label := id; el_prevText := "" |}.

Definition radioInput (id name value : string) (checked : bool)
    (ancestors : list Container) : Element :=
  {| el_id := id; el_name := name; el_tag := INPUT; el_type := "radio";
     el_required := false; el_originalRequired := None; el_value := value;
     el_checked := checked; el_ancestors := ancestors; el_files := 0;
     el_label := name; el_prevText := "" |}.

Definition conditional (id : string) : Container :=
  {| c_id := id; c_conditional := true |}.

Definition radioPair (name : string) (checked : option string)
    (ancestors : list Container) : list Element :=
  [ radioInput (name +:+ "_yes") name "True"
      (bool_decide (checked = Some "True")) ancestors;
    radioInput (name +:+ "_no") name "False"
      (bool_decide (checked = Some "False")) ancestors ].

(** A five-section form as served: no radio button checked, the
    conditional blocks hidden, a required text field inside
    [disabilityDetails]; the amounts typed in are arguments. *)
Definition examplePage (income tuition amount : string) : State :=
  {| currentStep := 1;
     sections :=
       [ {| sec_fields :=
              textInput "fullName" "Jane" true []
              :: radioPair "orphan" None [] ++ radioPair "disability" None []
              ++ [ textInput "disabilityNature" "" true
                     [conditional DISABILITY_DETAILS] ];
            sec_radioGroups :=
              [ {| rg_key := "orphanGroup"; rg_requiredLabel := Some "Orphan";
                   rg_groupName := "orphan" |} ] |};
         {| sec_fields :=
              [ textInput ID_INCOME income true [];
                textInput ID_TUITION tuition true [];
                textInput ID_AMOUNT amount true [];
                textInput ID_REASON "fees" true [] ];
            sec_radioGroups := [] |};
         {| sec_fields := radioPair "previousBursary" None [];
            sec_radioGroups := [] |};
         {| sec_fields :=
              radioPair "bothParentsAlive" None []
              ++ radioPair "singleParent" None [];
            sec_radioGroups := [] |};
         {| sec_fields := [ textInput "signature" "" true [] ];
            sec_radioGroups := [] |} ];
     containers :=
       {[ ORPHAN_NOTE; DISABILITY_DETAILS; PREVIOUS_BURSARY_DETAILS;
          PREVIOUS_BURSARY_DETAILS_CONTINUED; PROVIDER_NOTE ]};
     shown := ∅;
     hasError := ∅;
     banner := BannerNone;
     focused := None;
     submitDisabled := false;
     submitText := "Submit Application";
     dialogs := [];
     submitted := false |}.

(** Every block is laid out. *)
Definition allRendered : Z -> gset string -> string -> bool := fun _ _ _ => true.
Definition acceptAll : Prompt -> bool := fun _ => true.
Definition declineAll : Prompt -> bool := fun _ => false.

(** ** Notions the properties are stated with *)

(** The part of the state that validation reads. *)
Definition sameDocument (st st' : State) : Prop :=
  currentStep st' = currentStep st /\ sections st' = sections st
  /\ shown st' = shown st /\ containers st' = containers st.

(** The part that only navigation and submission write. *)
Definition sameControl (st st' : State) : Prop :=
  submitted st' = submitted st /\ submitDisabled st' = submitDisabled st
  /\ submitText st' = submitText st.

(** The messages of the financial rule (as opposed to those of the
    required-field checks and the aggregate banner). *)
Definition isFinancialMessage (m : Message) : bool :=
  match m with
  | MsgTuitionPositive | MsgAmountPositive | MsgExceeds _ _ => true
  | _ => false
  end.

(** The message shown when the amount exceeds the tuition fee: the
    guard on the tuition fee runs first. *)
Definition exceedsMessage (tuition amount : float) : Message :=
  if JsNum.js_le tuition 0 then MsgTuitionPositive
  else MsgExceeds amount tuition.

(** Every dialog the rule opened was accepted. *)
Definition accepted (answer : Prompt -> bool) (o : FinOutcome) : Prop :=
  forall p, In p (fin_asked o) -> answer p = true.

(** The dialogs opened between two states of the page. *)
Definition dialogsOpened (st st' : State) : list Prompt :=
  drop (length (dialogs st)) (dialogs st').

(** What [setRadioDefault] leaves the group with. *)
Definition defaulted (name value : string) (st : State) : option string :=
  match getRadioValue name st with
  | Some v => Some v
  | None =>
      match List.find (isOption name value) (allFields st) with
      | Some _ => Some value
      | None => None
      end
  end.

(** The four groups [setDefaults] gives a default to. *)
Definition DEFAULTED_GROUPS : list string :=
  ["orphan"; "disability"; "previousBursary"; "singleParent"].

(** The answer read from a radio group: [getRadioValue(name) === 'True']. *)
Definition answeredTrue (name : string) (st : State) : bool :=
  bool_decide (getRadioValue name st = Some "True").

(** The value [validateStep(s)] returns. *)
Definition stepValid (offsetParentSet : Z -> gset string -> string -> bool)
    (s : Z) (st : State) : bool :=
  (Staticfiles.validateStep offsetParentSet s st).1.

(** The first step, in the order [1 .. totalSteps], that fails. *)
Definition firstFailing (offsetParentSet : Z -> gset string -> string -> bool)
    (st : State) : option Z :=
  List.find (fun s => negb (stepValid offsetParentSet s st)) (stepsOf st).

(** The same for part_000. *)
Definition cachedStepValid (offsetParentSet : Z -> gset string -> string -> bool)
    (s : Z) (st : State) : bool :=
  (Cached.validateStep offsetParentSet s st).1.

Definition cachedFirstFailing
    (offsetParentSet : Z -> gset string -> string -> bool) (st : State)
    : option Z :=
  List.find (fun s => negb (cachedStepValid offsetParentSet s st)) (stepsOf st).

(** The same control, without its [required] attribute when its closest
    conditional block does not carry [show]. *)
Definition relaxHidden (sh : gset string) (el : Element) : Element :=
  if inHiddenConditional sh el
  then with_required false (el_originalRequired el) el
  else el.

(** The page with every control of a hidden block made optional. *)
Definition ignoreHidden (st : State) : State :=
  mapFields (relaxHidden (shown st)) st.

(** The form keeps its [n] sections and shows one of them. *)
Definition inRange (n : nat) (st : State) : Prop :=
  length (sections st) = n /\ 1 <= currentStep st <= Z.of_nat n.

(** The page as served and initialised, its amounts left empty; the same
    on its last step; and a filled-in page on step 2. *)
Definition pageServed : State := Staticfiles.init (examplePage "" "" "").
Definition pageOnLastStep : State := set_currentStep 5 pageServed.
Definition pageAskingTooMuch : State :=
  set_currentStep 2 (Staticfiles.init (examplePage "0" "10000" "15000")).


(** The same page asking exactly the tuition fee, and the page of
    part_000 on its last step, the amounts left empty. *)
Definition pageAskingAll : State :=
  set_currentStep 2 (Staticfiles.init (examplePage "0" "10000" "10000")).
Definition cachedPageOnLastStep : State :=
  set_currentStep 5 (Cached.init (examplePage "" "" "")).

Ltac run := vm_compute; first [reflexivity | discriminate | eexists; reflexivity].

(** ** static/app.js: the latest copy

    [setRadioDefault], [getRadioValue], [validateFinancialFields],
    [goToStep], the blur handler and the submit handler have the text of
    staticfiles/app.js.  What is new is embedded here: a fifth default,
    two more conditional containers, the clearing of what a hidden block
    holds, and [validateField] with the second declaration of
    [validateStep].  The file declares [function validateStep] twice in
    the same function body; declarations are hoisted and the later one
    replaces the earlier one, so every call of [validateStep] in
    static/app.js runs the second declaration. *)
Module Static.
Section Script.

Variable parseFloat : string -> float.

(** Whether [el.closest('.form-group')] finds an ancestor: the error
    helpers dereference it without a test. *)
Variable inFormGroup : Element -> bool.

Definition PARENT_INFO_GROUP : string := "parentInfoGroup".
Definition PARENTAL_STATUS_GROUP : string := "parentalStatusGroup".

Definition setDefaults (st : State) : State :=
  Staticfiles.setRadioDefault "bothParentsAlive" "True"
    (Staticfiles.setRadioDefault "singleParent" "False"
      (Staticfiles.setRadioDefault "previousBursary" "False"
        (Staticfiles.setRadioDefault "disability" "False"
          (Staticfiles.setRadioDefault "orphan" "False" st)))).

(** The branch [if (!show)] of [showHideConditional]: radio buttons are
    unchecked; selects, textareas and text and number inputs are
    emptied. *)
Definition clearField (field : Element) : Element :=
  if bool_decide (el_type field = "radio") then with_checked false field
  else if bool_decide (el_tag field = SELECT)
          || bool_decide (el_tag field = TEXTAREA)
          || bool_decide (el_type field = "text")
          || bool_decide (el_type field = "number")
  then with_value "" field
  else field.

Definition showHideField (show : bool) (field : Element) : Element :=
  let orig :=
    match el_originalRequired field with
    | Some b => b
    | None => el_required field
    end in
  if show && orig then with_required true (Some orig) field
  else
    let field := with_required false (Some orig) field in
    if negb show then clearField field else field.

Definition showHideConditional (id : string) (show : bool) (st : State) : State :=
  if bool_decide (id ∈ containers st) then
    let sh := if show then shown st ∪ {[ id ]} else shown st ∖ {[ id ]} in
    mapFields (fun el => if isDescendantOf id el then showHideField show el else el)
      (set_shown sh st)
  else st.

Definition handleConditionalFields (st : State) : State :=
  let isOrphan := bool_decide (getRadioValue "orphan" st = Some "True") in
  let hasDisability := bool_decide (getRadioValue "disability" st = Some "True") in
  let previousBursary :=
    bool_decide (getRadioValue "previousBursary" st = Some "True") in
  let bothParentsAlive :=
    bool_decide (getRadioValue "bothParentsAlive" st = Some "True") in
  let singleParent := bool_decide (getRadioValue "singleParent" st = Some "True") in
  let showParentInfo := negb isOrphan in
  let st := showHideConditional PARENT_INFO_GROUP showParentInfo st in
  let st := showHideConditional PARENTAL_STATUS_GROUP showParentInfo st in
  let st := showHideConditional ORPHAN_NOTE isOrphan st in
  let st := showHideConditional DISABILITY_DETAILS hasDisability st in
  let st := showHideConditional PREVIOUS_BURSARY_DETAILS previousBursary st in
  let st := showHideConditional PREVIOUS_BURSARY_DETAILS_CONTINUED previousBursary st in
  let needsProviderNote := isOrphan || negb showParentInfo || singleParent in
  showHideConditional PROVIDER_NOTE needsProviderNote st.

(** The page after the start-up code ([handleInstitutionLabels] writes
    the text of three labels, which nothing reads). *)
Definition init (html : State) : State :=
  handleConditionalFields (setDefaults (set_currentStep 1 html)).

(** The two [change] listeners of the form run one after the other on
    every change of a radio button. *)
Definition radioChange (id : string) (st : State) : State :=
  handleConditionalFields
    (handleConditionalFields
       (checkFirst (fun el => hasId id el && bool_decide (el_type el = "radio")) st)).

(** *** Field-level validation *)

(** The texts [showErrorForField] is called with. *)
Inductive FieldMessage :=
  | MsgFileRequired                    (* File required. *)
  | MsgIsRequired (label : string)     (* ${label} is required. *)
  | MsgCannotExceed.                   (* Amount requested cannot exceed tuition fee. *)

(** [validateField(el)]: [None] when [clearErrorForField] throws (no
    enclosing form-group); otherwise the message put under the control,
    [Some None] standing for the return value [true]. *)
Definition validateField (st : State) (el : Element)
    : option (option FieldMessage) :=
  if negb (inFormGroup el) then None
  else if inHiddenConditional (shown st) el then Some None
  else if el_required el
          && (bool_decide (el_type el = "file") && bool_decide (el_files el = 0%nat))
  then Some (Some MsgFileRequired)
  else if el_required el && isBlank (el_value el)
  then Some (Some (MsgIsRequired (orElse (el_label el) "This field")))
  else if bool_decide (el_id el = ID_AMOUNT)
          && (let tuitionFee := fieldNumber parseFloat ID_TUITION st in
              let amountRequested :=
                if decide (el_value el = "") then 0%float
                else parseFloat (el_value el) in
              JsNum.js_gt amountRequested tuitionFee && JsNum.js_gt tuitionFee 0)
  then Some (Some MsgCannotExceed)
  else Some None.

(** The loop of [validateStep] over every control of the section: it
    goes on after a failure, and stops only on an exception. *)
Fixpoint validateFields (st : State) (els : list Element)
    : option (list (option FieldMessage)) :=
  match els with
  | [] => Some []
  | el :: rest =>
      match validateField st el with
      | None => None
      | Some r =>
          match validateFields st rest with
          | None => None
          | Some rs => Some (r :: rs)
          end
      end
  end.

(** What a call of [validateStep] leaves: the value returned, the
    message under each control of the section (the controls carrying
    [is-invalid] are those with a message), and whether the banner
    'Please correct the highlighted errors before navigating.' was
    shown. *)
Record StepReport := {
  rep_valid : bool;
  rep_messages : list (option FieldMessage);
  rep_banner : bool
}.

(** The [validateStep] in force; [None] when it throws. *)
Definition validateStep (step : Z) (st : State) : option StepReport :=
  match sectionAt step st with
  | None => Some {| rep_valid := false; rep_messages := []; rep_banner := false |}
  | Some sec =>
      match validateFields st (sec_fields sec) with
      | None => None
      | Some rs =>
          let isValid := forallb (fun r => bool_decide (r = None)) rs in
          Some {| rep_valid := isValid; rep_messages := rs;
                  rep_banner := negb isValid |}
      end
  end.

End Script.
End Static.

(** ** staticfiles/app.js, second script (lines 371-702): an older copy

    This copy finds the section of a step by its [data-step] attribute
    and dereferences the result without a test.  The sections are taken
    to carry [data-step] 1, 2, ... in document order, as [updateProgress]
    presupposes in every copy, so that the section found for [step] is
    [sections[step - 1]]; when there is none the call throws.  The body
    of its [validateStep] is then the text of part_000, and so are the
    tests of its [validateFinancialFields].  The button [toStep3] has two
    click listeners. *)
Module Legacy.
Section Script.

Variable parseFloat : string -> float.
Variable offsetParentSet : Z -> gset string -> string -> bool.

(** A computation that may throw: the value, if any, and the state it
    leaves. *)
Definition Run (A : Type) : Type := State -> option A * State.

Definition ret {A} (a : A) : Run A := fun st => (Some a, st).
Definition throw {A} : Run A := fun st => (None, st).
Definition bind {A B} (m : Run A) (f : A -> Run B) : Run B :=
  fun st =>
    match m st with
    | (Some a, st1) => f a st1
    | (None, st1) => (None, st1)
    end.

(** A listener: an exception ends it and is reported to the console. *)
Definition listener (m : Run unit) (st : State) : State := (m st).2.

(** [sec.querySelectorAll(...)] on the section found, [null] throwing. *)
Definition validateStep (step : Z) : Run bool :=
  fun st =>
    match sectionAt step st with
    | None => (None, st)
    | Some _ =>
        let '(ok, st1) := Cached.validateStep offsetParentSet step st in
        (Some ok, st1)
    end.

(** [document.getElementById(id).focus()] *)
Definition focusById (id : string) : Run unit :=
  fun st =>
    match getElementById id st with
    | Some _ => (Some tt, focus id st)
    | None => (None, st)
    end.

Definition validateFinancialFields (answer : Prompt -> bool) : Run bool :=
  fun st =>
    let annualIncome := fieldNumber parseFloat ID_INCOME st in
    let tuitionFee := fieldNumber parseFloat ID_TUITION st in
    let amountRequested := fieldNumber parseFloat ID_AMOUNT st in
    if JsNum.js_le tuitionFee 0 then
      bind (focusById ID_TUITION) (fun _ => ret false)
        (showError MsgTuitionPositive st)
    else if JsNum.js_gt amountRequested tuitionFee then
      bind (focusById ID_AMOUNT) (fun _ => ret false)
        (showError (MsgExceeds amountRequested tuitionFee) st)
    else
      let low := JsNum.js_lt amountRequested (tuitionFee * 0.1)%float in
      let st1 := if low then add_dialog (AskBelowTenPercent amountRequested) st
                 else st in
      if low && negb (answer (AskBelowTenPercent amountRequested)) then
        bind (focusById ID_AMOUNT) (fun _ => ret false) st1
      else
        let high := JsNum.js_gt annualIncome (tuitionFee * 10)%float in
        let st2 := if high then add_dialog (AskIncomeHigh annualIncome) st1
                   else st1 in
        if high && negb (answer (AskIncomeHigh annualIncome)) then
          bind (focusById ID_REASON) (fun _ => ret false) st2
        else ret true st2.

Definition goToStep (n : Z) : Run unit :=
  fun st =>
    if decide (n > currentStep st) then
      bind (validateStep (currentStep st))
        (fun ok => if negb ok then ret tt
                   else fun st1 => (Some tt, set_currentStep n st1)) st
    else (Some tt, set_currentStep n st).

(** The second listener of [toStep3]:
    [if (validateStep(2) && validateFinancialFields()) goToStep(3)]. *)
Definition checkedToStep3 (answer : Prompt -> bool) : Run unit :=
  bind (validateStep 2)
    (fun ok =>
       if negb ok then ret tt
       else bind (validateFinancialFields answer)
              (fun ok2 => if negb ok2 then ret tt else goToStep 3)).

(** A click on a navigation button: the listeners run in the order in
    which they were added. *)
Definition click (b : NavButton) (answer : Prompt -> bool) (st : State) : State :=
  match b with
  | toStep3 => listener (checkedToStep3 answer) (listener (goToStep 3) st)
  | _ => listener (goToStep (navTarget b)) st
  end.

(** The keydown listener: Enter advances from any control. *)
Definition keydownEnter (st : State) : State :=
  if decide (currentStep st < totalSteps st)
  then listener (goToStep (currentStep st + 1)) st
  else st.

End Script.
End Legacy.

(** ** app.js (root): the first version of the script

    Its radio buttons carry the values 'Yes' and 'No', and it shows and
    hides the five containers through [style.display]; below, a
    container is in [shown] when its [style.display] is 'block' (the
    script writes 'block' or 'none' only).  The containers are fetched
    and dereferenced at start-up without a test. *)
Module Root.

(** [el.style.display = block ? 'block' : 'none'] *)
Definition setDisplay (id : string) (block : bool) (st : State) : State :=
  set_shown (if block then shown st ∪ {[ id ]} else shown st ∖ {[ id ]}) st.

(** The listener each radio button gets for [change], [name] and [value]
    being those of the button.  In the branch of bothParentsAlive,
    [document.querySelector('input[name="orphan"]:checked').value] throws
    when no option of orphan is checked, which ends the listener. *)
Definition radioChanged (name value : string) (st : State) : State :=
  if bool_decide (name = "orphan") then
    setDisplay PROVIDER_NOTE (bool_decide (value = "Yes"))
      (setDisplay ORPHAN_NOTE (bool_decide (value = "Yes")) st)
  else if bool_decide (name = "disability") then
    setDisplay DISABILITY_DETAILS (bool_decide (value = "Yes")) st
  else if bool_decide (name = "previousBursary") then
    setDisplay PREVIOUS_BURSARY_DETAILS_CONTINUED (bool_decide (value = "Yes"))
      (setDisplay PREVIOUS_BURSARY_DETAILS (bool_decide (value = "Yes")) st)
  else if bool_decide (name = "bothParentsAlive") then
    if bool_decide (value = "No") then setDisplay PROVIDER_NOTE true st
    else
      match getRadioValue "orphan" st with
      | Some v =>
          if bool_decide (v = "No") then setDisplay PROVIDER_NOTE false st
          else st
      | None => st
      end
  else st.

(** The user picks the radio button [id].  On a button that is already
    checked the browser changes nothing and fires no [change] event;
    otherwise it checks the button, then the listener runs. *)
Definition change (id : string) (st : State) : State :=
  let picked := fun el => hasId id el && bool_decide (el_type el = "radio") in
  match List.find picked (allFields st) with
  | Some radio =>
      if el_checked radio then st
      else radioChanged (el_name radio) (el_value radio) (checkFirst picked st)
  | None => st
  end.

(** Start-up, given the five containers and the four default options
    exist: the containers are hidden and the four groups set to 'No'. *)
Definition init (html : State) : State :=
  let st := setDisplay PROVIDER_NOTE false
              (setDisplay PREVIOUS_BURSARY_DETAILS_CONTINUED false
                (setDisplay PREVIOUS_BURSARY_DETAILS false
                  (setDisplay DISABILITY_DETAILS false
                    (setDisplay ORPHAN_NOTE false html)))) in
  checkFirst (isOption "singleParent" "No")
    (checkFirst (isOption "previousBursary" "No")
      (checkFirst (isOption "disability" "No")
        (checkFirst (isOption "orphan" "No") st))).

(** [validateStep]: the section is found by its [data-step] attribute
    and dereferenced without a test, as in [Legacy] ([None]: the call
    throws).  The loop over the required controls is the one part_000
    kept, with its messages and its [focus()] on every control it stops
    on; no control is skipped and there is no loop over the radio
    groups. *)
Definition validateStep (step : Z) (st : State) : option bool * State :=
  match sectionAt step st with
  | None => (None, st)
  | Some sec =>
      match Cached.firstInvalid (Staticfiles.requiredEls sec) with
      | Some (el, m) => (Some false, focus (el_id el) (showError m st))
      | None => (Some true, clearMessages st)
      end
  end.

(** The page [goToStep(n)] leaves. *)
Definition goToStep (n : Z) (st : State) : State :=
  if decide (n > currentStep st) then
    match validateStep (currentStep st) st with
    | (Some ok, st1) => if negb ok then st1 else set_currentStep n st1
    | (None, st1) => st1
    end
  else set_currentStep n st.

End Root.

(** ** static/app.js, second script: the help chatbot (static/chatbot.js)

    String methods of JavaScript on strings of code units below 256. *)
Module JsString.

(** [s.includes(sub)] *)
Fixpoint includes (s sub : string) : bool :=
  String.prefix sub s
  || match s with
     | EmptyString => false
     | String _ rest => includes rest sub
     end.

(** [toLowerCase] on one code unit: A-Z and the capital letters of
    Latin-1 (U+00C0 to U+00DE, the multiplication sign excepted). *)
Definition lowerUnit (c : Ascii.ascii) : Ascii.ascii :=
  let n := Ascii.nat_of_ascii c in
  if ((65 <=? n) && (n <=? 90)
      || (192 <=? n) && (n <=? 222) && negb (n =? 215))%nat
  then Ascii.ascii_of_nat (n + 32)
  else c.

Fixpoint toLowerCase (s : string) : string :=
  match s with
  | EmptyString => EmptyString
  | String c rest => String (lowerUnit c) (toLowerCase rest)
  end.

(** [s.trim()] *)
Fixpoint trimStart (s : string) : string :=
  match s with
  | EmptyString => EmptyString
  | String c rest => if isWhiteSpace c then trimStart rest else s
  end.

Fixpoint trimEnd (s : string) : string :=
  match s with
  | EmptyString => EmptyString
  | String c rest =>
      match trimEnd rest with
      | EmptyString => if isWhiteSpace c then EmptyString else String c EmptyString
      | kept => String c kept
      end
  end.

Definition trim (s : string) : string := trimEnd (trimStart s).

(** [s.split(sep)] for a separator of one code unit. *)
Fixpoint split (sep : Ascii.ascii) (s : string) : list string :=
  match s with
  | EmptyString => [EmptyString]
  | String c rest =>
      if Ascii.eqb c sep then EmptyString :: split sep rest
      else
        match split sep rest with
        | [] => [String c EmptyString]
        | piece :: pieces => String c piece :: pieces
        end
  end.

(** [s.substring(0, k)] and [s.substring(k)] *)
Definition substringTo (k : nat) (s : string) : string := String.substring 0 k s.
Definition substringFrom (k : nat) (s : string) : string :=
  String.substring k (String.length s - k) s.

End JsString.

Module Chatbot.

(** An entry of [this.knowledgeBase]; the text of the response is left
    out, a reply being named by the key of its entry. *)
Record Entry := {
  keywords : list string;
  quickReplies : list string;
  contact : bool                   (* the entry has a contact card *)
}.

(** The table built by the constructor, in insertion order (the order
    [Object.entries] walks it). *)
Definition knowledgeBase : list (string * Entry) :=
  [ ("application",
     {| keywords := ["apply"; "application"; "how to"; "submit"; "process";
                     "start"; "begin"];
        quickReplies := ["Documents needed"; "Eligibility"; "Deadline"];
        contact := false |});
    ("documents",
     {| keywords := ["document"; "attach"; "upload"; "file"; "required";
                     "papers"; "what to upload"];
        quickReplies := ["File format"; "File size"; "Upload issues"];
        contact := false |});
    ("eligibility",
     {| keywords := ["eligible"; "qualify"; "who can"; "requirements";
                     "criteria"; "can i apply"];
        quickReplies := ["Income limits"; "Disability support"; "Orphan benefits"];
        contact := false |});
    ("amount",
     {| keywords := ["amount"; "how much"; "money"; "fee"; "tuition";
                     "request"; "payment"];
        quickReplies := ["Calculation"; "Priority factors"];
        contact := false |});
    ("deadline",
     {| keywords := ["deadline"; "when"; "date"; "close"; "last day"; "time";
                     "closing"];
        quickReplies := ["Ward office location"; "Extension possible?"];
        contact := false |});
    ("contact",
     {| keywords := ["contact"; "phone"; "email"; "office"; "help"; "support";
                     "reach"; "call"];
        quickReplies := [];
        contact := true |});
    ("errors",
     {| keywords := ["error"; "problem"; "not working"; "issue"; "bug";
                     "failed"; "cant"; "cannot"; "help"];
        quickReplies := ["File issues"; "Form errors"; "Technical support"];
        contact := false |});
    ("status",
     {| keywords := ["status"; "check"; "track"; "progress";
                     "application number"; "result"; "approved"; "rejected"];
        quickReplies := ["Forgot application number"; "Contact office"];
        contact := false |});
    ("format",
     {| keywords := ["file format"; "type of file"; "what format"; "pdf";
                     "jpg"; "png"];
        quickReplies := ["How to convert to PDF"; "File size limit"];
        contact := false |});
    ("size",
     {| keywords := ["file size"; "too large"; "too big"; "compress"; "reduce"];
        quickReplies := ["Compress PDF online"; "Reduce image size"];
        contact := false |}) ].

(** The quick replies under the greeting and under the default
    response. *)
Definition greetingReplies : list string :=
  ["Application process"; "Required documents"; "Eligibility"; "Contact support"].
Definition defaultReplies : list string :=
  ["Application process"; "Documents"; "Eligibility"; "Contact support";
   "Deadlines"].

(** What [processMessage] schedules: the response of an entry (with its
    quick replies and contact card), or the default response. *)
Inductive Reply :=
  | Answer (key : string)
  | NotSure.

(** [data.keywords.some(keyword => lowerMessage.includes(keyword))] *)
Definition matches (lowerMessage : string) (entry : string * Entry) : bool :=
  existsb (fun keyword => JsString.includes lowerMessage keyword)
    (keywords entry.2).

(** [processMessage], [kb] being [this.knowledgeBase]: the first entry
    with a matching keyword answers. *)
Definition processMessage (kb : list (string * Entry)) (message : string) : Reply :=
  let lowerMessage := JsString.toLowerCase message in
  match List.find (matches lowerMessage) kb with
  | Some entry => Answer entry.1
  | None => NotSure
  end.

(** [sendMessage], as far as the message goes: nothing is sent for a
    blank input or while the bot is typing; otherwise the trimmed input
    is handed to [processMessage]. *)
Definition sendMessage (kb : list (string * Entry)) (isTyping : bool)
    (input : string) : option Reply :=
  let message := JsString.trim input in
  if bool_decide (message = "") || isTyping then None
  else Some (processMessage kb message).

(** [handleQuickReply(reply)]: the text of the button is put into the
    input and sent. *)
Definition handleQuickReply (kb : list (string * Entry)) (isTyping : bool)
    (reply : string) : option Reply :=
  sendMessage kb isTyping reply.

End Chatbot.

(** ** static/app.js, second script: [getCookie] *)
Module Cookie.
Section Script.

(** [decodeURIComponent]: [None] when it throws URIError. *)
Variable decodeURIComponent : string -> option string.

(** How a call ends: a value returned ([null] is [None]) or an exception
    thrown. *)
Inductive Completion :=
  | Returns (cookieValue : option string)
  | Throws.

(** The separator of [document.cookie.split(';')]. *)
Definition SEMICOLON : Ascii.ascii := Ascii.ascii_of_nat 59.

(** The loop over [cookies]. *)
Fixpoint scan (name : string) (cookies : list string) : Completion :=
  match cookies with
  | [] => Returns None
  | c :: rest =>
      let cookie := JsString.trim c in
      if String.eqb (JsString.substringTo (String.length name + 1) cookie)
           (name +:+ "=")
      then
        match decodeURIComponent
                (JsString.substringFrom (String.length name + 1) cookie) with
        | Some v => Returns (Some v)
        | None => Throws
        end
      else scan name rest
  end.

Definition getCookie (name : string) (documentCookie : string) : Completion :=
  if bool_decide (documentCookie = "") then Returns None
  else scan name (JsString.split SEMICOLON documentCookie).

End Script.
End Cookie.

(** ** Notions used by the further properties *)

(** Every control inside the container [id] carries the [required]
    attribute that was recorded for it, if one was recorded. *)
Definition originalsInSync (id : string) (st : State) : bool :=
  forallb
    (fun el =>
       negb (isDescendantOf id el)
       || match el_originalRequired el with
          | Some b => Bool.eqb (el_required el) b
          | None => true
          end)
    (allFields st).

(** What the user entered into a control. *)
Definition entered (el : Element) : string * bool * nat :=
  (el_value el, el_checked el, el_files el).

(** What [showHideConditional] does to one control of the page, [c]
    telling whether the container exists. *)
Definition touch (c : bool) (id : string) (show : bool) (el : Element) : Element :=
  if c && isDescendantOf id el then Staticfiles.showHideField show el else el.

(** The part of the state that the conditional-visibility code leaves
    alone. *)
Definition sameNavigation (st st' : State) : Prop :=
  currentStep st' = currentStep st /\ containers st' = containers st
  /\ hasError st' = hasError st /\ banner st' = banner st
  /\ focused st' = focused st /\ submitDisabled st' = submitDisabled st
  /\ submitText st' = submitText st /\ dialogs st' = dialogs st
  /\ submitted st' = submitted st.

(** The answers to [confirm] dialogs that come with an event (only a
    click or a submit event can open a dialog). *)
Definition answersOf (ev : Staticfiles.Event) : Prompt -> bool :=
  match ev with
  | Staticfiles.Click _ answer | Staticfiles.Submit answer => answer
  | _ => fun _ => false
  end.

(** The verdict of the financial rule on the three amounts of the page. *)
Definition financiallyValid (parseFloat : string -> float)
    (answer : Prompt -> bool) (st : State) : bool :=
  fin_ok (Staticfiles.financialRule answer
            (fieldNumber parseFloat ID_INCOME st)
            (fieldNumber parseFloat ID_TUITION st)
            (fieldNumber parseFloat ID_AMOUNT st)).

(** The example page of part_000 on step 2, asking for more than the
    tuition fee. *)
Definition cachedPageAskingTooMuch : State :=
  set_currentStep 2 (Cached.init (examplePage "0" "10000" "15000")).

(** The layout of the financial step: the amount field is a required
    control of the second section, not a file input and outside every
    hidden conditional block, and no control of the first section bears
    its id. *)
Definition amountFieldOnStep2 (st : State) : bool :=
  match sections st with
  | s1 :: sec :: _ =>
      negb (existsb (hasId ID_AMOUNT) (sec_fields s1))
      && match List.find (hasId ID_AMOUNT) (sec_fields sec) with
         | Some el =>
             el_required el && negb (bool_decide (el_type el = "file"))
             && negb (inHiddenConditional (shown st) el)
         | None => false
         end
  | _ => false
  end.

(** The test of the blur handler:
    [amountRequested > tuitionFee && tuitionFee > 0]. *)
Definition amountExceedsTuition (parseFloat : string -> float) (st : State)
    : bool :=
  JsNum.js_gt (fieldNumber parseFloat ID_AMOUNT st)
    (fieldNumber parseFloat ID_TUITION st)
  && JsNum.js_gt (fieldNumber parseFloat ID_TUITION st) 0.

(** A control that holds nothing the user entered, in the sense of the
    clearing of static/app.js: a radio button is unchecked; a select, a
    textarea, a text or a number input is empty. *)
Definition cleared (el : Element) : Prop :=
  if bool_decide (el_type el = "radio") then el_checked el = false
  else if bool_decide (el_tag el = SELECT) || bool_decide (el_tag el = TEXTAREA)
          || bool_decide (el_type el = "text")
          || bool_decide (el_type el = "number")
  then el_value el = ""
  else True.

(** Every control inside the container [id] is cleared. *)
Definition blockCleared (id : string) (st : State) : Prop :=
  Forall (fun el => isDescendantOf id el = true -> cleared el) (allFields st).

(** The five conditional containers of staticfiles/app.js. *)
Definition FIVE_BLOCKS : list string :=
  [ORPHAN_NOTE; DISABILITY_DETAILS; PREVIOUS_BURSARY_DETAILS;
   PREVIOUS_BURSARY_DETAILS_CONTINUED; PROVIDER_NOTE].

(** The control lies inside the container [id] and inside no other of
    the five. *)
Definition onlyInside (id : string) (el : Element) : Prop :=
  isDescendantOf id el = true
  /\ forall id', In id' FIVE_BLOCKS -> id' <> id -> isDescendantOf id' el = false.

(** No control carries [required] inside a conditional block that does
    not carry [show]. *)
Definition requiredOnlyWhenShown (st : State) : Prop :=
  forall el id,
    In el (allFields st) -> In id FIVE_BLOCKS -> id ∈ containers st ->
    onlyInside id el -> el_required el = true -> id ∈ shown st.

(** What the invariant reads of a control. *)
Definition requiredView (el : Element) : bool * list Container :=
  (el_required el, el_ancestors el).

(** Whether a keyword contains a keyword of one of the entries
    [earlier]. *)
Definition shadowedBy (earlier : list (string * Chatbot.Entry))
    (keyword : string) : bool :=
  existsb (Chatbot.matches keyword) earlier.

(** The keywords of a table that contain a keyword of an earlier entry,
    each with the key of its own entry. *)
Fixpoint shadowedKeywords (earlier rest : list (string * Chatbot.Entry))
    : list (string * string) :=
  match rest with
  | [] => []
  | entry :: rest' =>
      map (fun keyword => (entry.1, keyword))
        (List.filter (shadowedBy earlier) (Chatbot.keywords entry.2))
      ++ shadowedKeywords (earlier ++ [entry]) rest'
  end.

(** Every quick reply the bot offers: under the greeting, under the
    default response and under the entries of the table. *)
Definition offeredReplies : list string :=
  Chatbot.greetingReplies ++ Chatbot.defaultReplies
  ++ concat (map (fun entry => Chatbot.quickReplies entry.2)
               Chatbot.knowledgeBase).

(** Cookies as [document.cookie] lists them: the pairs [name=value]
    joined by a semicolon and a space. *)
Fixpoint cookieString (jar : list (string * string)) : string :=
  match jar with
  | [] => ""
  | [(n, v)] => n +:+ "=" +:+ v
  | (n, v) :: rest => n +:+ "=" +:+ v +:+ "; " +:+ cookieString rest
  end.

Fixpoint allUnits (p : Ascii.ascii -> bool) (s : string) : bool :=
  match s with
  | EmptyString => true
  | String c rest => p c && allUnits p rest
  end.

(** A cookie value holds no white space and no semicolon; a cookie name
    holds no equals sign either. *)
Definition isCookieUnit (c : Ascii.ascii) : bool :=
  negb (isWhiteSpace c) && negb (Ascii.eqb c Cookie.SEMICOLON).
Definition isNameUnit (c : Ascii.ascii) : bool :=
  isCookieUnit c && negb (Ascii.eqb c (Ascii.ascii_of_nat 61)).
Definition wellFormedJar (jar : list (string * string)) : Prop :=
  Forall (fun p => allUnits isNameUnit p.1 = true
                   /\ allUnits isCookieUnit p.2 = true) jar.

(** The value of the first cookie of the jar named [name]. *)
Definition jarLookup (name : string) (jar : list (string * string))
    : option string :=
  snd <$> List.find (fun p => String.eqb p.1 name) jar.

(** What [getCookie] makes of a cookie value found. *)
Definition decoded (decodeURIComponent : string -> option string)
    (found : option string) : Cookie.Completion :=
  match found with
  | None => Cookie.Returns None
  | Some v =>
      match decodeURIComponent v with
      | Some text => Cookie.Returns (Some text)
      | None => Cookie.Throws
      end
  end.

(** The example page on step 2 with 5000 asked against a tuition fee of
    10000. *)
Definition pageWithinBudget : State :=
  set_currentStep 2 (Staticfiles.init (examplePage "0" "10000" "5000")).

(** A page of static/app.js with the two parent blocks filled in, the
    applicant then answering that he or she is an orphan. *)
Definition parentsPage : State :=
  {| currentStep := 1;
     sections :=
       [ {| sec_fields :=
              radioPair "orphan" (Some "True") []
              ++ [ textInput "fatherName" "John" true
                     [conditional Static.PARENT_INFO_GROUP] ]
              ++ radioPair "singleParent" (Some "True")
                   [conditional Static.PARENTAL_STATUS_GROUP];
            sec_radioGroups := [] |} ];
     containers :=
       {[ Static.PARENT_INFO_GROUP; Static.PARENTAL_STATUS_GROUP; PROVIDER_NOTE ]};
     shown := {[ Static.PARENT_INFO_GROUP; Static.PARENTAL_STATUS_GROUP ]};
     hasError := ∅;
     banner := BannerNone;
     focused := None;
     submitDisabled := false;
     submitText := "Submit Application";
     dialogs := [];
     submitted := false |}.

(** Two cookies, and a [decodeURIComponent] that decodes nothing away. *)
Definition exampleJar : list (string * string) :=
  [("sessionid", "abc123"); ("csrftoken", "tok-1")].
Definition decodePlain : string -> option string := Some.

Ltac member :=
  match goal with
  | |- ?x ∈ ?X => apply (bool_decide_unpack (x ∈ X)); vm_compute; exact I
  end.

(** The example page filled in to the end, 15000 asked against a
    tuition fee of 10000, as the start-up code and one edit leave it. *)
Definition pageSignedAskingTooMuch : State :=
  Staticfiles.step parseDecimal allRendered
    (Staticfiles.Edit "signature" "Jane")
    (Staticfiles.init (examplePage "0" "10000" "15000")).

(** A page for the root script: the groups orphan and bothParentsAlive
    with their options 'Yes' and 'No', nothing checked. *)
Definition yesNo (name : string) : list Element :=
  [ radioInput (name +:+ "_yes") name "Yes" false [];
    radioInput (name +:+ "_no") name "No" false [] ].

Definition rootPage : State :=
  set_sections
    [ {| sec_fields :=
           yesNo "orphan" ++ yesNo "disability" ++ yesNo "previousBursary"
           ++ yesNo "bothParentsAlive" ++ yesNo "singleParent";
         sec_radioGroups := [] |} ]
    (examplePage "" "" "").

(** The answers a page holds for the two groups that decide on
    [providerNote]. *)
Definition parentAnswers (st : State) : option string * option string :=
  (getRadioValue "orphan" st, getRadioValue "bothParentsAlive" st).

(** Every input of the page named [name] is a radio button. *)
Definition radioGroup (name : string) (st : State) : bool :=
  forallb
    (fun el =>
       negb (bool_decide (el_tag el = INPUT) && bool_decide (el_name el = name))
       || bool_decide (el_type el = "radio"))
    (allFields st).

(** In the root script: the control lies inside one of the five
    containers, and that container is not displayed (after start-up each
    of the five carries the [style.display] the script gave it). *)
Definition insideHiddenBlock (st : State) (el : Element) : bool :=
  existsb
    (fun id => isDescendantOf id el && negb (bool_decide (id ∈ shown st)))
    FIVE_BLOCKS.

(** A page on which the applicant's answer to orphan is already checked
    when the script starts (a form sent back by the server), for the
    scripts with the values 'True' and 'False' and for the root script. *)
Definition pageOrphanChecked : State :=
  set_sections
    [ {| sec_fields := radioPair "orphan" (Some "True") [];
         sec_radioGroups := [] |} ]
    (examplePage "" "" "").

Definition rootPageOrphanChecked : State :=
  set_sections
    [ {| sec_fields :=
           [ radioInput "orphan_yes" "orphan" "Yes" true [];
             radioInput "orphan_no" "orphan" "No" false [] ]
           ++ yesNo "disability" ++ yesNo "previousBursary"
           ++ yesNo "bothParentsAlive" ++ yesNo "singleParent";
         sec_radioGroups := [] |} ]
    (examplePage "" "" "").

(** What the start-up code of the root script dereferences without a
    test: the five containers and the option 'No' of its four groups. *)
Definition rootPageComplete (st : State) : bool :=
  forallb (fun id => bool_decide (id ∈ containers st)) FIVE_BLOCKS
  && forallb (fun name => existsb (isOption name "No") (allFields st))
       DEFAULTED_GROUPS.

(** A page for the root script whose first step holds a name, filled in,
    four radio groups and a required text field inside
    [disabilityDetails]. *)
Definition rootFormPage : State :=
  set_sections
    [ {| sec_fields :=
           textInput "fullName" "Jane" true []
           :: yesNo "orphan" ++ yesNo "disability"
           ++ [ textInput "disabilityNature" "" true
                  [conditional DISABILITY_DETAILS] ]
           ++ yesNo "previousBursary" ++ yesNo "singleParent";
         sec_radioGroups := [] |};
      {| sec_fields := [ textInput ID_TUITION "10000" true [] ];
         sec_radioGroups := [] |} ]
    (examplePage "" "" "").

(** The two pages of the root script as its start-up code leaves them. *)
Definition rootFormServed : State := Root.init rootFormPage.
Definition rootPageServed : State := Root.init rootPage.

(** Its first section, and the field inside [disabilityDetails]. *)
Definition rootFormStep1 : FormSection :=
  match sectionAt 1 rootFormServed with
  | Some sec => sec
  | None => {| sec_fields := []; sec_radioGroups := [] |}
  end.
Definition disabilityNature : Element :=
  textInput "disabilityNature" "" true [conditional DISABILITY_DETAILS].

(** The page of part_000 on its last step, signed, the amounts left
    empty. *)
Definition cachedPageSigned : State :=
  Cached.step parseDecimal allRendered (Cached.Edit "signature" "Jane")
    cachedPageOnLastStep.

(** A page without the tuition field, filled in except for the
    signature, on step 2. *)
Definition pageWithoutTuition : State :=
  set_currentStep 2
    (Staticfiles.init
       (set_sections
          [ {| sec_fields :=
                 textInput "fullName" "Jane" true [] :: radioPair "orphan" None [];
               sec_radioGroups := [] |};
            {| sec_fields :=
                 [ textInput ID_INCOME "0" true [];
                   textInput ID_AMOUNT "5000" true [];
                   textInput ID_REASON "fees" true [] ];
               sec_radioGroups := [] |};
            {| sec_fields := [ textInput "signature" "" true [] ];
               sec_radioGroups := [] |} ]
          (examplePage "" "" ""))).

(** The example page of part_000 on step 2, nothing asked against a
    tuition fee of 10000. *)
Definition cachedPageAskingNothing : State :=
  set_currentStep 2 (Cached.init (examplePage "0" "10000" "0")).

(** * Properties *)

(** ** Order of JavaScript numbers *)

Module JsFacts.
Import JsNum.

(** Order facts on the specification side ([SpecFloat]). *)
Lemma SFcompare_swap x y c :
  SFcompare x y = Some c -> SFcompare y x = Some (CompOpp c).
Proof.
  destruct x as [sx|sx| |sx mx ex], y as [sy|sy| |sy my ey]; simpl;
    try discriminate;
    try (intros [= <-]; try destruct sx; try destruct sy; reflexivity).
  intros [= <-]. f_equal.
  change (Pos.compare_cont Eq mx my) with (Pos.compare mx my).
  change (Pos.compare_cont Eq my mx) with (Pos.compare my mx).
  rewrite (Z.compare_antisym ex ey), (Pos.compare_antisym mx my).
  destruct sx, sy, (ex ?= ey)%Z, (mx ?= my)%positive; reflexivity.
Qed.

Lemma SFcompare_eq_inv x y :
  SFcompare x y = Some Eq ->
  x = y \/ exists s1 s2, x = S754_zero s1 /\ y = S754_zero s2.
Proof.
  destruct x as [sx|sx| |sx mx ex], y as [sy|sy| |sy my ey]; simpl;
    try discriminate; try (destruct sx; discriminate);
    try (destruct sy; discriminate).
  - right; eauto.
  - destruct sx, sy; try discriminate; auto.
  - change (Pos.compare_cont Eq mx my) with (Pos.compare mx my).
    intros H. left.
    assert (sx = sy /\ ex = ey /\ mx = my) as (-> & -> & ->); [|reflexivity].
    destruct sx, sy; try discriminate;
      destruct (ex ?= ey)%Z eqn:He; try discriminate;
      apply Z.compare_eq in He;
      destruct (mx ?= my)%positive eqn:Hm; try discriminate;
      apply Pos.compare_eq in Hm; auto.
Qed.

Lemma SFcompare_eq_right z x y :
  SFcompare x y = Some Eq -> SFcompare z x = SFcompare z y.
Proof.
  intros [->|(s1 & s2 & -> & ->)]%SFcompare_eq_inv; [reflexivity|].
  destruct z; reflexivity.
Qed.

Lemma gt_not_le x y : js_gt x y = true -> js_le x y = false.
Proof.
  unfold js_gt, js_le. rewrite FloatAxioms.ltb_spec, FloatAxioms.leb_spec. unfold SFltb, SFleb.
  destruct (SFcompare (Prim2SF y) (Prim2SF x)) as [c|] eqn:H; [|discriminate].
  apply SFcompare_swap in H. rewrite H. destruct c; simpl; congruence.
Qed.

Lemma le_not_gt x y : js_le x y = true -> js_gt x y = false.
Proof.
  intros H. destruct (js_gt x y) eqn:G; [|reflexivity].
  apply gt_not_le in G. congruence.
Qed.

Lemma eq_not_gt x y : js_eq x y = true -> js_gt x y = false.
Proof.
  unfold js_gt, js_eq. rewrite FloatAxioms.ltb_spec, FloatAxioms.eqb_spec. unfold SFltb, SFeqb.
  destruct (SFcompare (Prim2SF x) (Prim2SF y)) as [c|] eqn:H; [|discriminate].
  apply SFcompare_swap in H. rewrite H. destruct c; simpl; congruence.
Qed.

Lemma eq_gt_compat x y z : js_eq x y = true -> js_gt y z = true -> js_gt x z = true.
Proof.
  unfold js_gt, js_eq. rewrite !FloatAxioms.ltb_spec, FloatAxioms.eqb_spec. unfold SFltb, SFeqb.
  destruct (SFcompare (Prim2SF x) (Prim2SF y)) as [[]|] eqn:H; try discriminate.
  rewrite (SFcompare_eq_right (Prim2SF z) _ _ H). auto.
Qed.

(** Above a positive number there are only positive numbers. *)
Lemma gt_pos_pos t a : js_gt t 0 = true -> js_gt a t = true -> js_gt a 0 = true.
Proof.
  unfold js_gt. rewrite !FloatAxioms.ltb_spec. unfold SFltb.
  change (Prim2SF 0) with (S754_zero false).
  destruct (Prim2SF t) as [st|st| |st mt et], (Prim2SF a) as [sa|sa| |sa ma ea];
    simpl; try discriminate; try (destruct st; discriminate);
    try (destruct sa; try discriminate; reflexivity);
    try (destruct st, sa; discriminate).
  destruct st; try discriminate. destruct sa; [discriminate|reflexivity].
Qed.

(** A number that has something above it and is not [<= 0] is positive. *)
Lemma below_not_le_pos t a :
  js_gt a t = true -> js_le t 0 = false -> js_gt t 0 = true.
Proof.
  unfold js_gt, js_le.
  rewrite !FloatAxioms.ltb_spec, FloatAxioms.leb_spec. unfold SFltb, SFleb.
  change (Prim2SF 0) with (S754_zero false).
  destruct (Prim2SF t) as [st|st| |st mt et]; simpl;
    try discriminate; try (destruct st; (discriminate || reflexivity)).
Qed.

End JsFacts.

Section Properties.

Variable parseFloat : string -> float.
Variable offsetParentSet : Z -> gset string -> string -> bool.

(** ** What a handler leaves untouched *)

Lemma sameDocument_refl st : sameDocument st st.
Proof. repeat split. Qed.

Lemma sameDocument_trans a b c :
  sameDocument a b -> sameDocument b c -> sameDocument a c.
Proof. unfold sameDocument. intuition congruence. Qed.

Lemma sameControl_trans a b c :
  sameControl a b -> sameControl b c -> sameControl a c.
Proof. unfold sameControl. intuition congruence. Qed.

Lemma validateStep_frame step st :
  sameDocument st (Staticfiles.validateStep offsetParentSet step st).2
  /\ sameControl st (Staticfiles.validateStep offsetParentSet step st).2
  /\ dialogs (Staticfiles.validateStep offsetParentSet step st).2 = dialogs st.
Proof.
  unfold Staticfiles.validateStep, sameDocument, sameControl.
  destruct (sectionAt step st) as [sec|]; [|simpl; tauto].
  destruct (Staticfiles.firstInvalid _ _) as [[el m]|].
  - destruct (bool_decide _); simpl; tauto.
  - destruct (Staticfiles.firstUnanswered _ _ _ _ _ _) as [[[g l]|] he];
      simpl; tauto.
Qed.

Lemma applyOutcome_frame o st :
  sameDocument st (applyOutcome o st).2 /\ sameControl st (applyOutcome o st).2.
Proof.
  unfold applyOutcome, focusCached.
  assert (forall l s, sameDocument s (fold_left (fun s p => add_dialog p s) l s)
                      /\ sameControl s (fold_left (fun s p => add_dialog p s) l s))
    as Hfold.
  { induction l as [|p l IH]; intros s; simpl.
    - split; repeat split.
    - destruct (IH (add_dialog p s)) as [Hd Hc]. split.
      + eapply sameDocument_trans; [|exact Hd]. repeat split.
      + eapply sameControl_trans; [|exact Hc]. repeat split. }
  destruct (Hfold (fin_asked o) st) as [Hd Hc].
  destruct (fin_error o), (fin_focus o) as [id|]; cbv zeta;
    try destruct (getElementById id _); cbn [snd]; split;
    first [ eapply sameDocument_trans; [exact Hd|repeat split]
          | eapply sameControl_trans; [exact Hc|repeat split] ].
Qed.

(** The value [applyOutcome] returns is the one decided, unless the
    control to focus is missing. *)
Lemma applyOutcome_value o st :
  (applyOutcome o st).1
  = match fin_focus o with
    | Some id =>
        match getElementById id st with
        | Some _ => Some (fin_ok o)
        | None => None
        end
    | None => Some (fin_ok o)
    end.
Proof.
  unfold applyOutcome, focusCached.
  assert (forall l s,
            sections (fold_left (fun s p => add_dialog p s) l s) = sections s)
    as Hfold.
  { induction l as [|p l IH]; intros s; simpl; [reflexivity|].
    rewrite IH. reflexivity. }
  destruct (fin_focus o) as [id|]; [|reflexivity]. cbv zeta.
  assert (getElementById id
            match fin_error o with
            | Some m =>
                showError m
                  (fold_left (fun s p => add_dialog p s) (fin_asked o) st)
            | None => fold_left (fun s p => add_dialog p s) (fin_asked o) st
            end = getElementById id st) as ->.
  { unfold getElementById, allFields.
    destruct (fin_error o); cbn [sections showError set_banner];
      rewrite Hfold; reflexivity. }
  destruct (getElementById id st); reflexivity.
Qed.

Lemma applyOutcome_passes o st :
  fin_ok o = false -> (applyOutcome o st).1 <> Some true.
Proof.
  intros Hbad. rewrite applyOutcome_value, Hbad.
  destruct (fin_focus o) as [id|]; [destruct (getElementById id st)|];
    discriminate.
Qed.

Lemma applyOutcome_banner o st :
  banner (applyOutcome o st).2
  = match fin_error o with Some m => BannerError m | None => banner st end.
Proof.
  unfold applyOutcome, focusCached.
  assert (forall l s,
            banner (fold_left (fun s p => add_dialog p s) l s) = banner s)
    as Hfold.
  { induction l as [|p l IH]; intros s; simpl; [reflexivity|].
    rewrite IH. reflexivity. }
  destruct (fin_error o), (fin_focus o) as [id|]; cbv zeta;
    try destruct (getElementById id _); cbn; rewrite ?Hfold; reflexivity.
Qed.

Lemma applyOutcome_dialogs o st :
  dialogs (applyOutcome o st).2 = dialogs st ++ fin_asked o.
Proof.
  unfold applyOutcome, focusCached.
  assert (forall l s,
            dialogs (fold_left (fun s p => add_dialog p s) l s) = dialogs s ++ l)
    as Hfold.
  { induction l as [|p l IH]; intros s; simpl.
    - rewrite app_nil_r. reflexivity.
    - rewrite IH. cbn. rewrite <- app_assoc. reflexivity. }
  destruct (fin_error o), (fin_focus o) as [id|]; cbv zeta;
    try destruct (getElementById id _); cbn; rewrite ?Hfold; reflexivity.
Qed.

Lemma fieldNumber_sections id st st' :
  sections st' = sections st ->
  fieldNumber parseFloat id st' = fieldNumber parseFloat id st.
Proof.
  intros H. unfold fieldNumber, getElementById, allFields. rewrite H. reflexivity.
Qed.

(** [validateStep] decides on the document alone. *)
Lemma validateStep_document step st st' :
  sameDocument st st' ->
  (Staticfiles.validateStep offsetParentSet step st').1
  = (Staticfiles.validateStep offsetParentSet step st).1.
Proof.
  intros (Hc & Hs & Hsh & _). unfold Staticfiles.validateStep, sectionAt.
  rewrite Hc, Hs, Hsh.
  destruct (decide (step - 1 < 0)); [reflexivity|].
  destruct (sections st !! Z.to_nat (step - 1)) as [sec|]; [|reflexivity].
  destruct (Staticfiles.firstInvalid _ _) as [[el m]|]; [reflexivity|].
  assert (forall groups he he',
    (Staticfiles.firstUnanswered offsetParentSet (currentStep st) (shown st)
       sec groups he).1 = None <->
    (Staticfiles.firstUnanswered offsetParentSet (currentStep st) (shown st)
       sec groups he').1 = None) as Hhe.
  { induction groups as [|g groups IH]; intros he he'; simpl; [tauto|].
    destruct (rg_requiredLabel g); [|apply IH].
    destruct (_ && _); [|apply IH].
    destruct (sectionHasChecked _ _); [apply IH|simpl; split; discriminate]. }
  specialize (Hhe (sec_radioGroups sec) (hasError st) (hasError st')).
  destruct (Staticfiles.firstUnanswered _ _ _ _ _ (hasError st'))
    as [[[g l]|] he] eqn:E1;
  destruct (Staticfiles.firstUnanswered _ _ _ _ _ (hasError st))
    as [[[g' l']|] he'] eqn:E2; simpl in *; try reflexivity;
    destruct Hhe as [H1 H2];
    first [discriminate (H1 eq_refl) | discriminate (H2 eq_refl)].
Qed.

(** ** Navigation (goToStep) *)

Lemma validateFinancialFields_frame answer st :
  sameDocument st (Staticfiles.validateFinancialFields parseFloat answer st).2
  /\ sameControl st (Staticfiles.validateFinancialFields parseFloat answer st).2.
Proof. unfold Staticfiles.validateFinancialFields. apply applyOutcome_frame. Qed.

(** [goToStep] either stays on the current step or lands on its target,
    and never touches the document or the submit control. *)
Lemma goToStep_frame answer n st :
  let st' := Staticfiles.goToStep parseFloat offsetParentSet answer n st in
  (currentStep st' = currentStep st \/ currentStep st' = n)
  /\ sections st' = sections st /\ shown st' = shown st
  /\ containers st' = containers st /\ sameControl st st'.
Proof.
  unfold Staticfiles.goToStep, Staticfiles.goToStepCall.
  destruct (decide (n > currentStep st)); [|simpl; repeat split; auto].
  pose proof (validateStep_frame (currentStep st) st) as (Hd & Hctl & _).
  destruct (Staticfiles.validateStep _ _ _) as [ok st1]; cbn [fst snd] in *.
  unfold sameDocument, sameControl in *.
  destruct ok; cbn [negb snd]; [|intuition congruence].
  destruct (decide (currentStep st1 = 2));
    [|simpl; split; [right; reflexivity|intuition congruence]].
  pose proof (validateFinancialFields_frame answer st1) as (Hd2 & Hctl2).
  destruct (Staticfiles.validateFinancialFields _ _ _) as [[[|]|] st2];
    cbn [fst snd negb] in *;
  unfold sameDocument, sameControl in *;
    (split; [first [right; reflexivity | left; intuition congruence]
            |simpl; intuition congruence]).
Qed.

(** C3.  Forward navigation from a step that fails [validateStep] leaves
    [currentStep] where it is; backward navigation (a target that is not
    ahead of the current step) always lands on its target, whatever the
    validity of the current step.  Both copies of [goToStep]. *)
Theorem C3_goToStep_forward_gated_backward_free answer n st :
  (n > currentStep st ->
   (Staticfiles.validateStep offsetParentSet (currentStep st) st).1 = false ->
   currentStep (Staticfiles.goToStep parseFloat offsetParentSet answer n st)
   = currentStep st)
  /\ (n <= currentStep st ->
      currentStep (Staticfiles.goToStep parseFloat offsetParentSet answer n st) = n)
  /\ (n > currentStep st ->
      (Cached.validateStep offsetParentSet (currentStep st) st).1 = false ->
      currentStep (Cached.goToStep offsetParentSet n st) = currentStep st)
  /\ (n <= currentStep st ->
      currentStep (Cached.goToStep offsetParentSet n st) = n).
Proof.
  repeat split.
  - intros Hfwd Hbad. unfold Staticfiles.goToStep, Staticfiles.goToStepCall.
    destruct (decide (n > currentStep st)); [|lia].
    pose proof (validateStep_frame (currentStep st) st) as ((Hc & _) & _).
    destruct (Staticfiles.validateStep _ _ _) as [ok st1]; simpl in *.
    subst ok. simpl. exact Hc.
  - intros Hback. unfold Staticfiles.goToStep, Staticfiles.goToStepCall.
    destruct (decide (n > currentStep st)); [lia|reflexivity].
  - intros Hfwd Hbad. unfold Cached.goToStep.
    destruct (decide (n > currentStep st)); [|lia].
    revert Hbad. unfold Cached.validateStep.
    destruct (sectionAt _ _) as [sec|]; [|reflexivity].
    destruct (Cached.firstInvalid _) as [[el m]|]; [reflexivity|].
    destruct (Staticfiles.firstUnanswered _ _ _ _ _ _) as [[[grp lbl]|] he];
      simpl; [reflexivity|discriminate].
  - intros Hback. unfold Cached.goToStep.
    destruct (decide (n > currentStep st)); [lia|reflexivity].
Qed.

(** ** The financial cross-field rule *)

Lemma financialRule_exceeds answer income tuition amount :
  JsNum.js_gt amount tuition = true ->
  fin_ok (Staticfiles.financialRule answer income tuition amount) = false
  /\ fin_error (Staticfiles.financialRule answer income tuition amount)
     = Some (exceedsMessage tuition amount).
Proof.
  intros Hgt. unfold Staticfiles.financialRule, exceedsMessage.
  destruct (JsNum.js_le tuition 0) eqn:Ht; cbn; [split; reflexivity|].
  pose proof (JsFacts.below_not_le_pos _ _ Hgt Ht) as Hpos.
  rewrite (JsFacts.gt_not_le _ _ (JsFacts.gt_pos_pos _ _ Hpos Hgt)), Hgt.
  split; reflexivity.
Qed.

Lemma cached_financialRule_exceeds answer income tuition amount :
  JsNum.js_gt amount tuition = true ->
  fin_ok (Cached.financialRule answer income tuition amount) = false
  /\ fin_error (Cached.financialRule answer income tuition amount)
     = Some (exceedsMessage tuition amount).
Proof.
  intros Hgt. unfold Cached.financialRule, exceedsMessage.
  destruct (JsNum.js_le tuition 0) eqn:Ht; cbn; [split; reflexivity|].
  rewrite Hgt. split; reflexivity.
Qed.

Lemma financialRule_equal answer income tuition amount :
  JsNum.js_eq amount tuition = true ->
  JsNum.js_gt tuition 0 = true ->
  accepted answer (Staticfiles.financialRule answer income tuition amount) ->
  fin_ok (Staticfiles.financialRule answer income tuition amount) = true.
Proof.
  intros Heq Hpos. unfold accepted, Staticfiles.financialRule.
  rewrite (JsFacts.gt_not_le _ _ Hpos).
  rewrite (JsFacts.gt_not_le _ _ (JsFacts.eq_gt_compat _ _ _ Heq Hpos)).
  rewrite (JsFacts.eq_not_gt _ _ Heq).
  destruct (JsNum.js_lt amount _) eqn:Hlow;
    destruct (answer (AskBelowTenPercent amount)) eqn:A1;
    destruct (JsNum.js_gt income _) eqn:Hhigh;
    destruct (answer (AskIncomeHigh income)) eqn:A2;
    cbn; intros Hans; try reflexivity;
    exfalso;
    first [ assert (answer (AskBelowTenPercent amount) = true)
              by (apply Hans; cbn; auto); congruence
          | assert (answer (AskIncomeHigh income) = true)
              by (apply Hans; cbn; auto); congruence ].
Qed.

Lemma cached_financialRule_equal answer income tuition amount :
  JsNum.js_eq amount tuition = true ->
  JsNum.js_gt tuition 0 = true ->
  accepted answer (Cached.financialRule answer income tuition amount) ->
  fin_ok (Cached.financialRule answer income tuition amount) = true.
Proof.
  intros Heq Hpos. unfold accepted, Cached.financialRule.
  rewrite (JsFacts.gt_not_le _ _ Hpos).
  rewrite (JsFacts.eq_not_gt _ _ Heq).
  destruct (JsNum.js_lt amount _) eqn:Hlow;
    destruct (answer (AskBelowTenPercent amount)) eqn:A1;
    destruct (JsNum.js_gt income _) eqn:Hhigh;
    destruct (answer (AskIncomeHigh income)) eqn:A2;
    cbn; intros Hans; try reflexivity;
    exfalso;
    first [ assert (answer (AskBelowTenPercent amount) = true)
              by (apply Hans; cbn; auto); congruence
          | assert (answer (AskIncomeHigh income) = true)
              by (apply Hans; cbn; auto); congruence ].
Qed.

(** With an empty tuition field (read as 0) and 5000 requested the amount
    exceeds the tuition fee and the message is the one of the guard on
    the tuition fee. *)
Lemma tuition_guard_runs_first :
  JsNum.js_gt 5000 0 = true
  /\ fin_ok (Staticfiles.financialRule acceptAll 0 0 5000) = false
  /\ fin_error (Staticfiles.financialRule acceptAll 0 0 5000)
     = Some MsgTuitionPositive.
Proof. vm_compute. repeat split. Qed.

(** Leaving step 2 forward runs the rule, and a failed rule keeps the
    wizard on step 2. *)
Lemma goToStep_financial_gate answer n st :
  currentStep st = 2 -> n > 2 ->
  fin_ok (Staticfiles.financialRule answer
            (fieldNumber parseFloat ID_INCOME st)
            (fieldNumber parseFloat ID_TUITION st)
            (fieldNumber parseFloat ID_AMOUNT st)) = false ->
  currentStep (Staticfiles.goToStep parseFloat offsetParentSet answer n st) = 2.
Proof.
  intros Hcur Hn Hbad. unfold Staticfiles.goToStep, Staticfiles.goToStepCall.
  destruct (decide (n > currentStep st)); [|lia].
  pose proof (validateStep_frame (currentStep st) st) as ((Hc & Hs & _) & _).
  destruct (Staticfiles.validateStep _ _ _) as [ok st1]; cbn [fst snd] in *.
  destruct ok; cbn [negb snd]; [|congruence].
  destruct (decide (currentStep st1 = 2)); [|congruence].
  pose proof (validateFinancialFields_frame answer st1) as ((Hc2 & _) & _).
  assert ((Staticfiles.validateFinancialFields parseFloat answer st1).1
          <> Some true) as Hno.
  { unfold Staticfiles.validateFinancialFields.
    rewrite !(fieldNumber_sections _ _ _ Hs). apply applyOutcome_passes, Hbad. }
  destruct (Staticfiles.validateFinancialFields _ _ _) as [[[|]|] st2];
    cbn [fst snd negb] in *; congruence.
Qed.

(** The control the rule focuses when the amount exceeds the tuition
    fee exists, as soon as the tuition field does: an amount above a
    positive tuition fee was read from the amount field. *)
Lemma exceeding_focus_exists o st :
  let tuition := fieldNumber parseFloat ID_TUITION st in
  let amount := fieldNumber parseFloat ID_AMOUNT st in
  JsNum.js_gt amount tuition = true ->
  is_Some (getElementById ID_TUITION st) ->
  fin_focus o
  = Some (if JsNum.js_le tuition 0 then ID_TUITION else ID_AMOUNT) ->
  (applyOutcome o st).1 = Some (fin_ok o).
Proof.
  cbv zeta. intros Hgt [t Ht] Hfocus. rewrite applyOutcome_value, Hfocus.
  destruct (JsNum.js_le _ 0) eqn:Hle; [rewrite Ht; reflexivity|].
  pose proof (JsFacts.below_not_le_pos _ _ Hgt Hle) as Hpos.
  pose proof (JsFacts.gt_pos_pos _ _ Hpos Hgt) as Hapos.
  unfold fieldNumber in Hapos at 1.
  destruct (getElementById ID_AMOUNT st); [reflexivity|].
  vm_compute in Hapos. discriminate.
Qed.

Lemma financialRule_exceeds_focus answer income tuition amount :
  JsNum.js_gt amount tuition = true ->
  fin_focus (Staticfiles.financialRule answer income tuition amount)
  = Some (if JsNum.js_le tuition 0 then ID_TUITION else ID_AMOUNT).
Proof.
  intros Hgt. unfold Staticfiles.financialRule.
  destruct (JsNum.js_le tuition 0) eqn:Ht; cbn; [reflexivity|].
  pose proof (JsFacts.below_not_le_pos _ _ Hgt Ht) as Hpos.
  rewrite (JsFacts.gt_not_le _ _ (JsFacts.gt_pos_pos _ _ Hpos Hgt)), Hgt.
  reflexivity.
Qed.

Lemma cached_financialRule_exceeds_focus answer income tuition amount :
  JsNum.js_gt amount tuition = true ->
  fin_focus (Cached.financialRule answer income tuition amount)
  = Some (if JsNum.js_le tuition 0 then ID_TUITION else ID_AMOUNT).
Proof.
  intros Hgt. unfold Cached.financialRule.
  destruct (JsNum.js_le tuition 0) eqn:Ht; cbn; [reflexivity|].
  rewrite Hgt. reflexivity.
Qed.

Lemma financialRule_passes_quietly answer income tuition amount :
  fin_ok (Staticfiles.financialRule answer income tuition amount) = true ->
  fin_error (Staticfiles.financialRule answer income tuition amount) = None
  /\ fin_focus (Staticfiles.financialRule answer income tuition amount) = None.
Proof.
  unfold Staticfiles.financialRule.
  destruct (JsNum.js_le tuition 0); [discriminate|].
  destruct (JsNum.js_le amount 0); [discriminate|].
  destruct (JsNum.js_gt amount tuition); [discriminate|].
  cbv zeta. destruct (_ && _); [discriminate|].
  destruct (_ && _); [discriminate|]. split; reflexivity.
Qed.

Lemma cached_financialRule_passes_quietly answer income tuition amount :
  fin_ok (Cached.financialRule answer income tuition amount) = true ->
  fin_error (Cached.financialRule answer income tuition amount) = None
  /\ fin_focus (Cached.financialRule answer income tuition amount) = None.
Proof.
  unfold Cached.financialRule.
  destruct (JsNum.js_le tuition 0); [discriminate|].
  destruct (JsNum.js_gt amount tuition); [discriminate|].
  cbv zeta. destruct (_ && _); [discriminate|].
  destruct (_ && _); [discriminate|]. split; reflexivity.
Qed.

Lemma accepted_dialogsOpened answer o st :
  (forall p, In p (dialogsOpened st (applyOutcome o st).2) -> answer p = true) ->
  accepted answer o.
Proof.
  unfold dialogsOpened, accepted. rewrite applyOutcome_dialogs.
  rewrite drop_app_length. auto.
Qed.


(** C7 as stated fails: with 5000 requested, a tuition fee of 10000 and
    an income of 200000 the income exceeds ten times the tuition fee
    (100000), so the rule opens the income dialog; declined, the rule
    fails.  On the example page the move from step 2 to step 3 opens that
    dialog. *)
Lemma C7_counterexample_income_dialog :
  JsNum.js_gt 200000 (10000 * 10)%float = true
  /\ fin_asked (Staticfiles.financialRule acceptAll 200000 10000 5000)
     = [AskIncomeHigh 200000]
  /\ fin_ok (Staticfiles.financialRule declineAll 200000 10000 5000) = false
  /\ dialogs
       (Staticfiles.goToStep parseDecimal allRendered acceptAll 3
          (Staticfiles.goToStep parseDecimal allRendered acceptAll 2
             (Staticfiles.init (examplePage "200000" "10000" "5000"))))
     = [AskIncomeHigh 200000].
Proof. vm_compute. repeat split. Qed.

(** C7 (as amended).  With 5000 requested, a tuition fee of 10000 and an
    income of 200000 the rule shows no error and opens exactly one dialog,
    the one about the income, and passes exactly when it is accepted; with
    an income of 100000 it passes with no dialog at all.  Both copies. *)
Theorem C7_example_needs_income_confirmation answer :
  let o := Staticfiles.financialRule answer 200000 10000 5000 in
  let o' := Cached.financialRule answer 200000 10000 5000 in
  (fin_error o = None /\ fin_asked o = [AskIncomeHigh 200000]
   /\ fin_ok o = answer (AskIncomeHigh 200000))
  /\ (fin_error o' = None /\ fin_asked o' = [AskIncomeHigh 200000]
      /\ fin_ok o' = answer (AskIncomeHigh 200000))
  /\ Staticfiles.financialRule answer 100000 10000 5000
     = {| fin_ok := true; fin_error := None; fin_focus := None; fin_asked := [] |}
  /\ Cached.financialRule answer 100000 10000 5000
     = {| fin_ok := true; fin_error := None; fin_focus := None; fin_asked := [] |}.
Proof.
  cbv zeta. unfold Staticfiles.financialRule, Cached.financialRule.
  vm_compute. destruct (answer (AskIncomeHigh 200000)); repeat split.
Qed.

(** ** Rewriting one control of the document *)

Lemma find_app_first {A} (p : A -> bool) l1 l2 :
  List.find p (l1 ++ l2)
  = match List.find p l1 with Some x => Some x | None => List.find p l2 end.
Proof. induction l1 as [|a l1 IH]; simpl; [reflexivity|]. destruct (p a); auto. Qed.

Lemma updateFirst_app_hit p f l1 l2 :
  existsb p l1 = true -> updateFirst p f (l1 ++ l2) = updateFirst p f l1 ++ l2.
Proof.
  induction l1 as [|a l1 IH]; simpl; [discriminate|].
  destruct (p a); simpl; [reflexivity|]. intros H. rewrite IH; auto.
Qed.

Lemma updateFirst_app_miss p f l1 l2 :
  existsb p l1 = false -> updateFirst p f (l1 ++ l2) = l1 ++ updateFirst p f l2.
Proof.
  induction l1 as [|a l1 IH]; simpl; [reflexivity|].
  destruct (p a); simpl; [discriminate|]. intros H. rewrite IH; auto.
Qed.

(** Updating through the sections is updating the flat list of controls. *)
Lemma fieldsOf_updateFirst p f ss :
  fieldsOf (updateFirstInSections p f ss) = updateFirst p f (fieldsOf ss).
Proof.
  unfold fieldsOf. induction ss as [|s ss IH]; simpl; [reflexivity|].
  destruct (existsb p (sec_fields s)) eqn:E; simpl.
  - rewrite updateFirst_app_hit; auto.
  - rewrite updateFirst_app_miss, IH; auto.
Qed.

Lemma fieldsOf_map g ss :
  fieldsOf (map (mapSection g) ss) = map g (fieldsOf ss).
Proof.
  unfold fieldsOf. induction ss as [|s ss IH]; simpl; [reflexivity|].
  rewrite map_app, IH. reflexivity.
Qed.

Lemma length_updateFirstInSections p f ss :
  length (updateFirstInSections p f ss) = length ss.
Proof.
  induction ss as [|s ss IH]; simpl; [reflexivity|].
  destruct (existsb p (sec_fields s)); simpl; auto.
Qed.

Lemma find_updateFirst_same p f l :
  (forall el, p el = true -> p (f el) = true) ->
  List.find p (updateFirst p f l) = f <$> List.find p l.
Proof.
  intros Hp. induction l as [|a l IH]; simpl; [reflexivity|].
  destruct (p a) eqn:E; simpl.
  - rewrite (Hp a E). reflexivity.
  - rewrite E. exact IH.
Qed.

(** ** The blur handler of the amount requested *)

(** C10.  When the parsed amount exceeds the tuition fee and the tuition
    fee is positive, the blur handler shows its error, empties the amount
    field (the typed value is lost: the field then reads as 0) and gives
    it focus; otherwise it hides the message boxes and leaves every
    control as it is. *)
Theorem C10_amount_blur_resets_or_clears st :
  let tuitionFee := fieldNumber parseFloat ID_TUITION st in
  let amountRequested := fieldNumber parseFloat ID_AMOUNT st in
  let st' := Staticfiles.amountBlur parseFloat st in
  (JsNum.js_gt amountRequested tuitionFee = true ->
   JsNum.js_gt tuitionFee 0 = true ->
   banner st' = BannerError (MsgBlurExceeds tuitionFee)
   /\ getElementById ID_AMOUNT st' = with_value "" <$> getElementById ID_AMOUNT st
   /\ fieldNumber parseFloat ID_AMOUNT st' = 0%float
   /\ focused st' = Some ID_AMOUNT)
  /\ (JsNum.js_gt amountRequested tuitionFee = false
      \/ JsNum.js_gt tuitionFee 0 = false ->
      banner st' = BannerNone /\ sections st' = sections st).
Proof.
  cbv zeta. unfold Staticfiles.amountBlur. split.
  - intros -> ->. cbn [andb].
    set (m := MsgBlurExceeds _).
    assert (getElementById ID_AMOUNT
              (focus ID_AMOUNT
                 (set_sections
                    (updateFirstInSections (hasId ID_AMOUNT) (with_value "")
                       (sections st))
                    (showError m st)))
            = with_value "" <$> getElementById ID_AMOUNT st) as Hget.
    { unfold getElementById, allFields. cbn [sections focus set_focused
        set_sections showError set_banner].
      change (fun el => bool_decide (el_id el = ID_AMOUNT)) with (hasId ID_AMOUNT).
      rewrite fieldsOf_updateFirst. apply find_updateFirst_same.
      intros el H. exact H. }
    split; [reflexivity|]. split; [exact Hget|]. split; [|reflexivity].
    unfold fieldNumber. rewrite Hget.
    destruct (getElementById ID_AMOUNT st); reflexivity.
  - intros [-> | ->]; rewrite ?andb_false_r; cbn [andb]; split; reflexivity.
Qed.

(** ** Radio defaults *)

Lemma isCheckedInput_uncheckGroup name nm el :
  isCheckedInput name el = false ->
  isCheckedInput name (uncheckGroup nm el) = false.
Proof.
  unfold uncheckGroup. destruct (_ && _); [|auto].
  intros _. unfold isCheckedInput. cbn. apply andb_false_r.
Qed.

Lemma isOption_uncheckGroup name value nm el :
  isOption name value (uncheckGroup nm el) = isOption name value el.
Proof. unfold uncheckGroup. destruct (_ && _); reflexivity. Qed.

Lemma find_checked_map_uncheck name nm l :
  List.find (isCheckedInput name) l = None ->
  List.find (isCheckedInput name) (map (uncheckGroup nm) l) = None.
Proof.
  induction l as [|a l IH]; simpl; [reflexivity|].
  destruct (isCheckedInput name a) eqn:E; [discriminate|].
  rewrite (isCheckedInput_uncheckGroup _ _ _ E). exact IH.
Qed.

Lemma find_option_map_uncheck name value nm l :
  List.find (isOption name value) (map (uncheckGroup nm) l)
  = uncheckGroup nm <$> List.find (isOption name value) l.
Proof.
  induction l as [|a l IH]; simpl; [reflexivity|].
  rewrite isOption_uncheckGroup. destruct (isOption name value a); auto.
Qed.

Lemma find_checked_updateFirst name value l r :
  List.find (isCheckedInput name) l = None ->
  List.find (isOption name value) l = Some r ->
  List.find (isCheckedInput name)
    (updateFirst (isOption name value) (with_checked true) l)
  = Some (with_checked true r).
Proof.
  induction l as [|a l IH]; simpl; [discriminate|].
  destruct (isCheckedInput name a) eqn:Ec; [discriminate|].
  destruct (isOption name value a) eqn:Eo; simpl.
  - intros _ [= <-].
    assert (isCheckedInput name (with_checked true a) = true) as ->; [|reflexivity].
    unfold isOption in Eo. unfold isCheckedInput. cbn.
    apply andb_true_iff in Eo as [Eo _]. rewrite Eo. reflexivity.
  - rewrite Ec. exact IH.
Qed.

Lemma isOption_value name value el :
  isOption name value el = true -> el_value el = value.
Proof.
  unfold isOption. intros [_ H]%andb_true_iff. exact (bool_decide_eq_true_1 _ H).
Qed.

(** With no option checked, the default becomes the checked one. *)
Lemma setRadioDefault_unset name value st r :
  getRadioValue name st = None ->
  List.find (isOption name value) (allFields st) = Some r ->
  getRadioValue name (Staticfiles.setRadioDefault name value st) = Some value.
Proof.
  intros Hnone Hopt. unfold Staticfiles.setRadioDefault. rewrite Hopt, Hnone.
  unfold checkFirst. rewrite Hopt.
  unfold getRadioValue in *. unfold allFields in *.
  cbn [sections set_sections].
  rewrite fieldsOf_updateFirst.
  destruct (List.find (isCheckedInput name) (fieldsOf (sections st))) eqn:Hc;
    [discriminate|].
  pose proof (find_some _ _ Hopt) as [_ Hr].
  destruct (bool_decide (el_type r = "radio")).
  - rewrite fieldsOf_map.
    rewrite (find_checked_updateFirst name value _ (uncheckGroup (el_name r) r)).
    + cbn. f_equal. apply isOption_value with (name := name).
      rewrite isOption_uncheckGroup. exact Hr.
    + apply find_checked_map_uncheck, Hc.
    + rewrite find_option_map_uncheck, Hopt. reflexivity.
  - rewrite (find_checked_updateFirst name value _ r Hc Hopt).
    cbn. f_equal. exact (isOption_value _ _ _ Hr).
Qed.

(** With an option checked, nothing at all changes. *)
Lemma setRadioDefault_set name value st v :
  getRadioValue name st = Some v ->
  Staticfiles.setRadioDefault name value st = st.
Proof.
  intros H. unfold Staticfiles.setRadioDefault. rewrite H.
  destruct (List.find _ _); reflexivity.
Qed.

Lemma setRadioDefault_idempotent name value st :
  Staticfiles.setRadioDefault name value
    (Staticfiles.setRadioDefault name value st)
  = Staticfiles.setRadioDefault name value st.
Proof.
  destruct (getRadioValue name st) as [v|] eqn:Hv.
  - rewrite !(setRadioDefault_set _ _ _ _ Hv). reflexivity.
  - destruct (List.find (isOption name value) (allFields st)) as [r|] eqn:Hopt.
    + apply setRadioDefault_set with (v := value).
      eapply setRadioDefault_unset; eauto.
    + unfold Staticfiles.setRadioDefault at 2. rewrite Hopt.
      unfold Staticfiles.setRadioDefault. rewrite Hopt. reflexivity.
Qed.

Lemma setRadioDefault_value name value st :
  getRadioValue name (Staticfiles.setRadioDefault name value st)
  = defaulted name value st.
Proof.
  unfold defaulted.
  destruct (getRadioValue name st) as [v|] eqn:Hv.
  - rewrite (setRadioDefault_set _ _ _ _ Hv). exact Hv.
  - destruct (List.find (isOption name value) (allFields st)) as [r|] eqn:Hopt.
    + eapply setRadioDefault_unset; eauto.
    + unfold Staticfiles.setRadioDefault. rewrite Hopt. exact Hv.
Qed.

(** Setting the default of one group does not touch another group. *)
Lemma find_map_stable (q : Element -> bool) (h : Element -> Element) l :
  (forall el, q el = true -> h el = el) ->
  (forall el, q el = false -> q (h el) = false) ->
  List.find q (map h l) = List.find q l.
Proof.
  intros H1 H2. induction l as [|a l IH]; simpl; [reflexivity|].
  destruct (q a) eqn:E.
  - rewrite (H1 a E), E. reflexivity.
  - rewrite (H2 a E). exact IH.
Qed.

Lemma find_updateFirst_stable (q p : Element -> bool) (f : Element -> Element) l :
  (forall el, p el = true -> q el = false /\ q (f el) = false) ->
  List.find q (updateFirst p f l) = List.find q l.
Proof.
  intros H. induction l as [|a l IH]; simpl; [reflexivity|].
  destruct (p a) eqn:E; simpl.
  - destruct (H a E) as [-> ->]. reflexivity.
  - destruct (q a); auto.
Qed.

Lemma isOption_name name value el :
  isOption name value el = true -> el_name el = name.
Proof.
  unfold isOption. intros [[_ H]%andb_true_iff _]%andb_true_iff.
  exact (bool_decide_eq_true_1 _ H).
Qed.

Lemma isCheckedInput_name name el :
  isCheckedInput name el = true -> el_name el = name.
Proof.
  unfold isCheckedInput. intros [[_ H]%andb_true_iff _]%andb_true_iff.
  exact (bool_decide_eq_true_1 _ H).
Qed.

Lemma isCheckedInput_other name el b :
  el_name el <> name -> isCheckedInput name (with_checked b el) = false.
Proof.
  intros H. unfold isCheckedInput. cbn.
  rewrite (bool_decide_eq_false_2 _ H). apply andb_false_iff. left.
  apply andb_false_r.
Qed.

Lemma uncheckGroup_other name nm el :
  name <> nm -> isCheckedInput name el = true -> uncheckGroup nm el = el.
Proof.
  intros Hne Hc. unfold uncheckGroup.
  rewrite (isCheckedInput_name _ _ Hc), (bool_decide_eq_false_2 _ Hne).
  rewrite andb_false_r. reflexivity.
Qed.

Lemma checkFirst_other_group name name' value st :
  name <> name' ->
  List.find (isCheckedInput name) (allFields (checkFirst (isOption name' value) st))
  = List.find (isCheckedInput name) (allFields st).
Proof.
  intros Hne. unfold checkFirst.
  destruct (List.find (isOption name' value) (allFields st)) as [r|] eqn:Hopt;
    [|reflexivity].
  pose proof (find_some _ _ Hopt) as [_ Hr].
  unfold allFields. cbn [sections set_sections]. rewrite fieldsOf_updateFirst.
  rewrite find_updateFirst_stable.
  - destruct (bool_decide _); [|reflexivity].
    rewrite fieldsOf_map. apply find_map_stable.
    + intros el. apply uncheckGroup_other.
      rewrite (isOption_name _ _ _ Hr). exact Hne.
    + intros el. apply isCheckedInput_uncheckGroup.
  - intros el Hp. pose proof (isOption_name _ _ _ Hp) as Hn.
    assert (el_name el <> name) as Hn' by congruence. split.
    + destruct (isCheckedInput name el) eqn:E; [|reflexivity].
      apply isCheckedInput_name in E. congruence.
    + apply isCheckedInput_other, Hn'.
Qed.

Lemma setRadioDefault_other_group name name' value st :
  name <> name' ->
  getRadioValue name (Staticfiles.setRadioDefault name' value st)
  = getRadioValue name st.
Proof.
  intros Hne. unfold Staticfiles.setRadioDefault.
  destruct (List.find _ _); [|reflexivity].
  destruct (getRadioValue name' st); [reflexivity|].
  unfold getRadioValue. rewrite checkFirst_other_group; auto.
Qed.

Lemma find_option_checkFirst name value p st :
  is_Some (List.find (isOption name value) (allFields (checkFirst p st)))
  <-> is_Some (List.find (isOption name value) (allFields st)).
Proof.
  unfold checkFirst.
  destruct (List.find p (allFields st)) as [r|]; [|reflexivity].
  unfold allFields. cbn [sections set_sections]. rewrite fieldsOf_updateFirst.
  assert (forall l,
    is_Some (List.find (isOption name value) (updateFirst p (with_checked true) l))
    <-> is_Some (List.find (isOption name value) l)) as Hupd.
  { induction l as [|a l IH]; simpl; [reflexivity|].
    destruct (p a); simpl.
    - change (isOption name value (with_checked true a))
        with (isOption name value a).
      destruct (isOption name value a); [|reflexivity].
      split; intros _; eexists; reflexivity.
    - destruct (isOption name value a); [reflexivity|exact IH]. }
  rewrite Hupd. destruct (bool_decide _); [|reflexivity].
  rewrite fieldsOf_map, find_option_map_uncheck.
  destruct (List.find _ _); split; intros [x Hx]; try discriminate; eauto.
Qed.

Lemma defaulted_other_group name name' value value' st :
  name <> name' ->
  defaulted name value (Staticfiles.setRadioDefault name' value' st)
  = defaulted name value st.
Proof.
  intros Hne. unfold defaulted.
  rewrite (setRadioDefault_other_group _ _ _ _ Hne).
  destruct (getRadioValue name st); [reflexivity|].
  assert (is_Some (List.find (isOption name value)
                     (allFields (Staticfiles.setRadioDefault name' value' st)))
          <-> is_Some (List.find (isOption name value) (allFields st))) as H.
  { unfold Staticfiles.setRadioDefault.
    destruct (List.find (isOption name' value') _); [|reflexivity].
    destruct (getRadioValue name' st); [reflexivity|].
    apply find_option_checkFirst. }
  destruct (List.find _ (allFields (Staticfiles.setRadioDefault _ _ _)))
    as [x|] eqn:E1;
  destruct (List.find (isOption name value) (allFields st)) as [y|] eqn:E2;
    try reflexivity.
  - destruct H as [H _]. destruct H as [z Hz]; [eauto|discriminate].
  - destruct H as [_ H]. destruct H as [z Hz]; [eauto|discriminate].
Qed.

Lemma setDefaults_value name st :
  In name DEFAULTED_GROUPS ->
  getRadioValue name (Staticfiles.setDefaults st) = defaulted name "False" st.
Proof.
  unfold Staticfiles.setDefaults, DEFAULTED_GROUPS. cbn [In].
  intros [<-|[<-|[<-|[<-|[]]]]].
  - rewrite !setRadioDefault_other_group by discriminate.
    apply setRadioDefault_value.
  - rewrite !setRadioDefault_other_group by discriminate.
    rewrite setRadioDefault_value. apply defaulted_other_group. discriminate.
  - rewrite !setRadioDefault_other_group by discriminate.
    rewrite setRadioDefault_value.
    rewrite !defaulted_other_group by discriminate. reflexivity.
  - rewrite setRadioDefault_value.
    rewrite !defaulted_other_group by discriminate. reflexivity.
Qed.

(** ** Conditional visibility *)

Lemma showHideConditional_containers id show st :
  containers (Staticfiles.showHideConditional id show st) = containers st.
Proof.
  unfold Staticfiles.showHideConditional.
  destruct (bool_decide (id ∈ containers st)); reflexivity.
Qed.

(** One call decides the class [show] of its own block only. *)
Lemma elem_of_shown_showHideConditional g id show st :
  g ∈ shown (Staticfiles.showHideConditional id show st)
  <-> if decide (g = id)
      then if bool_decide (id ∈ containers st) then show = true else g ∈ shown st
      else g ∈ shown st.
Proof.
  unfold Staticfiles.showHideConditional.
  destruct (decide (g = id)) as [->|Hne];
    destruct (bool_decide (id ∈ containers st)); try reflexivity;
    destruct show; cbn;
    rewrite ?elem_of_union, ?elem_of_difference, ?elem_of_singleton;
    intuition congruence.
Qed.

(** X1.  What the recomputation makes visible: every block follows its
    own answer, and [providerNote] is shown unless both parents are
    answered alive, or when orphan or single parent is answered. *)
Lemma handleConditionalFields_visibility st :
  let st' := Staticfiles.handleConditionalFields st in
  (ORPHAN_NOTE ∈ containers st ->
   (ORPHAN_NOTE ∈ shown st' <-> answeredTrue "orphan" st = true))
  /\ (DISABILITY_DETAILS ∈ containers st ->
      (DISABILITY_DETAILS ∈ shown st' <-> answeredTrue "disability" st = true))
  /\ (PREVIOUS_BURSARY_DETAILS ∈ containers st ->
      (PREVIOUS_BURSARY_DETAILS ∈ shown st'
       <-> answeredTrue "previousBursary" st = true))
  /\ (PREVIOUS_BURSARY_DETAILS_CONTINUED ∈ containers st ->
      (PREVIOUS_BURSARY_DETAILS_CONTINUED ∈ shown st'
       <-> answeredTrue "previousBursary" st = true))
  /\ (PROVIDER_NOTE ∈ containers st ->
      (PROVIDER_NOTE ∈ shown st'
       <-> answeredTrue "orphan" st
           || negb (answeredTrue "bothParentsAlive" st)
           || answeredTrue "singleParent" st = true)).
Proof.
  cbv zeta. unfold Staticfiles.handleConditionalFields, answeredTrue.
  set (o := bool_decide (getRadioValue "orphan" st = _)).
  set (d := bool_decide (getRadioValue "disability" st = _)).
  set (p := bool_decide (getRadioValue "previousBursary" st = _)).
  set (b := bool_decide (getRadioValue "bothParentsAlive" st = _)).
  set (s := bool_decide (getRadioValue "singleParent" st = _)).
  clearbody o d p b s.
  split; [|split; [|split; [|split]]]; intros Hin;
    repeat (rewrite elem_of_shown_showHideConditional;
            case_decide; [try discriminate|]);
    rewrite ?showHideConditional_containers, ?(bool_decide_eq_true_2 _ Hin);
    try reflexivity; try congruence.
Qed.

(** C4.  On the page as served (no answer given for [bothParentsAlive],
    the defaults "False" for the other groups) the recomputation run at
    start-up shows [providerNote], and only it: the block is visible
    although orphan is not "True", both-parents-alive is not "False" and
    single-parent is not "True". *)
Theorem C4_provider_note_shown_while_parents_unanswered :
  let st := Staticfiles.init (examplePage "" "" "") in
  getRadioValue "orphan" st = Some "False"
  /\ getRadioValue "bothParentsAlive" st = None
  /\ getRadioValue "singleParent" st = Some "False"
  /\ elements (shown st) = [PROVIDER_NOTE].
Proof. vm_compute. repeat split. Qed.

(** ** Submission *)

Lemma submitLoop_pass answer steps st0 st :
  sameDocument st0 st ->
  List.find (fun s => negb (stepValid offsetParentSet s st0)) steps = None ->
  exists st1,
    sameDocument st0 st1 /\ sameControl st st1
    /\ Staticfiles.submitLoop parseFloat offsetParentSet answer steps st
       = set_submitted true (set_submitBtn true "Submitting..." st1).
Proof.
  revert st. induction steps as [|s steps IH]; intros st Hdoc; simpl.
  - intros _. exists st. repeat split; auto; apply Hdoc.
  - unfold stepValid at 1.
    rewrite <- (validateStep_document s st0 st Hdoc).
    pose proof (validateStep_frame s st) as (Hd & Hctl & _).
    destruct (Staticfiles.validateStep offsetParentSet s st) as [ok st1];
      cbn [fst snd] in *.
    destruct ok; cbn [negb]; [|discriminate].
    intros Hrest.
    destruct (IH st1 (sameDocument_trans _ _ _ Hdoc Hd) Hrest)
      as (st2 & Hd2 & Hc2 & Heq).
    exists st2. repeat split; try apply Hd2; auto.
    all: try (eapply sameControl_trans; eauto).
    all: destruct Hctl as (? & ? & ?), Hc2 as (? & ? & ?); congruence.
Qed.

Lemma submitLoop_fail answer steps st0 st s :
  sameDocument st0 st ->
  List.find (fun s => negb (stepValid offsetParentSet s st0)) steps = Some s ->
  exists st1,
    sameDocument st0 st1 /\ sameControl st st1
    /\ Staticfiles.submitLoop parseFloat offsetParentSet answer steps st
       = match Staticfiles.goToStepCall parseFloat offsetParentSet answer s st1
         with
         | (Some _, st2) =>
             set_submitBtn false "Submit Application"
               (showError MsgAggregate st2)
         | (None, st2) => st2
         end.
Proof.
  revert st. induction steps as [|s' steps IH]; intros st Hdoc; simpl;
    [discriminate|].
  unfold stepValid at 1.
  rewrite <- (validateStep_document s' st0 st Hdoc).
  pose proof (validateStep_frame s' st) as (Hd & Hctl & _).
  destruct (Staticfiles.validateStep offsetParentSet s' st) as [ok st1];
    cbn [fst snd] in *.
  destruct ok; cbn [negb].
  - intros Hrest.
    destruct (IH st1 (sameDocument_trans _ _ _ Hdoc Hd) Hrest)
      as (st2 & Hd2 & Hc2 & Heq).
    exists st2. split; [exact Hd2|]. split; [|exact Heq].
    eapply sameControl_trans; eauto.
  - intros [= <-]. exists st1. split; [|split; [exact Hctl|reflexivity]].
    eapply sameDocument_trans; eauto.
Qed.

Lemma in_stepsOf st s : In s (stepsOf st) <-> 1 <= s <= totalSteps st.
Proof.
  unfold stepsOf, totalSteps. rewrite in_map_iff. split.
  - intros (i & <- & Hi%in_seq). lia.
  - intros Hs. exists (Z.to_nat (s - 1)). split; [lia|]. apply in_seq. lia.
Qed.

(** [find] returns the least failing step: the steps are walked upwards. *)
Lemma find_steps_least (f : Z -> bool) a n s :
  List.find f (map (fun i => Z.of_nat i + 1) (seq a n)) = Some s ->
  forall s', Z.of_nat a + 1 <= s' < s -> s' < Z.of_nat (a + n) + 1 ->
             f s' = false.
Proof.
  revert a. induction n as [|n IH]; intros a; simpl; [discriminate|].
  destruct (f (Z.of_nat a + 1)) eqn:Ef.
  - intros [= <-] s' Hs'. lia.
  - intros Hfind s' Hs' Hup.
    destruct (decide (s' = Z.of_nat a + 1)) as [->|Hne]; [exact Ef|].
    apply (IH (S a) Hfind); lia.
Qed.

Lemma firstFailing_least st s :
  firstFailing offsetParentSet st = Some s ->
  1 <= s <= totalSteps st /\ stepValid offsetParentSet s st = false
  /\ forall s', 1 <= s' < s -> stepValid offsetParentSet s' st = true.
Proof.
  unfold firstFailing. intros Hfind.
  pose proof (find_some _ _ Hfind) as [Hin Hbad].
  apply in_stepsOf in Hin. split; [exact Hin|].
  split; [apply negb_true_iff, Hbad|].
  intros s' Hs'. apply negb_false_iff.
  apply (find_steps_least _ 0 _ s Hfind); unfold totalSteps in *; lia.
Qed.

Lemma submitHandler_submitted answer st :
  submitted (Staticfiles.submitHandler parseFloat offsetParentSet answer st)
  = match firstFailing offsetParentSet st with Some _ => submitted st | None => true end.
Proof.
  unfold Staticfiles.submitHandler.
  destruct (firstFailing offsetParentSet st) as [s|] eqn:Hfirst.
  - destruct (submitLoop_fail answer (stepsOf st) st st s (sameDocument_refl st)
                Hfirst) as (st1 & Hd & Hc & ->).
    pose proof (goToStep_frame answer s st1) as (_ & _ & _ & _ & Hc').
    cbv zeta in Hc'. unfold Staticfiles.goToStep in Hc'.
    destruct Hc as (Hc1 & _), Hc' as (Hc1' & _).
    destruct (Staticfiles.goToStepCall _ _ _ _ _) as [[[]|] st2];
      cbn in *; congruence.
  - destruct (submitLoop_pass answer (stepsOf st) st st (sameDocument_refl st)
                Hfirst) as (st1 & Hd & Hc & ->).
    reflexivity.
Qed.

(** A move back (to a step that is not ahead) validates nothing, so it
    returns and lands on its target. *)
Lemma goToStepCall_back answer n st :
  n <= currentStep st ->
  Staticfiles.goToStepCall parseFloat offsetParentSet answer n st
  = (Some tt, Staticfiles.enterStep n st).
Proof.
  intros Hback. unfold Staticfiles.goToStepCall.
  destruct (decide (n > currentStep st)); [lia|reflexivity].
Qed.

(** A move forward from a valid step other than step 2 returns and
    lands on its target. *)
Lemma goToStepCall_forward answer n st :
  n > currentStep st -> currentStep st <> 2 ->
  stepValid offsetParentSet (currentStep st) st = true ->
  exists st1,
    sameControl st st1
    /\ Staticfiles.goToStepCall parseFloat offsetParentSet answer n st
       = (Some tt, Staticfiles.enterStep n st1).
Proof.
  intros Hn Hne Hok. unfold Staticfiles.goToStepCall, stepValid in *.
  destruct (decide (n > currentStep st)); [|lia].
  pose proof (validateStep_frame (currentStep st) st) as ((Hc & _) & Hctl & _).
  destruct (Staticfiles.validateStep _ _ _) as [ok st1]; cbn [fst snd] in *.
  subst ok. cbn [negb].
  destruct (decide (currentStep st1 = 2)); [congruence|].
  exists st1. split; [exact Hctl|reflexivity].
Qed.

(** On step 2, with [validateStep(2)] passing, a move forward lands on
    its target exactly when the financial rule passes. *)
Lemma goToStep_from_step_2 answer n st :
  currentStep st = 2 -> n > 2 -> stepValid offsetParentSet 2 st = true ->
  currentStep (Staticfiles.goToStep parseFloat offsetParentSet answer n st)
  = if financiallyValid parseFloat answer st then n else 2.
Proof.
  intros Hcur Hn Hok. unfold financiallyValid.
  destruct (fin_ok _) eqn:Hfin;
    [|apply goToStep_financial_gate; assumption].
  unfold Staticfiles.goToStep, Staticfiles.goToStepCall, stepValid in *.
  destruct (decide (n > currentStep st)); [|lia].
  rewrite Hcur.
  pose proof (validateStep_frame 2 st) as ((Hc & Hs & _) & _).
  destruct (Staticfiles.validateStep offsetParentSet 2 st) as [ok st1];
    cbn [fst snd] in *.
  subst ok. cbn [negb].
  destruct (decide (currentStep st1 = 2)); [|congruence].
  unfold Staticfiles.validateFinancialFields.
  rewrite !(fieldNumber_sections _ _ _ Hs).
  set (o := Staticfiles.financialRule _ _ _ _) in *.
  destruct (financialRule_passes_quietly _ _ _ _ Hfin) as [_ Hfoc].
  pose proof (applyOutcome_value o st1) as Hval.
  fold o in Hfoc. rewrite Hfoc, Hfin in Hval.
  destruct (applyOutcome o st1) as [r st2]; cbn [fst snd] in *.
  subst r. reflexivity.
Qed.

(** ** Hidden conditional blocks *)

Lemma firstInvalid_visible sh l el m :
  Staticfiles.firstInvalid sh l = Some (el, m) ->
  In el l /\ inHiddenConditional sh el = false.
Proof.
  induction l as [|a l IH]; simpl; [discriminate|].
  destruct (inHiddenConditional sh a) eqn:Eh.
  - intros H. destruct (IH H). auto.
  - destruct (Staticfiles.fieldError a).
    + intros [= <- <-]. auto.
    + intros H. destruct (IH H). auto.
Qed.

Lemma firstInvalid_relaxHidden sh l :
  Staticfiles.firstInvalid sh (List.filter el_required (map (relaxHidden sh) l))
  = Staticfiles.firstInvalid sh (List.filter el_required l).
Proof.
  induction l as [|a l IH]; simpl; [reflexivity|].
  destruct (inHiddenConditional sh a) eqn:Eh.
  - assert (relaxHidden sh a = with_required false (el_originalRequired a) a)
      as -> by (unfold relaxHidden; rewrite Eh; reflexivity).
    cbn [el_required with_required].
    destruct (el_required a); simpl; rewrite ?Eh; exact IH.
  - assert (relaxHidden sh a = a) as ->
      by (unfold relaxHidden; rewrite Eh; reflexivity).
    destruct (el_required a); simpl; rewrite ?Eh, IH; reflexivity.
Qed.

Lemma sectionHasChecked_relaxHidden sh name sec :
  sectionHasChecked name (mapSection (relaxHidden sh) sec)
  = sectionHasChecked name sec.
Proof.
  unfold sectionHasChecked. cbn. induction (sec_fields sec) as [|a l IH];
    simpl; [reflexivity|].
  rewrite IH. f_equal. unfold relaxHidden.
  destruct (inHiddenConditional sh a); reflexivity.
Qed.

Lemma firstUnanswered_checked step sh sec sec' groups he :
  (forall name, sectionHasChecked name sec' = sectionHasChecked name sec) ->
  Staticfiles.firstUnanswered offsetParentSet step sh sec' groups he
  = Staticfiles.firstUnanswered offsetParentSet step sh sec groups he.
Proof.
  intros Hsame. revert he. induction groups as [|g groups IH]; intros he;
    simpl; [reflexivity|].
  destruct (rg_requiredLabel g); [|apply IH].
  destruct (_ && _); [|apply IH].
  rewrite Hsame. destruct (sectionHasChecked _ sec); [apply IH|reflexivity].
Qed.

Lemma sectionAt_ignoreHidden step st :
  sectionAt step (ignoreHidden st)
  = mapSection (relaxHidden (shown st)) <$> sectionAt step st.
Proof.
  unfold sectionAt, ignoreHidden, mapFields. cbn [sections set_sections].
  destruct (decide (step - 1 < 0)); [reflexivity|].
  apply list_lookup_fmap.
Qed.

Lemma blockingField_ignoreHidden step st :
  Staticfiles.blockingField step (ignoreHidden st)
  = Staticfiles.blockingField step st.
Proof.
  unfold Staticfiles.blockingField. rewrite sectionAt_ignoreHidden.
  destruct (sectionAt step st) as [sec|]; [|reflexivity].
  cbn. apply firstInvalid_relaxHidden.
Qed.

Lemma stepValid_ignoreHidden step st :
  stepValid offsetParentSet step (ignoreHidden st) = stepValid offsetParentSet step st.
Proof.
  unfold stepValid, Staticfiles.validateStep.
  rewrite sectionAt_ignoreHidden.
  destruct (sectionAt step st) as [sec|]; [|reflexivity].
  cbn [fmap option_fmap option_map].
  change (shown (ignoreHidden st)) with (shown st).
  change (currentStep (ignoreHidden st)) with (currentStep st).
  change (hasError (ignoreHidden st)) with (hasError st).
  unfold Staticfiles.requiredEls. cbn [sec_fields sec_radioGroups mapSection].
  rewrite firstInvalid_relaxHidden.
  destruct (Staticfiles.firstInvalid _ _) as [[el m]|]; [reflexivity|].
  rewrite (firstUnanswered_checked _ _ sec).
  - destruct (Staticfiles.firstUnanswered _ _ _ _ _ _) as [[[grp lbl]|] he];
      reflexivity.
  - intros name. apply sectionHasChecked_relaxHidden.
Qed.

Lemma firstFailing_ignoreHidden st :
  firstFailing offsetParentSet (ignoreHidden st) = firstFailing offsetParentSet st.
Proof.
  unfold firstFailing.
  assert (stepsOf (ignoreHidden st) = stepsOf st) as ->.
  { unfold stepsOf, ignoreHidden, mapFields. cbn [sections set_sections].
    rewrite length_map. reflexivity. }
  induction (stepsOf st) as [|s l IH]; simpl; [reflexivity|].
  rewrite stepValid_ignoreHidden, IH. reflexivity.
Qed.

(** In staticfiles/app.js a required control whose closest conditional
    block is hidden is never the control [validateStep] stops on, and the
    outcome of [validateStep], for every step, and of the final pass of
    the submit handler are what they would be were every such control
    optional. *)
Lemma skipped_fields_never_block step st :
  (forall el m,
     Staticfiles.blockingField step st = Some (el, m) ->
     inHiddenConditional (shown st) el = false
     /\ stepValid offsetParentSet step st = false
     /\ banner (Staticfiles.validateStep offsetParentSet step st).2
        = BannerError m)
  /\ Staticfiles.blockingField step (ignoreHidden st)
     = Staticfiles.blockingField step st
  /\ stepValid offsetParentSet step (ignoreHidden st) = stepValid offsetParentSet step st
  /\ firstFailing offsetParentSet (ignoreHidden st) = firstFailing offsetParentSet st
  /\ (forall answer,
        submitted (Staticfiles.submitHandler parseFloat offsetParentSet answer
                     (ignoreHidden st))
        = submitted (Staticfiles.submitHandler parseFloat offsetParentSet answer
                       st)).
Proof.
  split; [|split; [|split; [|split]]].
  - intros el m. unfold Staticfiles.blockingField, stepValid,
      Staticfiles.validateStep.
    destruct (sectionAt step st) as [sec|]; [|discriminate].
    intros Hblock. rewrite Hblock.
    destruct (firstInvalid_visible _ _ _ _ Hblock) as [_ Hvis].
    split; [exact Hvis|]. split; [reflexivity|].
    cbn [snd]. destruct (bool_decide _); reflexivity.
  - apply blockingField_ignoreHidden.
  - apply stepValid_ignoreHidden.
  - apply firstFailing_ignoreHidden.
  - intros answer. rewrite !submitHandler_submitted, firstFailing_ignoreHidden.
    reflexivity.
Qed.

(** ** The step stays in range *)

Lemma inRange_sameDocument n st st' :
  sameDocument st st' -> inRange n st -> inRange n st'.
Proof. intros (Hc & Hs & _) [Hl Hr]. unfold inRange. rewrite Hc, Hs. auto. Qed.

Lemma inRange_sections n ss st :
  length ss = length (sections st) -> inRange n st -> inRange n (set_sections ss st).
Proof. intros Hl [Hn Hr]. unfold inRange. cbn. split; [congruence|exact Hr]. Qed.

Lemma inRange_mapFields n f st : inRange n st -> inRange n (mapFields f st).
Proof. apply inRange_sections. apply length_map. Qed.

Lemma inRange_checkFirst n p st : inRange n st -> inRange n (checkFirst p st).
Proof.
  unfold checkFirst. destruct (List.find p (allFields st)); [|auto].
  apply inRange_sections. rewrite length_updateFirstInSections.
  destruct (bool_decide _); [apply length_map|reflexivity].
Qed.

Lemma inRange_showHideConditional n id show st :
  inRange n st -> inRange n (Staticfiles.showHideConditional id show st).
Proof.
  unfold Staticfiles.showHideConditional. destruct (bool_decide _); [|auto].
  intros H. apply inRange_mapFields. exact H.
Qed.

Lemma inRange_handleConditionalFields n st :
  inRange n st -> inRange n (Staticfiles.handleConditionalFields st).
Proof.
  intros H. unfold Staticfiles.handleConditionalFields.
  repeat apply inRange_showHideConditional. exact H.
Qed.

Lemma inRange_setRadioDefault n name value st :
  inRange n st -> inRange n (Staticfiles.setRadioDefault name value st).
Proof.
  unfold Staticfiles.setRadioDefault.
  destruct (List.find _ _); [|auto].
  destruct (getRadioValue name st); [auto|]. apply inRange_checkFirst.
Qed.

Lemma inRange_init html :
  1 <= totalSteps html -> inRange (length (sections html)) (Staticfiles.init html).
Proof.
  intros H. unfold Staticfiles.init, Staticfiles.setDefaults.
  apply inRange_handleConditionalFields.
  repeat apply inRange_setRadioDefault.
  unfold inRange, totalSteps in *. cbn. lia.
Qed.

Lemma inRange_cached_init html :
  1 <= totalSteps html -> inRange (length (sections html)) (Cached.init html).
Proof.
  intros H. unfold Cached.init, Cached.setDefaults, Cached.setRadioDefault.
  apply inRange_handleConditionalFields.
  repeat apply inRange_checkFirst.
  unfold inRange, totalSteps in *. cbn. lia.
Qed.

Lemma inRange_goToStep n answer target st :
  1 <= target <= Z.of_nat n ->
  inRange n st ->
  inRange n (Staticfiles.goToStep parseFloat offsetParentSet answer target st).
Proof.
  intros Ht [Hl Hr].
  pose proof (goToStep_frame answer target st) as (Hc & Hs & _).
  cbv zeta in Hc, Hs. unfold inRange. rewrite Hs. split; [exact Hl|].
  destruct Hc as [-> | ->]; lia.
Qed.

Lemma inRange_submitLoop n answer steps st :
  (forall s, In s steps -> 1 <= s <= Z.of_nat n) ->
  inRange n st ->
  inRange n (Staticfiles.submitLoop parseFloat offsetParentSet answer steps st).
Proof.
  revert st. induction steps as [|s steps IH]; intros st Hsteps Hin; simpl.
  - exact Hin.
  - pose proof (validateStep_frame s st) as (Hd & _).
    destruct (Staticfiles.validateStep offsetParentSet s st) as [ok st1];
      cbn [fst snd] in *.
    pose proof (inRange_sameDocument n _ _ Hd Hin) as Hin1.
    destruct ok.
    + apply IH; [|exact Hin1]. intros s' Hs'. apply Hsteps. right. exact Hs'.
    + assert (Hgo : inRange n (Staticfiles.goToStep parseFloat offsetParentSet
                                 answer s st1)).
      { apply (inRange_goToStep n answer s st1); [|exact Hin1].
        apply Hsteps. left. reflexivity. }
      unfold Staticfiles.goToStep in Hgo.
      destruct (Staticfiles.goToStepCall _ _ _ _ _) as [[[]|] st2];
        exact Hgo.
Qed.

Lemma inRange_amountBlur n st :
  inRange n st -> inRange n (Staticfiles.amountBlur parseFloat st).
Proof.
  unfold Staticfiles.amountBlur. destruct (_ && _); [|auto].
  intros [Hl Hr]. unfold inRange. cbn.
  rewrite length_updateFirstInSections. auto.
Qed.

Lemma navTarget_range b : 1 <= navTarget b <= 5.
Proof. destruct b; cbn; lia. Qed.

Lemma stepsOf_range n st s :
  length (sections st) = n -> In s (stepsOf st) -> 1 <= s <= Z.of_nat n.
Proof. intros <- Hs%in_stepsOf. exact Hs. Qed.

Lemma inRange_step n ev st :
  (5 <= n)%nat -> inRange n st ->
  inRange n (Staticfiles.step parseFloat offsetParentSet ev st).
Proof.
  intros Hn Hin. destruct ev as [b answer|id|id v|id k| |answer]; cbn.
  - apply inRange_goToStep; [|exact Hin]. pose proof (navTarget_range b). lia.
  - apply inRange_handleConditionalFields, inRange_checkFirst, Hin.
  - apply inRange_sections; [apply length_updateFirstInSections|exact Hin].
  - apply inRange_sections; [apply length_updateFirstInSections|exact Hin].
  - apply inRange_amountBlur, Hin.
  - unfold Staticfiles.submitHandler. apply inRange_submitLoop; [|exact Hin].
    intros s. apply stepsOf_range. apply Hin.
Qed.

(** The copy of part_000. *)
Lemma cached_validateStep_frame step st :
  sameDocument st (Cached.validateStep offsetParentSet step st).2.
Proof.
  unfold Cached.validateStep, sameDocument.
  destruct (sectionAt step st) as [sec|]; [|simpl; tauto].
  destruct (Cached.firstInvalid _) as [[el m]|]; [simpl; tauto|].
  destruct (Staticfiles.firstUnanswered _ _ _ _ _ _) as [[[grp lbl]|] he];
    simpl; tauto.
Qed.

Lemma inRange_cached_goToStep n target st :
  1 <= target <= Z.of_nat n ->
  inRange n st -> inRange n (Cached.goToStep offsetParentSet target st).
Proof.
  intros Ht Hin. unfold Cached.goToStep.
  assert (forall s, inRange n s -> inRange n (set_currentStep target s)) as Hset.
  { intros s [Hl _]. split; [exact Hl|exact Ht]. }
  destruct (decide (target > currentStep st)); [|auto].
  pose proof (cached_validateStep_frame (currentStep st) st) as Hd.
  destruct (Cached.validateStep _ _ _) as [ok st1]; cbn [fst snd] in *.
  pose proof (inRange_sameDocument n _ _ Hd Hin).
  destruct ok; cbn [negb]; auto.
Qed.

Lemma inRange_cached_submitLoop n steps st :
  (forall s, In s steps -> 1 <= s <= Z.of_nat n) ->
  inRange n st -> inRange n (Cached.submitLoop offsetParentSet steps st).
Proof.
  revert st. induction steps as [|s steps IH]; intros st Hsteps Hin; simpl.
  - exact Hin.
  - pose proof (cached_validateStep_frame s st) as Hd.
    destruct (Cached.validateStep offsetParentSet s st) as [ok st1];
      cbn [fst snd] in *.
    pose proof (inRange_sameDocument n _ _ Hd Hin) as Hin1.
    destruct ok.
    + apply IH; [|exact Hin1]. intros s' Hs'. apply Hsteps. right. exact Hs'.
    + apply (inRange_cached_goToStep n s st1); [|exact Hin1].
      apply Hsteps. left. reflexivity.
Qed.

Lemma inRange_cached_step n ev st :
  (5 <= n)%nat -> inRange n st ->
  inRange n (Cached.step parseFloat offsetParentSet ev st).
Proof.
  intros Hn Hin. destruct ev as [b answer|id|id v|id k| |tag|]; cbn.
  - assert (inRange n (Cached.goToStep offsetParentSet (navTarget b) st)) as Hgo.
    { apply inRange_cached_goToStep; [|exact Hin].
      pose proof (navTarget_range b). lia. }
    destruct b; try exact Hgo. cbn. unfold Cached.clickToStep3.
    pose proof (cached_validateStep_frame 2 st) as Hd.
    destruct (Cached.validateStep _ _ _) as [ok st1]; cbn [fst snd] in *.
    pose proof (inRange_sameDocument n _ _ Hd Hin) as Hin1.
    destruct ok; cbn [negb]; [|exact Hin1].
    unfold Cached.validateFinancialFields.
    set (o := Cached.financialRule _ _ _ _).
    destruct (applyOutcome_frame o st1) as [Hd2 _].
    pose proof (inRange_sameDocument n _ _ Hd2 Hin1) as Hin2.
    destruct (applyOutcome o st1) as [[[|]|] st2]; cbn [fst snd negb] in *;
      try exact Hin2.
    apply inRange_cached_goToStep; [lia|exact Hin2].
  - apply inRange_handleConditionalFields, inRange_checkFirst, Hin.
  - apply inRange_sections; [apply length_updateFirstInSections|exact Hin].
  - apply inRange_sections; [apply length_updateFirstInSections|exact Hin].
  - apply inRange_amountBlur, Hin.
  - unfold Cached.keydownEnter, totalSteps.
    destruct (decide _) as [Hlt|]; [|exact Hin].
    destruct (bool_decide _); [exact Hin|].
    apply inRange_cached_goToStep; [|exact Hin].
    destruct Hin as [Hl Hr]. rewrite Hl in Hlt. lia.
  - unfold Cached.submitHandler.
    pose proof (cached_validateStep_frame (currentStep st) st) as Hd.
    destruct (Cached.validateStep _ _ _) as [ok st1]; cbn [fst snd] in *.
    pose proof (inRange_sameDocument n _ _ Hd Hin) as Hin1.
    destruct ok; cbn [negb]; [|exact Hin1].
    apply inRange_cached_submitLoop; [|exact Hin1].
    intros s. apply stepsOf_range. apply Hin1.
Qed.

(** C9.  On a form of at least five sections (the eight buttons ask for
    steps 1 to 5), every state reached from page load by the handlers of
    either copy keeps the number of sections and has [currentStep] within
    [1 .. totalSteps]; the Enter shortcut of part_000 does nothing once
    the last step is shown. *)
Theorem C9_currentStep_stays_in_range html st :
  5 <= totalSteps html ->
  Staticfiles.reachable parseFloat offsetParentSet html st
  \/ Cached.reachable parseFloat offsetParentSet html st ->
  totalSteps st = totalSteps html
  /\ 1 <= currentStep st <= totalSteps st
  /\ (forall b, 1 <= navTarget b <= 5)
  /\ (forall tag, totalSteps st <= currentStep st ->
        Cached.keydownEnter offsetParentSet tag st = st).
Proof.
  intros H5 Hreach.
  assert (inRange (length (sections html)) st) as [Hl Hr].
  { unfold totalSteps in H5. destruct Hreach as [Hreach|Hreach].
    - induction Hreach as [|ev st Hreach IH].
      + apply inRange_init. unfold totalSteps. lia.
      + apply inRange_step; [lia|exact IH].
    - induction Hreach as [|ev st Hreach IH].
      + apply inRange_cached_init. unfold totalSteps. lia.
      + apply inRange_cached_step; [lia|exact IH]. }
  unfold totalSteps. rewrite Hl.
  split; [reflexivity|]. split; [exact Hr|]. split; [exact navTarget_range|].
  intros tag Hlast. unfold Cached.keydownEnter, totalSteps.
  destruct (decide _); [lia|reflexivity].
Qed.

End Properties.

(** * The properties at work on the example page *)


(** C3 at work: on step 5 with the signature missing, step 6 is refused
    and step 1 is granted. *)
Lemma C3_witness_last_step :
  currentStep (Staticfiles.goToStep parseDecimal allRendered acceptAll 6
                 pageOnLastStep) = currentStep pageOnLastStep
  /\ currentStep (Staticfiles.goToStep parseDecimal allRendered acceptAll 1
                    pageOnLastStep) = 1.
Proof.
  pose proof (C3_goToStep_forward_gated_backward_free parseDecimal allRendered
                acceptAll 6 pageOnLastStep) as (H1 & _).
  pose proof (C3_goToStep_forward_gated_backward_free parseDecimal allRendered
                acceptAll 1 pageOnLastStep) as (_ & H2 & _).
  split; [apply H1|apply H2]; run.
Defined.

(** C9 at work: the example page has five sections, and a click on
    [toStep2] after page load leaves the step in range. *)
Lemma C9_witness_example_page :
  totalSteps
    (Staticfiles.step parseDecimal allRendered (Staticfiles.Click toStep2 acceptAll)
       (Staticfiles.init (examplePage "200000" "10000" "5000")))
  = totalSteps (examplePage "200000" "10000" "5000")
  /\ 1 <= currentStep
            (Staticfiles.step parseDecimal allRendered
               (Staticfiles.Click toStep2 acceptAll)
               (Staticfiles.init (examplePage "200000" "10000" "5000"))).
Proof.
  destruct (C9_currentStep_stays_in_range parseDecimal allRendered
              (examplePage "200000" "10000" "5000")
              (Staticfiles.step parseDecimal allRendered
                 (Staticfiles.Click toStep2 acceptAll)
                 (Staticfiles.init (examplePage "200000" "10000" "5000"))))
    as (Hn & Hr & _).
  - run.
  - left. apply Staticfiles.reach_step, Staticfiles.reach_init.
  - split; [exact Hn|exact (proj1 Hr)].
Defined.

(** C10 at work: 15000 typed against a tuition fee of 10000 is wiped on
    blur. *)
Lemma C10_witness_amount_wiped :
  banner (Staticfiles.amountBlur parseDecimal pageAskingTooMuch)
  = BannerError
      (MsgBlurExceeds (fieldNumber parseDecimal ID_TUITION pageAskingTooMuch))
  /\ fieldNumber parseDecimal ID_AMOUNT
       (Staticfiles.amountBlur parseDecimal pageAskingTooMuch) = 0%float.
Proof.
  pose proof (C10_amount_blur_resets_or_clears parseDecimal pageAskingTooMuch)
    as [H _].
  destruct H as (Hb & _ & Hz & _); [run|run|].
  split; [exact Hb|exact Hz].
Defined.

(** * The sibling copies, where they differ *)

(** part_000 validates every required control, hidden or not: with the
    [required] attribute present on the hidden [disabilityNature], step 1
    stops on that control there, while staticfiles/app.js skips it and
    goes on to the radio groups. *)
Lemma cached_validateStep_counts_hidden_field :
  let html := set_currentStep 1 (examplePage "" "" "") in
  (Cached.validateStep allRendered 1 html).1 = false
  /\ (Staticfiles.validateStep allRendered 1 html).1 = false
  /\ banner (Cached.validateStep allRendered 1 html).2 = BannerError MsgFillAll
  /\ banner (Staticfiles.validateStep allRendered 1 html).2
     = BannerError (MsgRadio "Orphan").
Proof. vm_compute. repeat split. Qed.

(** * Further properties of the script *)

(** ** The [required] attribute under showHideConditional *)

Lemma showHideField_absorbs show show' el :
  Staticfiles.showHideField show (Staticfiles.showHideField show' el)
  = Staticfiles.showHideField show el.
Proof.
  unfold Staticfiles.showHideField. cbn.
  destruct (el_originalRequired el); reflexivity.
Qed.

Lemma allFields_mapFields f st :
  allFields (mapFields f st) = map f (allFields st).
Proof. unfold allFields, mapFields. cbn. apply fieldsOf_map. Qed.

Lemma allFields_showHideConditional id show st :
  allFields (Staticfiles.showHideConditional id show st)
  = if bool_decide (id ∈ containers st)
    then map (fun el => if isDescendantOf id el
                        then Staticfiles.showHideField show el else el)
           (allFields st)
    else allFields st.
Proof.
  unfold Staticfiles.showHideConditional.
  destruct (bool_decide _); [|reflexivity].
  rewrite allFields_mapFields. reflexivity.
Qed.

Lemma shown_after_showHideConditional g id show st :
  g ∈ shown (Staticfiles.showHideConditional id show st)
  <-> if decide (g = id)
      then if bool_decide (id ∈ containers st) then show = true else g ∈ shown st
      else g ∈ shown st.
Proof.
  unfold Staticfiles.showHideConditional.
  destruct (decide (g = id)) as [->|Hne];
    destruct (bool_decide (id ∈ containers st)); try reflexivity;
    destruct show; cbn;
    rewrite ?elem_of_union, ?elem_of_difference, ?elem_of_singleton;
    intuition congruence.
Qed.

(** X2.  Hiding a block and showing it again gives every control of the
    page the [required] attribute it had, provided the attribute of the
    controls inside agreed with what was recorded for them (as on a fresh
    page, or while the block is shown). *)
Theorem hide_then_show_restores_required id st :
  id ∈ containers st ->
  originalsInSync id st = true ->
  map el_required
    (allFields (Staticfiles.showHideConditional id true
                  (Staticfiles.showHideConditional id false st)))
  = map el_required (allFields st)
  /\ id ∈ shown (Staticfiles.showHideConditional id true
                   (Staticfiles.showHideConditional id false st)).
Proof.
  intros Hin Hsync. split.
  - rewrite !allFields_showHideConditional, showHideConditional_containers.
    rewrite (bool_decide_eq_true_2 _ Hin).
    unfold originalsInSync in Hsync.
    induction (allFields st) as [|el l IH]; simpl; [reflexivity|].
    cbn [forallb] in Hsync. apply andb_true_iff in Hsync as [Hel Hl].
    f_equal; [|apply IH, Hl].
    destruct (isDescendantOf id el) eqn:Hd; [|rewrite Hd; reflexivity].
    change (isDescendantOf id (Staticfiles.showHideField false el))
      with (isDescendantOf id el).
    rewrite Hd, showHideField_absorbs. unfold Staticfiles.showHideField. cbn.
    cbn [negb orb] in Hel.
    destruct (el_originalRequired el) as [b|]; [|reflexivity].
    symmetry. apply Bool.eqb_prop, Hel.
  - apply shown_after_showHideConditional.
    destruct (decide (id = id)) as [_|Hne]; [|congruence].
    rewrite showHideConditional_containers, (bool_decide_eq_true_2 _ Hin).
    reflexivity.
Qed.

(** ** The recomputation of the conditional blocks *)

Lemma State_ext (a b : State) :
  sections a = sections b -> shown a = shown b -> sameNavigation a b -> a = b.
Proof.
  destruct a, b. unfold sameNavigation. cbn.
  intros -> -> (-> & -> & -> & -> & -> & -> & -> & -> & ->). reflexivity.
Qed.

Lemma mapSection_id s : mapSection (fun el => el) s = s.
Proof. destruct s. unfold mapSection. cbn. rewrite map_id. reflexivity. Qed.

Lemma mapSection_ext f g s :
  (forall el, f el = g el) -> mapSection f s = mapSection g s.
Proof.
  intros H. unfold mapSection. f_equal. apply map_ext. exact H.
Qed.

Lemma mapSection_compose f g s :
  mapSection f (mapSection g s) = mapSection (fun el => f (g el)) s.
Proof. unfold mapSection. cbn. rewrite map_map. reflexivity. Qed.

Lemma sections_showHideConditional id show st :
  sections (Staticfiles.showHideConditional id show st)
  = map (mapSection (touch (bool_decide (id ∈ containers st)) id show))
      (sections st).
Proof.
  unfold Staticfiles.showHideConditional, touch.
  destruct (bool_decide (id ∈ containers st)); cbn.
  - reflexivity.
  - rewrite (map_ext _ (fun s => s)) by apply mapSection_id.
    rewrite map_id. reflexivity.
Qed.

Lemma showHideConditional_navigation id show st :
  sameNavigation st (Staticfiles.showHideConditional id show st).
Proof.
  unfold Staticfiles.showHideConditional, sameNavigation.
  destruct (bool_decide (id ∈ containers st)); cbn; repeat split.
Qed.

Lemma sameNavigation_trans a b c :
  sameNavigation a b -> sameNavigation b c -> sameNavigation a c.
Proof. unfold sameNavigation. intuition congruence. Qed.

Lemma sameNavigation_sym a b : sameNavigation a b -> sameNavigation b a.
Proof. unfold sameNavigation. intuition congruence. Qed.

Lemma handleConditionalFields_navigation st :
  sameNavigation st (Staticfiles.handleConditionalFields st).
Proof.
  unfold Staticfiles.handleConditionalFields. cbv zeta.
  repeat (eapply sameNavigation_trans; [|apply showHideConditional_navigation]).
  unfold sameNavigation. repeat split.
Qed.

Lemma entered_touch c id show el : entered (touch c id show el) = entered el.
Proof. unfold touch. destruct (c && isDescendantOf id el); reflexivity. Qed.

Lemma isCheckedInput_touch name c id show el :
  isCheckedInput name (touch c id show el) = isCheckedInput name el.
Proof. unfold touch. destruct (c && isDescendantOf id el); reflexivity. Qed.

Lemma find_map_same (q : Element -> bool) (h : Element -> Element) l :
  (forall el, q (h el) = q el) ->
  List.find q (map h l) = h <$> List.find q l.
Proof.
  intros H. induction l as [|a l IH]; simpl; [reflexivity|].
  rewrite H. destruct (q a); [reflexivity|exact IH].
Qed.

Lemma getRadioValue_showHideConditional name id show st :
  getRadioValue name (Staticfiles.showHideConditional id show st)
  = getRadioValue name st.
Proof.
  unfold getRadioValue, allFields. rewrite sections_showHideConditional.
  rewrite fieldsOf_map, find_map_same by apply isCheckedInput_touch.
  destruct (List.find _ _) as [el|]; cbn; [|reflexivity].
  f_equal. unfold touch. destruct (_ && _); reflexivity.
Qed.

Lemma getRadioValue_handleConditionalFields name st :
  getRadioValue name (Staticfiles.handleConditionalFields st)
  = getRadioValue name st.
Proof.
  unfold Staticfiles.handleConditionalFields. cbv zeta.
  rewrite !getRadioValue_showHideConditional. reflexivity.
Qed.

Lemma entered_showHideConditional id show st :
  map entered (allFields (Staticfiles.showHideConditional id show st))
  = map entered (allFields st).
Proof.
  unfold allFields. rewrite sections_showHideConditional, fieldsOf_map, map_map.
  apply map_ext. apply entered_touch.
Qed.

(** X3.  Recomputing the conditional blocks never touches what the user
    entered: the value, the checked state and the chosen files of every
    control of the page are the same afterwards, every radio group reads
    as before, and the step, the banner, the focus, the dialogs and the
    submit control are unchanged. *)
Theorem handleConditionalFields_keeps_entries st :
  let st' := Staticfiles.handleConditionalFields st in
  map entered (allFields st') = map entered (allFields st)
  /\ (forall name, getRadioValue name st' = getRadioValue name st)
  /\ length (sections st') = length (sections st)
  /\ sameNavigation st st'.
Proof.
  cbv zeta. split; [|split; [|split]].
  - unfold Staticfiles.handleConditionalFields. cbv zeta.
    rewrite !entered_showHideConditional. reflexivity.
  - intros name. apply getRadioValue_handleConditionalFields.
  - unfold Staticfiles.handleConditionalFields. cbv zeta.
    rewrite !sections_showHideConditional, !length_map. reflexivity.
  - apply handleConditionalFields_navigation.
Qed.

Lemma ancestors_touch c id show x :
  el_ancestors (touch c id show x) = el_ancestors x.
Proof. unfold touch. destruct (c && isDescendantOf id x); reflexivity. Qed.

Lemma touch_as c id show el x :
  el_ancestors x = el_ancestors el ->
  touch c id show x
  = if c && isDescendantOf id el then Staticfiles.showHideField show x else x.
Proof. intros H. unfold touch, isDescendantOf. rewrite H. reflexivity. Qed.

Lemma touch5_idempotent c1 i1 b1 c2 i2 b2 c3 i3 b3 c4 i4 b4 c5 i5 b5 el :
  let T x := touch c5 i5 b5 (touch c4 i4 b4 (touch c3 i3 b3
               (touch c2 i2 b2 (touch c1 i1 b1 x)))) in
  T (T el) = T el.
Proof.
  intros T.
  assert (forall x, el_ancestors x = el_ancestors el ->
            T x = (if c5 && isDescendantOf i5 el
                   then Staticfiles.showHideField b5 else fun y => y)
                    ((if c4 && isDescendantOf i4 el
                      then Staticfiles.showHideField b4 else fun y => y)
                       ((if c3 && isDescendantOf i3 el
                         then Staticfiles.showHideField b3 else fun y => y)
                          ((if c2 && isDescendantOf i2 el
                            then Staticfiles.showHideField b2 else fun y => y)
                             ((if c1 && isDescendantOf i1 el
                               then Staticfiles.showHideField b1
                               else fun y => y) x))))) as N.
  { intros x Hx. unfold T.
    rewrite (touch_as c5 i5 b5 el), (touch_as c4 i4 b4 el),
      (touch_as c3 i3 b3 el), (touch_as c2 i2 b2 el), (touch_as c1 i1 b1 el)
      by (rewrite ?ancestors_touch; exact Hx).
    destruct (c5 && _), (c4 && _), (c3 && _), (c2 && _), (c1 && _);
      reflexivity. }
  rewrite (N (T el)) by (unfold T; rewrite !ancestors_touch; reflexivity).
  rewrite (N el) by reflexivity.
  destruct (c5 && _), (c4 && _), (c3 && _), (c2 && _), (c1 && _);
    rewrite ?showHideField_absorbs; reflexivity.
Qed.

Lemma shown_showHideConditional_as g id show cs :
  exists r : option bool, forall st,
    containers st = cs ->
    (g ∈ shown (Staticfiles.showHideConditional id show st)
     <-> match r with Some b => b = true | None => g ∈ shown st end).
Proof.
  destruct (decide (g = id)) as [->|Hne].
  - destruct (bool_decide (id ∈ cs)) eqn:Hc.
    + exists (Some show). intros st <-.
      rewrite shown_after_showHideConditional.
      destruct (decide (id = id)); [|congruence]. rewrite Hc. reflexivity.
    + exists None. intros st <-.
      rewrite shown_after_showHideConditional.
      destruct (decide (id = id)); [|congruence]. rewrite Hc. reflexivity.
  - exists None. intros st _.
    rewrite shown_after_showHideConditional.
    destruct (decide (g = id)); [congruence|reflexivity].
Qed.

Lemma shown_five_as g i1 b1 i2 b2 i3 b3 i4 b4 i5 b5 cs :
  exists r : option bool, forall st,
    containers st = cs ->
    (g ∈ shown (Staticfiles.showHideConditional i5 b5
                 (Staticfiles.showHideConditional i4 b4
                   (Staticfiles.showHideConditional i3 b3
                     (Staticfiles.showHideConditional i2 b2
                       (Staticfiles.showHideConditional i1 b1 st)))))
     <-> match r with Some b => b = true | None => g ∈ shown st end).
Proof.
  destruct (shown_showHideConditional_as g i1 b1 cs) as [r1 H1].
  destruct (shown_showHideConditional_as g i2 b2 cs) as [r2 H2].
  destruct (shown_showHideConditional_as g i3 b3 cs) as [r3 H3].
  destruct (shown_showHideConditional_as g i4 b4 cs) as [r4 H4].
  destruct (shown_showHideConditional_as g i5 b5 cs) as [r5 H5].
  exists (match r5, r4, r3, r2 with
          | Some b, _, _, _ => Some b
          | None, Some b, _, _ => Some b
          | None, None, Some b, _ => Some b
          | None, None, None, Some b => Some b
          | None, None, None, None => r1
          end).
  intros st Hcs.
  rewrite H5 by (rewrite !showHideConditional_containers; exact Hcs).
  destruct r5; [reflexivity|].
  rewrite H4 by (rewrite !showHideConditional_containers; exact Hcs).
  destruct r4; [reflexivity|].
  rewrite H3 by (rewrite !showHideConditional_containers; exact Hcs).
  destruct r3; [reflexivity|].
  rewrite H2 by (rewrite !showHideConditional_containers; exact Hcs).
  destruct r2; [reflexivity|].
  apply H1. exact Hcs.
Qed.

Lemma handleConditionalFields_containers st :
  containers (Staticfiles.handleConditionalFields st) = containers st.
Proof. apply (handleConditionalFields_navigation st). Qed.

(** X4.  Recomputing the conditional blocks twice in a row is the same
    as once: the second run leaves the whole state as the first run left
    it (the classes [show], every [required] attribute and every recorded
    original). *)
Theorem handleConditionalFields_idempotent st :
  Staticfiles.handleConditionalFields (Staticfiles.handleConditionalFields st)
  = Staticfiles.handleConditionalFields st.
Proof.
  set (st' := Staticfiles.handleConditionalFields st).
  assert (Hr : forall name, getRadioValue name st' = getRadioValue name st)
    by (intros; apply getRadioValue_handleConditionalFields).
  assert (Hc : containers st' = containers st)
    by apply handleConditionalFields_containers.
  apply State_ext.
  - unfold Staticfiles.handleConditionalFields at 1. cbv zeta.
    rewrite !Hr. rewrite !sections_showHideConditional.
    rewrite !showHideConditional_containers, Hc.
    subst st'. unfold Staticfiles.handleConditionalFields. cbv zeta.
    rewrite !sections_showHideConditional, !showHideConditional_containers.
    rewrite !map_map. apply map_ext. intros s.
    rewrite !mapSection_compose. apply mapSection_ext. intros el.
    apply touch5_idempotent.
  - apply set_eq. intros g.
    unfold Staticfiles.handleConditionalFields at 1. cbv zeta. rewrite !Hr.
    match goal with
    | |- g ∈ shown (Staticfiles.showHideConditional ?i5 ?b5
            (Staticfiles.showHideConditional ?i4 ?b4
              (Staticfiles.showHideConditional ?i3 ?b3
                (Staticfiles.showHideConditional ?i2 ?b2
                  (Staticfiles.showHideConditional ?i1 ?b1 _))))) <-> _ =>
        destruct (shown_five_as g i1 b1 i2 b2 i3 b3 i4 b4 i5 b5
                    (containers st)) as [r Has]
    end.
    rewrite (Has st' Hc).
    destruct r as [b|]; [|reflexivity].
    subst st'. unfold Staticfiles.handleConditionalFields. cbv zeta.
    rewrite (Has st eq_refl). reflexivity.
  - apply sameNavigation_sym, handleConditionalFields_navigation.
Qed.

Section MoreProperties.

Variable parseFloat : string -> float.
Variable offsetParentSet : Z -> gset string -> string -> bool.

(** ** What makes a step pass *)

Lemma firstInvalid_None sh l :
  Staticfiles.firstInvalid sh (List.filter el_required l) = None
  <-> (forall el, In el l -> el_required el = true ->
         inHiddenConditional sh el = false -> Staticfiles.fieldError el = None).
Proof.
  induction l as [|a l IH]; simpl.
  - split; [intros _ el []|reflexivity].
  - destruct (el_required a) eqn:Hreq; simpl.
    + destruct (inHiddenConditional sh a) eqn:Hh.
      * rewrite IH. split.
        -- intros H el [<-|Hin] Hr Hv; [congruence|auto].
        -- intros H el Hin. apply H. right. exact Hin.
      * destruct (Staticfiles.fieldError a) as [m|] eqn:He.
        -- split; [discriminate|].
           intros H. specialize (H a (or_introl eq_refl) Hreq Hh). congruence.
        -- rewrite IH. split.
           ++ intros H el [<-|Hin] Hr Hv; auto.
           ++ intros H el Hin. apply H. right. exact Hin.
    + rewrite IH. split.
      * intros H el [<-|Hin] Hr Hv; [congruence|auto].
      * intros H el Hin. apply H. right. exact Hin.
Qed.

Lemma firstUnanswered_None step sh sec groups he :
  (Staticfiles.firstUnanswered offsetParentSet step sh sec groups he).1 = None
  <-> (forall g lbl, In g groups -> rg_requiredLabel g = Some lbl ->
         rg_groupName g <> "" -> offsetParentSet step sh (rg_key g) = true ->
         sectionHasChecked (rg_groupName g) sec = true).
Proof.
  revert he. induction groups as [|a groups IH]; intros he; simpl.
  - split; [intros _ g lbl []|reflexivity].
  - destruct (rg_requiredLabel a) as [lbl|] eqn:Hl.
    + destruct (bool_decide (rg_groupName a = "")) eqn:Hn; cbn [negb andb].
      * apply bool_decide_eq_true_1 in Hn. rewrite IH. split.
        -- intros H g l [<-|Hin]; [congruence|eauto].
        -- intros H g l Hin. apply (H g l). right. exact Hin.
      * apply bool_decide_eq_false_1 in Hn.
        destruct (offsetParentSet step sh (rg_key a)) eqn:Ho.
        -- destruct (sectionHasChecked (rg_groupName a) sec) eqn:Hc.
           ++ rewrite IH. split.
              ** intros H g l [<-|Hin]; [auto|eauto].
              ** intros H g l Hin. apply (H g l). right. exact Hin.
           ++ cbn. split; [discriminate|].
              intros H. specialize (H a lbl (or_introl eq_refl) Hl Hn Ho).
              congruence.
        -- rewrite IH. split.
           ++ intros H g l [<-|Hin]; [congruence|eauto].
           ++ intros H g l Hin. apply (H g l). right. exact Hin.
    + rewrite IH. split.
      * intros H g l [<-|Hin]; [congruence|eauto].
      * intros H g l Hin. apply (H g l). right. exact Hin.
Qed.

Lemma sectionAt_Some step st sec :
  sectionAt step st = Some sec -> 1 <= step <= totalSteps st.
Proof.
  unfold sectionAt, totalSteps. destruct (decide (step - 1 < 0)); [discriminate|].
  intros H%lookup_lt_Some. lia.
Qed.

(** X5.  [validateStep(step)] returns true exactly when the step exists,
    every control of its section that carries [required] and is not inside
    a hidden conditional block passes the three tests (a file chosen, an
    option selected, a non-blank value), and every radio-group block of
    the section with a required label, a named radio and a non-null
    offsetParent (judged for the step on display) has an option checked;
    it then hides the banners and moves neither the step nor the focus.
    For a step outside 1..totalSteps it returns false and writes
    nothing. *)
Theorem validateStep_passes_exactly_when step st :
  ((Staticfiles.validateStep offsetParentSet step st).1 = true
   <-> exists sec,
         sectionAt step st = Some sec
         /\ (forall el, In el (sec_fields sec) -> el_required el = true ->
               inHiddenConditional (shown st) el = false ->
               Staticfiles.fieldError el = None)
         /\ (forall g lbl, In g (sec_radioGroups sec) ->
               rg_requiredLabel g = Some lbl -> rg_groupName g <> "" ->
               offsetParentSet (currentStep st) (shown st) (rg_key g) = true ->
               sectionHasChecked (rg_groupName g) sec = true))
  /\ ((Staticfiles.validateStep offsetParentSet step st).1 = true ->
      banner (Staticfiles.validateStep offsetParentSet step st).2 = BannerNone
      /\ focused (Staticfiles.validateStep offsetParentSet step st).2
         = focused st)
  /\ (~ (1 <= step <= totalSteps st) ->
      Staticfiles.validateStep offsetParentSet step st = (false, st)).
Proof.
  unfold Staticfiles.validateStep.
  destruct (sectionAt step st) as [sec|] eqn:Hsec.
  - pose proof (firstInvalid_None (shown st) (sec_fields sec)) as Hf.
    pose proof (firstUnanswered_None (currentStep st) (shown st) sec
                  (sec_radioGroups sec) (hasError st)) as Hg.
    unfold Staticfiles.requiredEls.
    destruct (Staticfiles.firstInvalid _ _) as [[el m]|].
    + split; [|split].
      * split; [discriminate|].
        intros (sec' & [= <-] & H1 & _). apply Hf in H1. discriminate.
      * discriminate.
      * intros Hout. apply sectionAt_Some in Hsec. contradiction.
    + destruct (Staticfiles.firstUnanswered _ _ _ _ _ _) as [[[grp lbl]|] he];
        cbn [fst snd] in *.
      * split; [|split].
        -- split; [discriminate|].
           intros (sec' & [= <-] & _ & H2). apply Hg in H2. discriminate.
        -- discriminate.
        -- intros Hout. apply sectionAt_Some in Hsec. contradiction.
      * split; [|split].
        -- split; [|reflexivity]. intros _. exists sec.
           split; [reflexivity|]. split; [apply Hf|apply Hg]; reflexivity.
        -- intros _. split; reflexivity.
        -- intros Hout. apply sectionAt_Some in Hsec. contradiction.
  - split; [|split].
    + split; [discriminate|]. intros (sec & [=] & _).
    + discriminate.
    + reflexivity.
Qed.

(** ** The financial gate, over every event *)

Lemma financiallyValid_document answer st st' :
  sameDocument st st' ->
  financiallyValid parseFloat answer st' = financiallyValid parseFloat answer st.
Proof.
  intros (_ & Hs & _). unfold financiallyValid.
  rewrite !(fieldNumber_sections parseFloat _ _ _ Hs). reflexivity.
Qed.

Lemma goToStep_leaves_step_2 answer n st :
  currentStep st = 2 ->
  2 < currentStep (Staticfiles.goToStep parseFloat offsetParentSet answer n st) ->
  stepValid offsetParentSet 2 st = true
  /\ financiallyValid parseFloat answer st = true.
Proof.
  intros Hcur. unfold Staticfiles.goToStep, Staticfiles.goToStepCall, stepValid.
  destruct (decide (n > currentStep st)); [|cbn; lia].
  rewrite Hcur.
  pose proof (validateStep_frame parseFloat offsetParentSet 2 st)
    as (Hd & _ & _).
  destruct (Staticfiles.validateStep offsetParentSet 2 st) as [ok st1];
    cbn [fst snd] in *.
  pose proof Hd as (Hc & _).
  destruct ok; cbn [negb snd]; [|intros; lia].
  destruct (decide (currentStep st1 = 2)); [|congruence].
  rewrite <- (financiallyValid_document answer st st1 Hd).
  unfold Staticfiles.validateFinancialFields, financiallyValid.
  set (o := Staticfiles.financialRule _ _ _ _).
  destruct (applyOutcome_frame o st1) as ((Hc2 & _) & _).
  pose proof (applyOutcome_passes o st1) as Hpass.
  destruct (applyOutcome o st1) as [[[|]|] st2]; cbn [fst snd negb] in *;
    try (intros; lia).
  intros _. split; [reflexivity|].
  destruct (fin_ok o); [reflexivity|]. exfalso. apply Hpass; reflexivity.
Qed.

Lemma submitLoop_leaves_step_2 answer steps st st1 :
  sameDocument st st1 -> currentStep st = 2 ->
  2 < currentStep
        (Staticfiles.submitLoop parseFloat offsetParentSet answer steps st1) ->
  stepValid offsetParentSet 2 st = true
  /\ financiallyValid parseFloat answer st = true.
Proof.
  revert st1. induction steps as [|s steps IH]; intros st1 Hd Hcur; simpl.
  - destruct Hd as (Hc & _). cbn. lia.
  - pose proof (validateStep_frame parseFloat offsetParentSet s st1)
      as (Hd1 & _ & _).
    destruct (Staticfiles.validateStep offsetParentSet s st1) as [ok st2];
      cbn [fst snd] in *.
    pose proof (sameDocument_trans _ _ _ Hd Hd1) as Hd2.
    destruct ok; [apply IH; assumption|].
    intros Hgo.
    assert (Hgo' : 2 < currentStep (Staticfiles.goToStep parseFloat
                                      offsetParentSet answer s st2)).
    { unfold Staticfiles.goToStep.
      destruct (Staticfiles.goToStepCall _ _ _ _ _) as [[[]|] st3];
        exact Hgo. }
    destruct (goToStep_leaves_step_2 answer s st2) as [Hv Hf]; [|exact Hgo'|].
    { destruct Hd2 as (Hc & _). congruence. }
    split.
    + unfold stepValid in *.
      rewrite <- (validateStep_document offsetParentSet 2 st st2 Hd2).
      exact Hv.
    + rewrite <- (financiallyValid_document answer st st2 Hd2). exact Hf.
Qed.

Lemma currentStep_checkFirst p st : currentStep (checkFirst p st) = currentStep st.
Proof. unfold checkFirst. destruct (List.find p (allFields st)); reflexivity. Qed.

Lemma currentStep_amountBlur st :
  currentStep (Staticfiles.amountBlur parseFloat st) = currentStep st.
Proof. unfold Staticfiles.amountBlur. destruct (_ && _); reflexivity. Qed.

(** X6.  In staticfiles/app.js no event takes the form from step 2 to a
    later step unless, on the page as it is when the event arrives,
    [validateStep(2)] returns true and the financial rule returns true
    under the answers given to its dialogs: neither a navigation button,
    nor a radio change, an edit, a file choice, the blur of the amount
    field or a submit event gets past the gate. *)
Theorem no_event_skips_the_financial_gate ev st :
  currentStep st = 2 ->
  2 < currentStep (Staticfiles.step parseFloat offsetParentSet ev st) ->
  stepValid offsetParentSet 2 st = true
  /\ financiallyValid parseFloat (answersOf ev) st = true.
Proof.
  intros Hcur. destruct ev as [b answer|id|id v|id n| |answer]; cbn [Staticfiles.step answersOf].
  - apply goToStep_leaves_step_2. exact Hcur.
  - destruct (handleConditionalFields_navigation
                (checkFirst (fun el => hasId id el && bool_decide (el_type el = "radio")) st))
      as (Hc & _).
    rewrite Hc, currentStep_checkFirst. lia.
  - cbn. lia.
  - cbn. lia.
  - rewrite currentStep_amountBlur. lia.
  - unfold Staticfiles.submitHandler.
    apply submitLoop_leaves_step_2; [apply sameDocument_refl|exact Hcur].
Qed.

(** ** The Enter shortcut of part_000 *)

Lemma cached_validateStep_dialogs step st :
  dialogs (Cached.validateStep offsetParentSet step st).2 = dialogs st.
Proof.
  unfold Cached.validateStep.
  destruct (sectionAt step st) as [sec|]; [|reflexivity].
  destruct (Cached.firstInvalid _) as [[el m]|]; [reflexivity|].
  destruct (Staticfiles.firstUnanswered _ _ _ _ _ _) as [[[grp lbl]|] he];
    reflexivity.
Qed.

(** X7.  In part_000 the financial rule guards the button [toStep3]
    only.  On step 2 of a longer form, Enter pressed outside a textarea
    moves to step 3 as soon as [validateStep(2)] passes, whatever the
    three amounts are and without opening a dialog; the button, on the
    same page, stays on step 2 when the rule fails. *)
Theorem cached_enter_skips_the_financial_rule tag answer st :
  currentStep st = 2 -> 2 < totalSteps st -> tag <> Some TEXTAREA ->
  (Cached.validateStep offsetParentSet 2 st).1 = true ->
  (currentStep (Cached.keydownEnter offsetParentSet tag st) = 3
   /\ dialogs (Cached.keydownEnter offsetParentSet tag st) = dialogs st
   /\ sections (Cached.keydownEnter offsetParentSet tag st) = sections st)
  /\ (fin_ok (Cached.financialRule answer
                (fieldNumber parseFloat ID_INCOME st)
                (fieldNumber parseFloat ID_TUITION st)
                (fieldNumber parseFloat ID_AMOUNT st)) = false ->
      currentStep (Cached.click parseFloat offsetParentSet toStep3 answer st) = 2).
Proof.
  intros Hcur Htot Htag Hok.
  pose proof (cached_validateStep_frame parseFloat offsetParentSet 2 st)
    as (Hc & Hs & _).
  pose proof (cached_validateStep_dialogs 2 st) as Hdlg.
  split.
  - unfold Cached.keydownEnter, Cached.goToStep.
    destruct (decide (currentStep st < totalSteps st)); [|lia].
    rewrite (bool_decide_eq_false_2 _ Htag).
    destruct (decide (currentStep st + 1 > currentStep st)); [|lia].
    rewrite Hcur.
    destruct (Cached.validateStep offsetParentSet 2 st) as [ok st1];
      cbn [fst snd] in *.
    subst ok. cbn. auto.
  - intros Hbad. cbn [Cached.click]. unfold Cached.clickToStep3.
    destruct (Cached.validateStep offsetParentSet 2 st) as [ok st1];
      cbn [fst snd] in *.
    subst ok. cbn [negb]. unfold Cached.validateFinancialFields.
    rewrite !(fieldNumber_sections parseFloat _ _ _ Hs).
    set (o := Cached.financialRule _ _ _ _) in *.
    destruct (applyOutcome_frame o st1) as ((Hc2 & _) & _).
    pose proof (applyOutcome_passes o st1 Hbad) as Hpass.
    destruct (applyOutcome o st1) as [[[|]|] st2]; cbn [fst snd negb] in *;
      congruence.
Qed.

(** ** After the blur handler has wiped the amount *)

Lemma in_updateFirst p f l el :
  List.find p l = Some el -> In (f el) (updateFirst p f l).
Proof.
  induction l as [|a l IH]; simpl; [discriminate|].
  destruct (p a) eqn:E.
  - intros [= ->]. left. reflexivity.
  - intros H. right. apply IH, H.
Qed.

Lemma find_existsb {A} (p : A -> bool) l x :
  List.find p l = Some x -> existsb p l = true.
Proof.
  intros H. apply existsb_exists. exists x. apply (find_some _ _ H).
Qed.

Lemma fieldError_blank el :
  el_type el <> "file" -> Staticfiles.fieldError (with_value "" el) <> None.
Proof.
  intros Ht. unfold Staticfiles.fieldError. cbn.
  rewrite (bool_decide_eq_false_2 _ Ht).
  destruct (bool_decide (el_tag el = SELECT)); cbn; discriminate.
Qed.

Lemma validateStep_fails_goToStep_stays answer n st :
  n > currentStep st ->
  stepValid offsetParentSet (currentStep st) st = false ->
  currentStep (Staticfiles.goToStep parseFloat offsetParentSet answer n st)
  = currentStep st.
Proof.
  intros Hn Hbad.
  unfold Staticfiles.goToStep, Staticfiles.goToStepCall, stepValid in *.
  destruct (decide (n > currentStep st)); [|lia].
  pose proof (validateStep_frame parseFloat offsetParentSet (currentStep st) st)
    as ((Hc & _) & _).
  destruct (Staticfiles.validateStep _ _ _) as [ok st1]; cbn [fst snd] in *.
  subst ok. exact Hc.
Qed.

(** X8.  Once the blur handler has wiped an amount above the tuition
    fee, the form cannot go on until a new amount is typed: with the
    amount field a required, visible control of the second section,
    [validateStep(2)] fails on the page the handler leaves, a forward
    move from step 2 stays on step 2 and a submit event submits
    nothing. *)
Theorem wiped_amount_holds_the_form st :
  amountFieldOnStep2 st = true ->
  amountExceedsTuition parseFloat st = true ->
  let st' := Staticfiles.amountBlur parseFloat st in
  stepValid offsetParentSet 2 st' = false
  /\ (forall answer n, currentStep st = 2 -> n > 2 ->
        currentStep (Staticfiles.goToStep parseFloat offsetParentSet answer n st')
        = 2)
  /\ (forall answer,
        submitted (Staticfiles.submitHandler parseFloat offsetParentSet answer st')
        = submitted st).
Proof.
  intros Hlayout Hex.
  unfold amountFieldOnStep2 in Hlayout.
  destruct (sections st) as [|s1 [|sec rest]] eqn:Hss; try discriminate.
  apply andb_true_iff in Hlayout as [Hs1 Hlayout].
  apply negb_true_iff in Hs1.
  destruct (List.find (hasId ID_AMOUNT) (sec_fields sec)) as [el|] eqn:Hfind;
    [|discriminate].
  apply andb_true_iff in Hlayout as [[Hreq Htype]%andb_true_iff Hvis].
  apply negb_true_iff, bool_decide_eq_false_1 in Htype.
  apply negb_true_iff in Hvis.
  cbv zeta. unfold amountExceedsTuition in Hex.
  unfold Staticfiles.amountBlur. rewrite Hex.
  set (m := MsgBlurExceeds _).
  set (st' := focus ID_AMOUNT _).
  assert (Hsec : sections st'
                 = s1 :: {| sec_fields := updateFirst (hasId ID_AMOUNT)
                                            (with_value "") (sec_fields sec);
                            sec_radioGroups := sec_radioGroups sec |} :: rest).
  { subst st'. cbn. rewrite Hss. cbn. rewrite Hs1.
    rewrite (find_existsb _ _ _ Hfind). reflexivity. }
  assert (Hbad : stepValid offsetParentSet 2 st' = false).
  { unfold stepValid, Staticfiles.validateStep, sectionAt.
    rewrite Hsec. cbn [decide]. change (Z.to_nat (2 - 1)) with 1%nat.
    destruct (decide (2 - 1 < 0)); [lia|]. cbn [lookup list_lookup].
    destruct (Staticfiles.firstInvalid _ _) as [[e msg]|] eqn:Hinv;
      [reflexivity|].
    exfalso. unfold Staticfiles.requiredEls in Hinv. cbn [sec_fields] in Hinv.
    rewrite firstInvalid_None in Hinv.
    apply (fieldError_blank el Htype).
    apply Hinv; [apply in_updateFirst, Hfind|exact Hreq|exact Hvis]. }
  split; [exact Hbad|]. split.
  - intros answer n Hcur Hn.
    assert (Hcur' : currentStep st' = 2) by exact Hcur.
    rewrite <- Hcur'. apply validateStep_fails_goToStep_stays; rewrite Hcur';
      [exact Hn|exact Hbad].
  - intros answer. rewrite (submitHandler_submitted parseFloat).
    destruct (firstFailing offsetParentSet st') eqn:Hff; [reflexivity|].
    exfalso. unfold firstFailing in Hff.
    assert (Hin : In 2 (stepsOf st')).
    { apply in_stepsOf. unfold totalSteps. rewrite Hsec. cbn [length]. lia. }
    pose proof (find_none _ _ Hff 2 Hin) as Hn. cbn beta in Hn.
    rewrite Hbad in Hn. discriminate.
Qed.

(** ** The required attribute over the life of the page *)

Lemma requiredOnlyWhenShown_view st st' :
  containers st' = containers st -> shown st' = shown st ->
  map requiredView (allFields st') = map requiredView (allFields st) ->
  requiredOnlyWhenShown st -> requiredOnlyWhenShown st'.
Proof.
  intros Hc Hs Hv H el' id Hel' Hid Hin [Hd Ho] Hreq.
  rewrite Hc in Hin. rewrite Hs.
  assert (Hex : In (requiredView el') (map requiredView (allFields st)))
    by (rewrite <- Hv; apply in_map, Hel').
  apply in_map_iff in Hex as (el & Hview & Hel).
  unfold requiredView in Hview. injection Hview as Hr Ha.
  apply (H el id Hel Hid Hin).
  - unfold onlyInside, isDescendantOf in *. rewrite Ha. split; assumption.
  - congruence.
Qed.

Lemma requiredOnlyWhenShown_document st st' :
  sameDocument st st' -> requiredOnlyWhenShown st -> requiredOnlyWhenShown st'.
Proof.
  intros (_ & Hs & Hsh & Hc). apply requiredOnlyWhenShown_view; auto.
  unfold allFields. rewrite Hs. reflexivity.
Qed.

Lemma requiredView_updateFirstInSections p f ss :
  (forall el, requiredView (f el) = requiredView el) ->
  map requiredView (fieldsOf (updateFirstInSections p f ss))
  = map requiredView (fieldsOf ss).
Proof.
  intros Hf. rewrite fieldsOf_updateFirst.
  induction (fieldsOf ss) as [|a l IH]; simpl; [reflexivity|].
  destruct (p a); simpl; [rewrite Hf; reflexivity|].
  f_equal. exact IH.
Qed.

Lemma submitLoop_document answer steps st :
  sections (Staticfiles.submitLoop parseFloat offsetParentSet answer steps st)
  = sections st
  /\ shown (Staticfiles.submitLoop parseFloat offsetParentSet answer steps st)
     = shown st
  /\ containers (Staticfiles.submitLoop parseFloat offsetParentSet answer steps st)
     = containers st.
Proof.
  revert st. induction steps as [|s steps IH]; intros st; simpl.
  - repeat split.
  - pose proof (validateStep_frame parseFloat offsetParentSet s st)
      as ((_ & Hs & Hsh & Hc) & _).
    destruct (Staticfiles.validateStep offsetParentSet s st) as [ok st1];
      cbn [fst snd] in *.
    destruct ok.
    + destruct (IH st1) as (H1 & H2 & H3). repeat split; congruence.
    + pose proof (goToStep_frame parseFloat offsetParentSet answer s st1)
        as (_ & H1 & H2 & H3 & _).
      cbv zeta in *. unfold Staticfiles.goToStep in *.
      destruct (Staticfiles.goToStepCall _ _ _ _ _) as [[[]|] st2];
        cbn in *; repeat split; congruence.
Qed.

Lemma touch_skip c id show el x :
  el_ancestors x = el_ancestors el -> isDescendantOf id el = false ->
  touch c id show x = x.
Proof.
  intros Ha Hd. rewrite (touch_as c id show el x Ha), Hd, andb_false_r.
  reflexivity.
Qed.

Lemma touch_hit id show el x st :
  el_ancestors x = el_ancestors el -> isDescendantOf id el = true ->
  id ∈ containers st ->
  touch (bool_decide (id ∈ containers st)) id show x
  = Staticfiles.showHideField show x.
Proof.
  intros Ha Hd Hc.
  rewrite (touch_as _ id show el x Ha), Hd, (bool_decide_eq_true_2 _ Hc).
  reflexivity.
Qed.

Lemma required_showHideField show x :
  el_required (Staticfiles.showHideField show x) = true -> show = true.
Proof.
  unfold Staticfiles.showHideField. cbn [el_required with_required].
  intros [H _]%andb_true_iff. exact H.
Qed.

Ltac peel_shown :=
  rewrite shown_after_showHideConditional;
  match goal with
  | |- context [decide (?a = ?b)] =>
      let Heq := fresh "Heq" in
      let Hne := fresh "Hne" in
      destruct (decide (a = b)) as [Heq|Hne];
      [ try discriminate Heq; clear Heq
      | try (exfalso; exact (Hne eq_refl)); clear Hne ]
  end.

Ltac step_touch el id :=
  first [ rewrite (touch_skip _ id _ el) by (first [reflexivity|assumption])
        | rewrite (touch_hit id _ el) by (first [reflexivity|assumption]) ].

Lemma required_after_handleConditionalFields st el' :
  In el' (allFields (Staticfiles.handleConditionalFields st)) ->
  exists el,
    In el (allFields st) /\ el_ancestors el' = el_ancestors el
    /\ forall id, In id FIVE_BLOCKS -> id ∈ containers st -> onlyInside id el ->
         el_required el' = true ->
         id ∈ shown (Staticfiles.handleConditionalFields st).
Proof.
  unfold Staticfiles.handleConditionalFields. cbv zeta.
  set (o := bool_decide (getRadioValue "orphan" st = _)).
  set (d := bool_decide (getRadioValue "disability" st = _)).
  set (p := bool_decide (getRadioValue "previousBursary" st = _)).
  set (b := bool_decide (getRadioValue "bothParentsAlive" st = _)).
  set (s := bool_decide (getRadioValue "singleParent" st = _)).
  clearbody o d p b s.
  unfold allFields at 1.
  rewrite !sections_showHideConditional, !showHideConditional_containers.
  rewrite !fieldsOf_map, !map_map. fold (allFields st).
  intros Hin. apply in_map_iff in Hin as (el & <- & Hel).
  exists el. split; [exact Hel|].
  split; [rewrite !ancestors_touch; reflexivity|].
  intros id Hid Hc [Hd Ho].
  assert (H1 : ORPHAN_NOTE <> id -> isDescendantOf ORPHAN_NOTE el = false)
    by (intros; apply Ho; [cbn; auto 10|assumption]).
  assert (H2 : DISABILITY_DETAILS <> id ->
               isDescendantOf DISABILITY_DETAILS el = false)
    by (intros; apply Ho; [cbn; auto 10|assumption]).
  assert (H3 : PREVIOUS_BURSARY_DETAILS <> id ->
               isDescendantOf PREVIOUS_BURSARY_DETAILS el = false)
    by (intros; apply Ho; [cbn; auto 10|assumption]).
  assert (H4 : PREVIOUS_BURSARY_DETAILS_CONTINUED <> id ->
               isDescendantOf PREVIOUS_BURSARY_DETAILS_CONTINUED el = false)
    by (intros; apply Ho; [cbn; auto 10|assumption]).
  assert (H5 : PROVIDER_NOTE <> id -> isDescendantOf PROVIDER_NOTE el = false)
    by (intros; apply Ho; [cbn; auto 10|assumption]).
  clear Ho. cbn [In FIVE_BLOCKS] in Hid.
  destruct Hid as [<-|[<-|[<-|[<-|[<-|[]]]]]];
    try specialize (H1 ltac:(discriminate));
    try specialize (H2 ltac:(discriminate));
    try specialize (H3 ltac:(discriminate));
    try specialize (H4 ltac:(discriminate));
    try specialize (H5 ltac:(discriminate));
    step_touch el ORPHAN_NOTE; step_touch el DISABILITY_DETAILS;
    step_touch el PREVIOUS_BURSARY_DETAILS;
    step_touch el PREVIOUS_BURSARY_DETAILS_CONTINUED;
    step_touch el PROVIDER_NOTE;
    intros Hshow%required_showHideField;
    repeat peel_shown;
    rewrite ?showHideConditional_containers, ?(bool_decide_eq_true_2 _ Hc);
    exact Hshow.
Qed.

Lemma requiredOnlyWhenShown_handleConditionalFields st :
  requiredOnlyWhenShown (Staticfiles.handleConditionalFields st).
Proof.
  intros el' id Hel' Hid Hc Honly Hreq.
  destruct (required_after_handleConditionalFields st el' Hel')
    as (el & Hel & Ha & H).
  rewrite handleConditionalFields_containers in Hc.
  apply (H id Hid Hc); [|exact Hreq].
  unfold onlyInside, isDescendantOf in *. rewrite <- Ha. exact Honly.
Qed.

(** X9.  In every state the page of staticfiles/app.js can reach, from
    any HTML and through any sequence of events, a control that lies in
    one (and only one) of the five conditional blocks carries [required]
    only while that block carries [show]: the attribute is never asserted
    inside a hidden block. *)
Theorem required_only_inside_shown_blocks html st :
  Staticfiles.reachable parseFloat offsetParentSet html st ->
  requiredOnlyWhenShown st.
Proof.
  induction 1 as [|ev st Hreach IH].
  - apply requiredOnlyWhenShown_handleConditionalFields.
  - destruct ev as [b answer|id|id v|id n| |answer]; cbn [Staticfiles.step].
    + pose proof (goToStep_frame parseFloat offsetParentSet answer
                    (navTarget b) st) as (_ & Hs & Hsh & Hc & _).
      cbv zeta in *.
      apply (requiredOnlyWhenShown_view st); auto.
      unfold allFields. rewrite Hs. reflexivity.
    + apply requiredOnlyWhenShown_handleConditionalFields.
    + apply (requiredOnlyWhenShown_view st); auto.
      apply requiredView_updateFirstInSections. reflexivity.
    + apply (requiredOnlyWhenShown_view st); auto.
      apply requiredView_updateFirstInSections. reflexivity.
    + unfold Staticfiles.amountBlur. destruct (_ && _).
      * apply (requiredOnlyWhenShown_view st); auto.
        apply requiredView_updateFirstInSections. reflexivity.
      * exact IH.
    + unfold Staticfiles.submitHandler.
      destruct (submitLoop_document answer (stepsOf st) st) as (Hs & Hsh & Hc).
      apply (requiredOnlyWhenShown_view st); auto.
      unfold allFields. rewrite Hs. reflexivity.
Qed.

(** ** Submission and the financial rule *)

Lemma submitLoop_pass_dialogs answer steps st0 st :
  sameDocument st0 st ->
  List.find (fun s => negb (stepValid offsetParentSet s st0)) steps = None ->
  dialogs (Staticfiles.submitLoop parseFloat offsetParentSet answer steps st)
  = dialogs st.
Proof.
  revert st. induction steps as [|s steps IH]; intros st Hdoc; simpl;
    [reflexivity|].
  unfold stepValid at 1.
  rewrite <- (validateStep_document offsetParentSet s st0 st Hdoc).
  pose proof (validateStep_frame parseFloat offsetParentSet s st)
    as (Hd & _ & Hdlg).
  destruct (Staticfiles.validateStep offsetParentSet s st) as [ok st1];
    cbn [fst snd] in *.
  destruct ok; cbn [negb]; [|discriminate].
  intros Hrest.
  rewrite (IH st1 (sameDocument_trans _ _ _ Hdoc Hd) Hrest). exact Hdlg.
Qed.

(** X17.  The financial rule guards navigation only.  A submit event
    on a page whose steps all pass [validateStep] submits the form, from
    whatever step and whatever the three amounts are, without opening a
    dialog: the submit handler reaches [validateFinancialFields] only
    through [goToStep], after a step has failed. *)
Theorem submit_of_a_valid_form_skips_the_financial_rule answer st :
  firstFailing offsetParentSet st = None ->
  let st' := Staticfiles.submitHandler parseFloat offsetParentSet answer st in
  submitted st' = true /\ dialogs st' = dialogs st
  /\ currentStep st' = currentStep st.
Proof.
  intros Hnone. cbv zeta. split; [|split].
  - rewrite (submitHandler_submitted parseFloat offsetParentSet), Hnone.
    reflexivity.
  - unfold Staticfiles.submitHandler.
    apply (submitLoop_pass_dialogs answer (stepsOf st) st st
             (sameDocument_refl st) Hnone).
  - unfold Staticfiles.submitHandler.
    destruct (submitLoop_pass parseFloat offsetParentSet answer (stepsOf st)
                st st (sameDocument_refl st) Hnone)
      as (st1 & (Hc & _) & _ & ->).
    exact Hc.
Qed.

End MoreProperties.

(** ** static/app.js: conditional blocks that clear what they hold *)

Lemma static_showHideConditional_containers id show st :
  containers (Static.showHideConditional id show st) = containers st.
Proof.
  unfold Static.showHideConditional.
  destruct (bool_decide (id ∈ containers st)); reflexivity.
Qed.

Lemma static_elem_of_shown g id show st :
  g ∈ shown (Static.showHideConditional id show st)
  <-> if decide (g = id)
      then if bool_decide (id ∈ containers st) then show = true else g ∈ shown st
      else g ∈ shown st.
Proof.
  unfold Static.showHideConditional.
  destruct (decide (g = id)) as [->|Hne];
    destruct (bool_decide (id ∈ containers st)); try reflexivity;
    destruct show; cbn;
    rewrite ?elem_of_union, ?elem_of_difference, ?elem_of_singleton;
    intuition congruence.
Qed.

(** X10.  After [handleConditionalFields] of static/app.js each of the
    seven conditional blocks present in the page carries [show] exactly
    when its expression over the radio answers read at entry holds:
    [parentInfoGroup] and [parentalStatusGroup] iff orphan is not "True",
    [orphanNote] iff orphan is "True", [disabilityDetails] iff disability
    is "True", the two previous-bursary blocks iff previousBursary is
    "True", and [providerNote] iff orphan or singleParent is "True": the
    answer to bothParentsAlive enters no block. *)
Theorem static_handleConditionalFields_visibility st :
  let st' := Static.handleConditionalFields st in
  (Static.PARENT_INFO_GROUP ∈ containers st ->
   (Static.PARENT_INFO_GROUP ∈ shown st' <-> answeredTrue "orphan" st = false))
  /\ (Static.PARENTAL_STATUS_GROUP ∈ containers st ->
      (Static.PARENTAL_STATUS_GROUP ∈ shown st'
       <-> answeredTrue "orphan" st = false))
  /\ (ORPHAN_NOTE ∈ containers st ->
      (ORPHAN_NOTE ∈ shown st' <-> answeredTrue "orphan" st = true))
  /\ (DISABILITY_DETAILS ∈ containers st ->
      (DISABILITY_DETAILS ∈ shown st' <-> answeredTrue "disability" st = true))
  /\ (PREVIOUS_BURSARY_DETAILS ∈ containers st ->
      (PREVIOUS_BURSARY_DETAILS ∈ shown st'
       <-> answeredTrue "previousBursary" st = true))
  /\ (PREVIOUS_BURSARY_DETAILS_CONTINUED ∈ containers st ->
      (PREVIOUS_BURSARY_DETAILS_CONTINUED ∈ shown st'
       <-> answeredTrue "previousBursary" st = true))
  /\ (PROVIDER_NOTE ∈ containers st ->
      (PROVIDER_NOTE ∈ shown st'
       <-> answeredTrue "orphan" st || answeredTrue "singleParent" st = true)).
Proof.
  cbv zeta. unfold Static.handleConditionalFields, answeredTrue.
  set (o := bool_decide (getRadioValue "orphan" st = _)).
  set (d := bool_decide (getRadioValue "disability" st = _)).
  set (p := bool_decide (getRadioValue "previousBursary" st = _)).
  set (b := bool_decide (getRadioValue "bothParentsAlive" st = _)).
  set (s := bool_decide (getRadioValue "singleParent" st = _)).
  clearbody o d p b s.
  split; [|split; [|split; [|split; [|split; [|split]]]]]; intros Hin;
    repeat (rewrite static_elem_of_shown;
            case_decide; [try discriminate|]);
    rewrite ?static_showHideConditional_containers,
      ?(bool_decide_eq_true_2 _ Hin);
    destruct o, s; cbn; split; congruence.
Qed.

Lemma cleared_clearField el : cleared (Static.clearField el).
Proof.
  unfold cleared, Static.clearField.
  destruct (bool_decide (el_type el = "radio")) eqn:Hr.
  - cbn [el_type el_checked with_checked]. rewrite Hr. reflexivity.
  - destruct (_ || _) eqn:Ht.
    + cbn [el_type el_tag el_value with_value]. rewrite Hr, Ht. reflexivity.
    + rewrite Hr, Ht. exact I.
Qed.

Lemma cleared_showHideField show el :
  cleared el -> cleared (Static.showHideField show el).
Proof.
  unfold Static.showHideField. cbv zeta.
  destruct (show && _); [exact (fun H => H)|].
  destruct show; cbn [negb]; [exact (fun H => H)|].
  intros _. apply cleared_clearField.
Qed.

Lemma cleared_hidden el : cleared (Static.showHideField false el).
Proof.
  unfold Static.showHideField. cbv zeta. cbn [andb negb].
  apply cleared_clearField.
Qed.

Lemma static_ancestors_showHideField show el :
  el_ancestors (Static.showHideField show el) = el_ancestors el.
Proof.
  unfold Static.showHideField, Static.clearField. cbv zeta.
  destruct (show && _); [reflexivity|].
  destruct (negb show); [|reflexivity].
  cbn. destruct (bool_decide _); [reflexivity|].
  destruct (_ || _); reflexivity.
Qed.

Lemma static_allFields_showHideConditional id show st :
  allFields (Static.showHideConditional id show st)
  = if bool_decide (id ∈ containers st)
    then map (fun el => if isDescendantOf id el
                        then Static.showHideField show el else el)
           (allFields st)
    else allFields st.
Proof.
  unfold Static.showHideConditional.
  destruct (bool_decide _); [|reflexivity].
  rewrite allFields_mapFields. reflexivity.
Qed.

Lemma blockCleared_showHideConditional id id' show st :
  blockCleared id st -> blockCleared id (Static.showHideConditional id' show st).
Proof.
  unfold blockCleared. rewrite static_allFields_showHideConditional.
  destruct (bool_decide _); [|exact (fun H => H)].
  intros H. apply List.Forall_forall. intros el' Hin.
  apply in_map_iff in Hin as (el & <- & Hin).
  rewrite List.Forall_forall in H. specialize (H el Hin).
  destruct (isDescendantOf id' el); [|exact H].
  unfold isDescendantOf. rewrite static_ancestors_showHideField.
  intros Hd. apply cleared_showHideField, H, Hd.
Qed.

Lemma blockCleared_hide id st :
  id ∈ containers st ->
  blockCleared id (Static.showHideConditional id false st).
Proof.
  intros Hin. unfold blockCleared.
  rewrite static_allFields_showHideConditional, (bool_decide_eq_true_2 _ Hin).
  apply List.Forall_forall. intros el' Hel.
  apply in_map_iff in Hel as (el & <- & _).
  destruct (isDescendantOf id el) eqn:Hd.
  - intros _. apply cleared_hidden.
  - congruence.
Qed.

Lemma blockCleared_handleConditionalFields id st :
  blockCleared id st -> blockCleared id (Static.handleConditionalFields st).
Proof.
  intros H. unfold Static.handleConditionalFields. cbv zeta.
  repeat apply blockCleared_showHideConditional. exact H.
Qed.

Lemma cleared_uncheckGroup name el : cleared el -> cleared (uncheckGroup name el).
Proof.
  unfold uncheckGroup.
  destruct (bool_decide (el_type el = "radio")) eqn:Hr; cbn [andb];
    [|exact (fun H => H)].
  destruct (bool_decide (el_name el = name)); [|exact (fun H => H)].
  intros _. unfold cleared. cbn [el_type el_checked with_checked].
  rewrite Hr. reflexivity.
Qed.

Lemma Forall_updateFirst (Q : Element -> Prop) p f l :
  Forall Q l -> (forall x, In x l -> p x = true -> Q (f x)) ->
  Forall Q (updateFirst p f l).
Proof.
  induction l as [|a l IH]; intros H Hf; simpl; [constructor|].
  inversion H as [|? ? Ha Hl]; subst.
  destruct (p a) eqn:E.
  - constructor; [apply Hf; [left; reflexivity|exact E]|exact Hl].
  - constructor; [exact Ha|].
    apply IH; [exact Hl|]. intros x Hx. apply Hf. right. exact Hx.
Qed.

Lemma blockCleared_checkFirst id rid st :
  (forall el, In el (allFields st) -> el_id el = rid ->
              isDescendantOf id el = false) ->
  blockCleared id st ->
  blockCleared id
    (checkFirst (fun el => hasId rid el && bool_decide (el_type el = "radio")) st).
Proof.
  intros Hout H. unfold checkFirst.
  destruct (List.find _ (allFields st)) as [r|] eqn:Hfind; [|exact H].
  unfold blockCleared, allFields in *. cbn [sections set_sections].
  rewrite fieldsOf_updateFirst.
  assert (Hl : exists g : Element -> Element,
             fieldsOf (if bool_decide (el_type r = "radio")
                       then map (mapSection (uncheckGroup (el_name r)))
                              (sections st)
                       else sections st) = map g (fieldsOf (sections st))
             /\ forall el, el_id (g el) = el_id el
                           /\ el_ancestors (g el) = el_ancestors el
                           /\ (cleared el -> cleared (g el))).
  { destruct (bool_decide (el_type r = "radio")).
    - exists (uncheckGroup (el_name r)). split; [apply fieldsOf_map|].
      intros el. split; [|split].
      + unfold uncheckGroup. destruct (_ && _); reflexivity.
      + unfold uncheckGroup. destruct (_ && _); reflexivity.
      + apply cleared_uncheckGroup.
    - exists (fun el => el). split; [rewrite map_id; reflexivity|].
      intros el. auto. }
  destruct Hl as (g & -> & Hg).
  apply Forall_updateFirst.
  - apply List.Forall_forall. intros el' Hel.
    apply in_map_iff in Hel as (el & <- & Hel).
    rewrite List.Forall_forall in H. specialize (H el Hel).
    destruct (Hg el) as (_ & Ha & Hc).
    unfold isDescendantOf in *. rewrite Ha. intros Hd. apply Hc, H, Hd.
  - intros x Hx Hp. apply in_map_iff in Hx as (el & <- & Hel).
    destruct (Hg el) as (Hi & Ha & _).
    apply andb_true_iff in Hp as [Hid _].
    apply bool_decide_eq_true_1 in Hid. rewrite Hi in Hid.
    pose proof (Hout el Hel Hid) as Hno.
    unfold isDescendantOf in *. cbn [el_ancestors with_checked].
    rewrite Ha, Hno. discriminate.
Qed.

(** X11.  In static/app.js answering orphan "True" wipes the two parent
    blocks: after [handleConditionalFields] every radio button inside
    [parentInfoGroup] and [parentalStatusGroup] is unchecked and every
    select, textarea, text and number input inside is empty; and nothing
    brings the entries back: they are still wiped after any later
    recomputation, and after the two listeners have run on a change of a
    radio button outside the block (orphan set back to "False", say). *)
Theorem static_orphan_wipes_the_parent_blocks id st :
  id = Static.PARENT_INFO_GROUP \/ id = Static.PARENTAL_STATUS_GROUP ->
  id ∈ containers st ->
  answeredTrue "orphan" st = true ->
  let st' := Static.handleConditionalFields st in
  blockCleared id st'
  /\ blockCleared id (Static.handleConditionalFields st')
  /\ (forall rid,
        (forall el, In el (allFields st') -> el_id el = rid ->
                    isDescendantOf id el = false) ->
        blockCleared id (Static.radioChange rid st')).
Proof.
  intros Hid Hin Horphan. cbv zeta.
  assert (H : blockCleared id (Static.handleConditionalFields st)).
  { unfold Static.handleConditionalFields. cbv zeta.
    unfold answeredTrue in Horphan. rewrite Horphan. cbn [negb].
    destruct Hid as [-> | ->].
    - do 6 apply blockCleared_showHideConditional.
      apply blockCleared_hide, Hin.
    - do 5 apply blockCleared_showHideConditional.
      apply blockCleared_hide.
      rewrite static_showHideConditional_containers. exact Hin. }
  split; [exact H|]. split.
  - apply blockCleared_handleConditionalFields, H.
  - intros rid Hout. unfold Static.radioChange.
    do 2 apply blockCleared_handleConditionalFields.
    apply blockCleared_checkFirst; assumption.
Qed.


(** ** static/app.js: the validateStep in force *)

Section StaticValidation.

Variable parseFloat : string -> float.
Variable offsetParentSet : Z -> gset string -> string -> bool.
Variable inFormGroup : Element -> bool.

Lemma validateFields_all_valid st els rs :
  Static.validateFields parseFloat inFormGroup st els = Some rs ->
  forallb (fun r => bool_decide (r = None)) rs = true ->
  forall el, In el els ->
    Static.validateField parseFloat inFormGroup st el = Some None.
Proof.
  revert rs. induction els as [|a els IH]; intros rs; simpl; [intros _ _ el []|].
  destruct (Static.validateField parseFloat inFormGroup st a) as [r|] eqn:Ha;
    [|discriminate].
  destruct (Static.validateFields parseFloat inFormGroup st els) as [rs'|];
    [|discriminate].
  intros [= <-]. simpl. intros [Hr Hrs]%andb_true_iff el [<-|Hin].
  - apply bool_decide_eq_true_1 in Hr. congruence.
  - apply (IH rs' eq_refl Hrs el Hin).
Qed.

Lemma validateFields_throws st els el :
  In el els -> inFormGroup el = false ->
  Static.validateFields parseFloat inFormGroup st els = None.
Proof.
  induction els as [|a els IH]; simpl; [intros []|].
  intros [->|Hin] Hno.
  - unfold Static.validateField. rewrite Hno. reflexivity.
  - rewrite (IH Hin Hno).
    destruct (Static.validateField parseFloat inFormGroup st a); reflexivity.
Qed.

Lemma validateFields_length st els rs :
  Static.validateFields parseFloat inFormGroup st els = Some rs ->
  length rs = length els.
Proof.
  revert rs. induction els as [|a els IH]; intros rs; simpl.
  - intros [= <-]. reflexivity.
  - destruct (Static.validateField parseFloat inFormGroup st a); [|discriminate].
    destruct (Static.validateFields parseFloat inFormGroup st els) as [rs'|];
      [|discriminate].
    intros [= <-]. simpl. f_equal. apply IH. reflexivity.
Qed.

Lemma validateField_valid_fieldError st el :
  Static.validateField parseFloat inFormGroup st el = Some None ->
  el_required el = true -> inHiddenConditional (shown st) el = false ->
  Staticfiles.fieldError el = None.
Proof.
  unfold Static.validateField, Staticfiles.fieldError. intros H Hreq Hvis.
  rewrite Hreq, Hvis in H. cbn [andb] in H.
  destruct (negb (inFormGroup el)); [discriminate|].
  destruct (bool_decide (el_type el = "file")); cbn [andb] in H.
  - destruct (bool_decide (el_files el = 0%nat)); [discriminate|reflexivity].
  - destruct (isBlank (el_value el)) eqn:Hb; [discriminate|].
    destruct (bool_decide (el_tag el = SELECT)); [|reflexivity].
    destruct (bool_decide (el_value el = "")) eqn:Hv; [|reflexivity].
    apply bool_decide_eq_true_1 in Hv. rewrite Hv in Hb. discriminate.
Qed.

(** X12.  The [validateStep] in force in static/app.js (the second
    declaration) checks controls only.  When it returns true, every
    required control of the section outside a hidden block passes the
    three tests of the first declaration, so the first declaration could
    only have stopped on a radio group without a checked option: the
    check of the radio groups is what the second declaration drops.  It
    reports on every control of the section, and it throws, whatever the
    entries, as soon as one control of the section has no enclosing
    form-group. *)
Theorem static_validateStep_drops_the_radio_groups step st :
  (forall r,
     Static.validateStep parseFloat inFormGroup step st = Some r ->
     Static.rep_valid r = true ->
     Staticfiles.blockingField step st = None
     /\ ((Staticfiles.validateStep offsetParentSet step st).1 = false ->
         exists groupLabel,
           banner (Staticfiles.validateStep offsetParentSet step st).2
           = BannerError (MsgRadio groupLabel)))
  /\ (forall r sec,
        Static.validateStep parseFloat inFormGroup step st = Some r ->
        sectionAt step st = Some sec ->
        length (Static.rep_messages r) = length (sec_fields sec)
        /\ Static.rep_banner r = negb (Static.rep_valid r))
  /\ (forall sec el,
        sectionAt step st = Some sec -> In el (sec_fields sec) ->
        inFormGroup el = false ->
        Static.validateStep parseFloat inFormGroup step st = None).
Proof.
  unfold Static.validateStep, Staticfiles.blockingField, Staticfiles.validateStep.
  destruct (sectionAt step st) as [sec|].
  - split; [|split].
    + intros r Hr Hvalid.
      destruct (Static.validateFields parseFloat inFormGroup st (sec_fields sec))
        as [rs|] eqn:Hrs; [|discriminate].
      injection Hr as <-. cbn [Static.rep_valid] in Hvalid.
      pose proof (validateFields_all_valid st _ rs Hrs Hvalid) as Hall.
      assert (Hnone : Staticfiles.firstInvalid (shown st)
                        (Staticfiles.requiredEls sec) = None).
      { unfold Staticfiles.requiredEls. apply firstInvalid_None.
        intros el Hin Hreq Hvis.
        apply (validateField_valid_fieldError st el); auto. }
      rewrite Hnone. split; [reflexivity|].
      destruct (Staticfiles.firstUnanswered _ _ _ _ _ _) as [[[grp lbl]|] he];
        cbn [fst snd]; [|discriminate].
      intros _. exists lbl. reflexivity.
    + intros r sec' Hr [= <-].
      destruct (Static.validateFields parseFloat inFormGroup st (sec_fields sec))
        as [rs|] eqn:Hrs; [|discriminate].
      injection Hr as <-. cbn. split; [|reflexivity].
      apply (validateFields_length st _ _ Hrs).
    + intros sec' el [= <-] Hin Hno.
      rewrite (validateFields_throws st _ el Hin Hno). reflexivity.
  - split; [|split].
    + intros r [= <-]. discriminate.
    + intros r sec. discriminate.
    + intros sec el. discriminate.
Qed.

End StaticValidation.

(** ** The help chatbot *)

Section ChatbotProperties.

Import JsString.

Lemma prefix_app p s :
  String.prefix p s = true <-> exists t, s = (p ++ t)%string.
Proof.
  revert s. induction p as [|c p IH]; intros s.
  - split; [intros _; exists s; reflexivity|].
    intros _. destruct s; reflexivity.
  - destruct s as [|d s]; simpl; [split; [discriminate|intros [t [=]]]|].
    destruct (Ascii.ascii_dec c d) as [->|Hne].
    + rewrite IH. split; intros [t Ht]; exists t.
      * rewrite Ht. reflexivity.
      * simpl in Ht. injection Ht as Ht. exact Ht.
    + split; [discriminate|]. intros [t Ht]. simpl in Ht.
      injection Ht as Hc _. congruence.
Qed.

Lemma includes_iff s k :
  includes s k = true <-> exists a b, s = (a ++ k ++ b)%string.
Proof.
  induction s as [|c s IH]; cbn [includes].
  - rewrite orb_false_r, prefix_app. split.
    + intros [t Ht]. exists EmptyString, t. exact Ht.
    + intros (a & b & H). destruct a; [exists b; exact H|discriminate].
  - rewrite orb_true_iff, prefix_app, IH. split.
    + intros [[t Ht]|(a & b & Ht)].
      * exists EmptyString, t. exact Ht.
      * exists (String c a), b. rewrite Ht. reflexivity.
    + intros (a & b & Ht). destruct a as [|d a].
      * left. exists b. exact Ht.
      * right. exists a, b. change (String c s = String d (a ++ k ++ b))%string in Ht.
        injection Ht as _ Ht. exact Ht.
Qed.

Lemma string_app_assoc (a b c : string) :
  ((a ++ b) ++ c = a ++ b ++ c)%string.
Proof.
  induction a as [|x a IH]; [reflexivity|].
  change (String x ((a ++ b) ++ c) = String x (a ++ b ++ c))%string.
  rewrite IH. reflexivity.
Qed.

Lemma includes_trans s k k' :
  includes s k = true -> includes k k' = true -> includes s k' = true.
Proof.
  rewrite !includes_iff. intros (a & b & ->) (a' & b' & ->).
  exists (a ++ a')%string, (b' ++ b)%string.
  rewrite !string_app_assoc. reflexivity.
Qed.

(** The blank test of the form scripts, [!v || v.trim() === ''], in
    terms of [trim]. *)
Lemma isBlank_trimStart v : isBlank (trimStart v) = isBlank v.
Proof.
  induction v as [|c v IH]; [reflexivity|].
  cbn [trimStart isBlank]. destruct (isWhiteSpace c) eqn:Hc; [exact IH|].
  cbn [isBlank]. rewrite Hc. reflexivity.
Qed.

Lemma trimEnd_empty s : trimEnd s = "" <-> isBlank s = true.
Proof.
  induction s as [|c s IH]; cbn [trimEnd isBlank]; [tauto|].
  destruct (trimEnd s) as [|d kept].
  - destruct (isWhiteSpace c); cbn [andb].
    + rewrite <- IH. tauto.
    + split; discriminate.
  - split; [discriminate|]. intros [_ H]%andb_true_iff.
    apply IH in H. discriminate.
Qed.

Lemma trim_empty_iff_blank v : trim v = "" <-> isBlank v = true.
Proof. unfold trim. rewrite trimEnd_empty, isBlank_trimStart. reflexivity. Qed.

Lemma matches_trans lower keyword entry :
  includes lower keyword = true -> Chatbot.matches keyword entry = true ->
  Chatbot.matches lower entry = true.
Proof.
  unfold Chatbot.matches. rewrite !existsb_exists.
  intros H (k & Hin & Hk). exists k. split; [exact Hin|].
  apply (includes_trans _ keyword); assumption.
Qed.

Lemma shadowedKeywords_answered earlier rest message topic keyword :
  NoDup (map fst (earlier ++ rest)) ->
  In (topic, keyword) (shadowedKeywords earlier rest) ->
  includes (toLowerCase message) keyword = true ->
  exists entry,
    In entry (earlier ++ rest)
    /\ Chatbot.processMessage (earlier ++ rest) message = Chatbot.Answer entry.1
    /\ entry.1 <> topic.
Proof.
  revert earlier. induction rest as [|e rest IH]; intros earlier Hnd; simpl;
    [intros []|].
  rewrite in_app_iff. intros [Hin|Hin] Hinc.
  - apply in_map_iff in Hin as (k & [= <- ->] & Hk).
    apply filter_In in Hk as [Hk Hsh].
    unfold shadowedBy in Hsh. apply existsb_exists in Hsh as (e0 & He0 & Hm).
    pose proof (matches_trans _ _ _ Hinc Hm) as Hm0.
    unfold Chatbot.processMessage. cbv zeta.
    destruct (List.find (Chatbot.matches (toLowerCase message)) earlier)
      as [e1|] eqn:Hfind.
    + rewrite find_app_first, Hfind.
      destruct (find_some _ _ Hfind) as [He1 _].
      exists e1. split; [apply in_app_iff; left; exact He1|].
      split; [reflexivity|].
      intros Heq. rewrite map_app in Hnd. apply NoDup_app in Hnd as (_ & Hd & _).
      apply (Hd e1.1); [apply list_elem_of_In, in_map, He1|].
      rewrite Heq. apply list_elem_of_In. left. reflexivity.
    + exfalso. pose proof (find_none _ _ Hfind e0 He0) as Hcontra.
      cbv beta in Hcontra. congruence.
  - replace (earlier ++ e :: rest) with ((earlier ++ [e]) ++ rest)
      by (rewrite <- app_assoc; reflexivity).
    apply IH; [|exact Hin|exact Hinc].
    rewrite <- app_assoc. exact Hnd.
Qed.

(** X13.  The chatbot answers with the first entry of its table that
    has a keyword contained in the lowercased message, so a keyword that
    contains a keyword of an earlier entry never brings up its own entry.
    The table has six such keywords: whatever else a message says, one
    that contains "can i apply", "help", "application number", "file
    format", "type of file" or "file size" is answered by an entry other
    than the one listing that keyword (eligibility, errors, status,
    format, format and size respectively). *)
Theorem chatbot_shadowed_keywords :
  shadowedKeywords [] Chatbot.knowledgeBase
  = [ ("eligibility", "can i apply"); ("errors", "help");
      ("status", "application number"); ("format", "file format");
      ("format", "type of file"); ("size", "file size") ]
  /\ forall message topic keyword,
       In (topic, keyword) (shadowedKeywords [] Chatbot.knowledgeBase) ->
       includes (toLowerCase message) keyword = true ->
       exists entry,
         In entry Chatbot.knowledgeBase
         /\ Chatbot.processMessage Chatbot.knowledgeBase message
            = Chatbot.Answer entry.1
         /\ entry.1 <> topic.
Proof.
  split; [vm_compute; reflexivity|].
  intros message topic keyword Hin Hinc.
  apply (shadowedKeywords_answered [] Chatbot.knowledgeBase message topic
           keyword); [|exact Hin|exact Hinc].
  cbn [app].
  apply (bool_decide_unpack (NoDup (map fst Chatbot.knowledgeBase))).
  vm_compute. exact I.
Qed.

(** X14.  Of the quick replies the bot itself offers (under its
    greeting, its default response and its answers), six are met with
    the default response when clicked: "Eligibility", "Income limits",
    "Orphan benefits", "Calculation", "Priority factors" and "Extension
    possible?"; the three offered under the documents answer lead back to
    the documents answer; and a quick reply clicked while the bot is
    typing is not sent at all. *)
Theorem chatbot_quick_replies_without_answer :
  (forall reply,
     In reply offeredReplies ->
     (Chatbot.handleQuickReply Chatbot.knowledgeBase false reply
      = Some Chatbot.NotSure
      <-> In reply ["Eligibility"; "Income limits"; "Orphan benefits";
                    "Calculation"; "Priority factors"; "Extension possible?"]))
  /\ (forall reply,
        In reply ["File format"; "File size"; "Upload issues"] ->
        Chatbot.handleQuickReply Chatbot.knowledgeBase false reply
        = Some (Chatbot.Answer "documents"))
  /\ (forall kb reply, Chatbot.handleQuickReply kb true reply = None).
Proof.
  split; [|split].
  - intros reply Hin. unfold offeredReplies in Hin. cbn in Hin.
    repeat (destruct Hin as [<-|Hin];
            [vm_compute; split;
             first [ intros _; tauto | discriminate
                   | intros H; repeat (destruct H as [H|H]; try discriminate H) ]
            |]);
      try contradiction.
  - intros reply Hin. cbn in Hin.
    repeat (destruct Hin as [<-|Hin]; [vm_compute; reflexivity|]);
      try contradiction.
  - intros kb reply. unfold Chatbot.handleQuickReply, Chatbot.sendMessage.
    cbv zeta. rewrite orb_true_r. reflexivity.
Qed.

End ChatbotProperties.

(** ** getCookie *)

Section CookieProperties.

Import JsString.

Variable decodeURIComponent : string -> option string.

Lemma allUnits_app p a b :
  allUnits p (a +:+ b) = allUnits p a && allUnits p b.
Proof.
  induction a as [|c a IH]; [reflexivity|].
  change (allUnits p (String c (a +:+ b)) = allUnits p (String c a) && allUnits p b).
  cbn [allUnits]. rewrite IH, andb_assoc. reflexivity.
Qed.

Lemma allUnits_impl (p q : Ascii.ascii -> bool) s :
  (forall c, p c = true -> q c = true) ->
  allUnits p s = true -> allUnits q s = true.
Proof.
  intros Hpq. induction s as [|c s IH]; cbn [allUnits]; [reflexivity|].
  intros [Hc Hs]%andb_true_iff. rewrite (Hpq c Hc), (IH Hs). reflexivity.
Qed.

Lemma split_no_separator sep s :
  allUnits (fun c => negb (Ascii.eqb c sep)) s = true -> split sep s = [s].
Proof.
  induction s as [|c s IH]; cbn [allUnits split]; [reflexivity|].
  intros [Hc Hs]%andb_true_iff. apply negb_true_iff in Hc. rewrite Hc, (IH Hs).
  reflexivity.
Qed.

Lemma split_at_separator sep s t :
  allUnits (fun c => negb (Ascii.eqb c sep)) s = true ->
  split sep (s +:+ String sep t) = s :: split sep t.
Proof.
  induction s as [|c s IH]; intros H.
  - change (split sep (String sep t) = "" :: split sep t).
    cbn [split]. rewrite Ascii.eqb_refl. reflexivity.
  - change (split sep (String c (s +:+ String sep t))
            = String c s :: split sep t).
    cbn [allUnits] in H. apply andb_true_iff in H as [Hc Hs].
    apply negb_true_iff in Hc. cbn [split]. rewrite Hc, (IH Hs). reflexivity.
Qed.

Lemma trimStart_solid s :
  allUnits (fun c => negb (isWhiteSpace c)) s = true -> trimStart s = s.
Proof.
  destruct s as [|c s]; cbn [allUnits trimStart]; [reflexivity|].
  intros [Hc _]%andb_true_iff. apply negb_true_iff in Hc. rewrite Hc.
  reflexivity.
Qed.

Lemma trimEnd_solid s :
  allUnits (fun c => negb (isWhiteSpace c)) s = true -> trimEnd s = s.
Proof.
  induction s as [|c s IH]; cbn [allUnits trimEnd]; [reflexivity|].
  intros [Hc Hs]%andb_true_iff. apply negb_true_iff in Hc.
  rewrite (IH Hs), Hc. destruct s; reflexivity.
Qed.

Lemma trim_solid s :
  allUnits (fun c => negb (isWhiteSpace c)) s = true ->
  trim s = s /\ trim (String (Ascii.ascii_of_nat 32) s) = s.
Proof.
  intros H. unfold trim.
  change (trimStart (String (Ascii.ascii_of_nat 32) s)) with (trimStart s).
  rewrite (trimStart_solid s H), (trimEnd_solid s H). split; reflexivity.
Qed.

Lemma substring_0_0 s : String.substring 0 0 s = "".
Proof. destruct s; reflexivity. Qed.

Lemma eqb_cons c1 s1 c2 s2 :
  String.eqb (String c1 s1) (String c2 s2)
  = if Ascii.eqb c1 c2 then String.eqb s1 s2 else false.
Proof. reflexivity. Qed.

Lemma name_unit_not_equals c :
  isNameUnit c = true -> Ascii.eqb c (Ascii.ascii_of_nat 61) = false.
Proof.
  unfold isNameUnit. intros [_ H]%andb_true_iff. apply negb_true_iff, H.
Qed.

Lemma substringTo_name name n v :
  allUnits isNameUnit name = true -> allUnits isNameUnit n = true ->
  String.eqb (substringTo (String.length name + 1) (n +:+ "=" +:+ v))
    (name +:+ "=")
  = String.eqb n name.
Proof.
  unfold substringTo. rewrite Nat.add_1_r. revert n.
  induction name as [|a name IH]; intros n Hname Hn.
  - destruct n as [|c n].
    + change (String.eqb
                (String (Ascii.ascii_of_nat 61) (String.substring 0 0 v))
                (String (Ascii.ascii_of_nat 61) "") = true).
      rewrite substring_0_0. reflexivity.
    + cbn [allUnits] in Hn. apply andb_true_iff in Hn as [Hc _].
      apply name_unit_not_equals in Hc.
      change (String.eqb
                (String c (String.substring 0 0 (n +:+ "=" +:+ v)))
                (String (Ascii.ascii_of_nat 61) "") = false).
      rewrite eqb_cons, Hc. reflexivity.
  - cbn [allUnits] in Hname. apply andb_true_iff in Hname as [Ha Hname].
    apply name_unit_not_equals in Ha.
    destruct n as [|c n].
    + change (String.eqb
                (String (Ascii.ascii_of_nat 61)
                   (String.substring 0 (S (String.length name)) v))
                (String a (name +:+ "=")) = false).
      rewrite eqb_cons, Ascii.eqb_sym, Ha. reflexivity.
    + cbn [allUnits] in Hn. apply andb_true_iff in Hn as [_ Hn].
      change (String.eqb
                (String c (String.substring 0 (S (String.length name))
                             (n +:+ "=" +:+ v)))
                (String a (name +:+ "="))
              = String.eqb (String c n) (String a name)).
      rewrite !eqb_cons, (IH n Hname Hn). reflexivity.
Qed.

Lemma substringFrom_value n v :
  substringFrom (String.length n + 1) (n +:+ "=" +:+ v) = v.
Proof.
  unfold substringFrom. rewrite Nat.add_1_r. induction n as [|c n IH].
  - change (String.substring 0 (String.length v - 0) v = v).
    rewrite Nat.sub_0_r.
    induction v as [|d v IHv]; [reflexivity|].
    cbn [String.length String.substring]. rewrite IHv. reflexivity.
  - change (String.substring (S (String.length n))
              (String.length (n +:+ "=" +:+ v) - S (String.length n))
              (n +:+ "=" +:+ v) = v).
    exact IH.
Qed.

Lemma pair_solid n v :
  allUnits isNameUnit n = true -> allUnits isCookieUnit v = true ->
  allUnits (fun c => negb (isWhiteSpace c)) (n +:+ "=" +:+ v) = true
  /\ allUnits (fun c => negb (Ascii.eqb c Cookie.SEMICOLON)) (n +:+ "=" +:+ v)
     = true.
Proof.
  intros Hn Hv.
  assert (Hn' : allUnits isCookieUnit n = true).
  { apply (allUnits_impl isNameUnit); [|exact Hn].
    unfold isNameUnit. intros c [H _]%andb_true_iff. exact H. }
  split; rewrite !allUnits_app.
  - rewrite (allUnits_impl isCookieUnit _ n), (allUnits_impl isCookieUnit _ v);
      [reflexivity|..]; try assumption;
      unfold isCookieUnit; intros c [H _]%andb_true_iff; exact H.
  - rewrite (allUnits_impl isCookieUnit _ n), (allUnits_impl isCookieUnit _ v);
      [reflexivity|..]; try assumption;
      unfold isCookieUnit; intros c [_ H]%andb_true_iff; exact H.
Qed.

Lemma scan_piece name n v piece rest :
  allUnits isNameUnit name = true ->
  allUnits isNameUnit n = true -> allUnits isCookieUnit v = true ->
  piece = n +:+ "=" +:+ v
  \/ piece = String (Ascii.ascii_of_nat 32) (n +:+ "=" +:+ v) ->
  Cookie.scan decodeURIComponent name (piece :: rest)
  = if String.eqb n name then decoded decodeURIComponent (Some v)
    else Cookie.scan decodeURIComponent name rest.
Proof.
  intros Hname Hn Hv Hpiece. cbn [Cookie.scan]. cbv zeta.
  destruct (pair_solid n v Hn Hv) as [Hsolid _].
  destruct (trim_solid _ Hsolid) as [Ht1 Ht2].
  assert (Ht : trim piece = n +:+ "=" +:+ v)
    by (destruct Hpiece as [-> | ->]; assumption).
  rewrite Ht, (substringTo_name name n v Hname Hn).
  destruct (String.eqb n name) eqn:E; [|reflexivity].
  apply String.eqb_eq in E. subst n.
  rewrite substringFrom_value. reflexivity.
Qed.

Lemma scan_later_pieces name jar :
  allUnits isNameUnit name = true -> wellFormedJar jar ->
  Cookie.scan decodeURIComponent name
    (map (fun q => String (Ascii.ascii_of_nat 32) (q.1 +:+ "=" +:+ q.2)) jar)
  = decoded decodeURIComponent (jarLookup name jar).
Proof.
  intros Hname Hjar. induction Hjar as [|[n v] jar [Hn Hv] _ IH];
    [reflexivity|].
  cbn [map fst snd].
  rewrite (scan_piece name n v _ _ Hname Hn Hv (or_intror eq_refl)), IH.
  unfold jarLookup. cbn [List.find fst].
  destruct (String.eqb n name); reflexivity.
Qed.

Lemma string_app_assoc' (a b c : string) : (a +:+ b) +:+ c = a +:+ b +:+ c.
Proof.
  induction a as [|x a IH]; [reflexivity|].
  change (String x ((a +:+ b) +:+ c) = String x (a +:+ b +:+ c)).
  rewrite IH. reflexivity.
Qed.

Lemma split_cookieString p jar :
  wellFormedJar (p :: jar) ->
  split Cookie.SEMICOLON (cookieString (p :: jar))
  = (p.1 +:+ "=" +:+ p.2)
    :: map (fun q => String (Ascii.ascii_of_nat 32) (q.1 +:+ "=" +:+ q.2)) jar.
Proof.
  revert p. induction jar as [|q jar IH]; intros [n v] Hjar;
    inversion Hjar as [|? ? [Hn Hv] Hrest]; subst; cbn [fst snd] in *.
  - cbn [cookieString map]. apply split_no_separator.
    apply (pair_solid n v Hn Hv).
  - change (cookieString ((n, v) :: q :: jar))
      with (n +:+ "=" +:+ v +:+ "; " +:+ cookieString (q :: jar)).
    replace (n +:+ "=" +:+ v +:+ "; " +:+ cookieString (q :: jar))
      with ((n +:+ "=" +:+ v)
            +:+ String Cookie.SEMICOLON
                  (String (Ascii.ascii_of_nat 32) (cookieString (q :: jar)))).
    2:{ rewrite !string_app_assoc'. reflexivity. }
    rewrite split_at_separator by apply (pair_solid n v Hn Hv).
    cbn [split]. change (Ascii.eqb (Ascii.ascii_of_nat 32) Cookie.SEMICOLON)
      with false. cbv iota.
    rewrite (IH q Hrest). reflexivity.
Qed.

(** X15.  [getCookie] reads back what the cookie string holds: for
    cookies listed as [name=value] pairs joined by a semicolon and a
    space (names and values free of white space and semicolons, names
    free of the equals sign), it returns the decoded value of the first
    cookie whose name is exactly the one asked for, null when there is
    none (also for the empty cookie string), and it throws only when the
    value of that first cookie cannot be decoded: a cookie whose name
    merely begins with the name asked for is not taken, and no other
    value is ever decoded. *)
Theorem getCookie_reads_the_jar name jar :
  wellFormedJar jar -> allUnits isNameUnit name = true ->
  Cookie.getCookie decodeURIComponent name (cookieString jar)
  = decoded decodeURIComponent (jarLookup name jar).
Proof.
  intros Hjar Hname. unfold Cookie.getCookie.
  destruct jar as [|[n v] jar]; [reflexivity|].
  rewrite bool_decide_eq_false_2.
  2:{ destruct jar as [|q jar]; destruct n; discriminate. }
  rewrite (split_cookieString (n, v) jar Hjar). cbn [fst snd].
  inversion Hjar as [|? ? [Hn Hv] Hrest]; subst. cbn [fst snd] in *.
  rewrite (scan_piece name n v _ _ Hname Hn Hv (or_introl eq_refl)).
  rewrite (scan_later_pieces name jar Hname Hrest).
  unfold jarLookup. cbn [List.find fst].
  destruct (String.eqb n name); reflexivity.
Qed.

End CookieProperties.

(** ** The two listeners of toStep3 in the older copy of staticfiles/app.js *)

Section LegacyProperties.

Variable parseFloat : string -> float.
Variable offsetParentSet : Z -> gset string -> string -> bool.

Lemma firstUnanswered_verdict step sh sec groups he he' :
  (Staticfiles.firstUnanswered offsetParentSet step sh sec groups he).1 = None
  <-> (Staticfiles.firstUnanswered offsetParentSet step sh sec groups he').1
      = None.
Proof.
  revert he he'. induction groups as [|g groups IH]; intros he he'; simpl;
    [tauto|].
  destruct (rg_requiredLabel g); [|apply IH].
  destruct (_ && _); [|apply IH].
  destruct (sectionHasChecked _ _); [apply IH|simpl; split; discriminate].
Qed.

Lemma cached_validateStep_document step st st' :
  sameDocument st st' ->
  (Cached.validateStep offsetParentSet step st').1
  = (Cached.validateStep offsetParentSet step st).1.
Proof.
  intros (Hc & Hs & Hsh & _). unfold Cached.validateStep, sectionAt.
  rewrite Hc, Hs, Hsh.
  destruct (decide (step - 1 < 0)); [reflexivity|].
  destruct (sections st !! Z.to_nat (step - 1)) as [sec|]; [|reflexivity].
  destruct (Cached.firstInvalid _) as [[el m]|]; [reflexivity|].
  pose proof (firstUnanswered_verdict (currentStep st) (shown st) sec
                (sec_radioGroups sec) (hasError st) (hasError st')) as Hhe.
  destruct (Staticfiles.firstUnanswered _ _ _ _ _ (hasError st'))
    as [[[g l]|] he] eqn:E1;
  destruct (Staticfiles.firstUnanswered _ _ _ _ _ (hasError st))
    as [[[g' l']|] he'] eqn:E2; cbn [fst snd] in *; try reflexivity;
    destruct Hhe as [H1 H2];
    first [discriminate (H1 eq_refl) | discriminate (H2 eq_refl)].
Qed.

Lemma legacy_validateStep_frame step st :
  sameDocument st (Legacy.validateStep offsetParentSet step st).2.
Proof.
  unfold Legacy.validateStep.
  destruct (sectionAt step st); [|apply sameDocument_refl].
  pose proof (cached_validateStep_frame parseFloat offsetParentSet step st) as H.
  destruct (Cached.validateStep offsetParentSet step st) as [ok st1].
  exact H.
Qed.

Lemma legacy_focusById_step {A} id (k : unit -> Legacy.Run A) st :
  (forall u s, currentStep (k u s).2 = currentStep s) ->
  currentStep (Legacy.bind (Legacy.focusById id) k st).2 = currentStep st.
Proof.
  intros Hk. unfold Legacy.bind, Legacy.focusById.
  destruct (getElementById id st); cbn [fst snd]; [|reflexivity].
  rewrite Hk. reflexivity.
Qed.

Lemma fold_add_dialog_step l st :
  currentStep (fold_left (fun s p => add_dialog p s) l st) = currentStep st.
Proof. revert st. induction l as [|p l IH]; intros st; simpl; [|rewrite IH]; reflexivity. Qed.

Lemma legacy_validateFinancialFields_step answer st :
  currentStep (Legacy.validateFinancialFields parseFloat answer st).2
  = currentStep st.
Proof.
  unfold Legacy.validateFinancialFields. cbv zeta.
  destruct (JsNum.js_le _ _);
    [rewrite (legacy_focusById_step ID_TUITION) by reflexivity; reflexivity|].
  destruct (JsNum.js_gt _ _);
    [rewrite (legacy_focusById_step ID_AMOUNT) by reflexivity; reflexivity|].
  destruct (JsNum.js_lt _ _); cbn [andb].
  - destruct (negb (answer (AskBelowTenPercent _)));
      [rewrite (legacy_focusById_step ID_AMOUNT) by reflexivity; reflexivity|].
    destruct (JsNum.js_gt _ _); cbn [andb]; [|reflexivity].
    destruct (negb (answer (AskIncomeHigh _)));
      [rewrite (legacy_focusById_step ID_REASON) by reflexivity; reflexivity|reflexivity].
  - destruct (JsNum.js_gt _ _); cbn [andb]; [|reflexivity].
    destruct (negb (answer (AskIncomeHigh _)));
      [rewrite (legacy_focusById_step ID_REASON) by reflexivity; reflexivity|reflexivity].
Qed.

(** X16.  In the older copy kept in staticfiles/app.js the financial
    rule decides nothing: [toStep3] has two click listeners, and the
    first one, [goToStep(3)], has already moved the wizard when the
    second one runs the rule.  On step 2 a click on [toStep3] lands on
    step 3 exactly when [validateStep(2)] passes, whatever the three
    amounts are and whatever is answered to the dialogs. *)
Theorem legacy_toStep3_ignores_the_financial_rule answer st :
  currentStep st = 2 ->
  currentStep (Legacy.click parseFloat offsetParentSet toStep3 answer st)
  = if (Cached.validateStep offsetParentSet 2 st).1 then 3 else 2.
Proof.
  intros Hcur. cbn [Legacy.click]. unfold Legacy.listener.
  set (st1 := (Legacy.goToStep offsetParentSet 3 st).2).
  assert (H1 : sameDocument st st1 /\ (Cached.validateStep offsetParentSet 2 st).1 = false
               \/ currentStep st1 = 3
                  /\ (Cached.validateStep offsetParentSet 2 st).1 = true).
  { subst st1. unfold Legacy.goToStep, Legacy.bind, Legacy.validateStep.
    destruct (decide (3 > currentStep st)); [|lia]. rewrite Hcur.
    destruct (sectionAt 2 st) as [sec|] eqn:Hsec.
    - pose proof (cached_validateStep_frame parseFloat offsetParentSet 2 st)
        as Hd.
      destruct (Cached.validateStep offsetParentSet 2 st) as [ok st'];
        cbn [fst snd] in *.
      destruct ok; cbn [negb fst snd Legacy.ret]; [right|left]; auto.
    - left. split; [apply sameDocument_refl|].
      unfold Cached.validateStep. rewrite Hsec. reflexivity. }
  destruct H1 as [[Hd Hbad]|[H3 Hok]].
  - rewrite Hbad.
    unfold Legacy.checkedToStep3, Legacy.bind.
    pose proof (legacy_validateStep_frame 2 st1) as Hd1.
    pose proof (cached_validateStep_document 2 st st1 Hd) as Hv.
    unfold Legacy.validateStep in *.
    destruct (sectionAt 2 st1).
    + destruct (Cached.validateStep offsetParentSet 2 st1) as [ok st2];
        cbn [fst snd] in *.
      rewrite Hbad in Hv. subst ok. cbn [negb Legacy.ret snd].
      destruct Hd1 as (Hc1 & _), Hd as (Hc & _). congruence.
    + cbn [snd]. destruct Hd as (Hc & _). congruence.
  - rewrite Hok.
    unfold Legacy.checkedToStep3, Legacy.bind.
    pose proof (legacy_validateStep_frame 2 st1) as (Hc1 & _).
    destruct (Legacy.validateStep offsetParentSet 2 st1) as [[ok|] st2];
      cbn [fst snd] in *; [|congruence].
    destruct ok; cbn [negb Legacy.ret snd]; [|congruence].
    pose proof (legacy_validateFinancialFields_step answer st2) as Hc2.
    destruct (Legacy.validateFinancialFields parseFloat answer st2)
      as [[ok2|] st3]; cbn [fst snd] in *; [|congruence].
    destruct ok2; cbn [negb Legacy.ret snd]; [|congruence].
    unfold Legacy.goToStep.
    destruct (decide (3 > currentStep st3)); [lia|reflexivity].
Qed.

End LegacyProperties.

(** ** The provider note in the root script *)

Lemma root_setDisplay_shown g id block st :
  g ∈ shown (Root.setDisplay id block st)
  <-> if decide (g = id) then block = true else g ∈ shown st.
Proof.
  unfold Root.setDisplay.
  destruct (decide (g = id)) as [->|Hne]; destruct block; cbn;
    rewrite ?elem_of_union, ?elem_of_difference, ?elem_of_singleton;
    intuition congruence.
Qed.

Lemma shown_checkFirst p st : shown (checkFirst p st) = shown st.
Proof. unfold checkFirst. destruct (List.find p (allFields st)); reflexivity. Qed.

(** X18.  In the root app.js the visibility of [providerNote] follows
    the last radio button changed, not the answers: picking a button of
    orphan that was not checked shows it exactly when the button's value
    is 'Yes', whatever bothParentsAlive says, and picking the 'No' of
    bothParentsAlive shows it, whatever orphan says.  So, after start-up,
    the same two answers (orphan 'No', bothParentsAlive 'No') leave the
    note shown when bothParentsAlive alone was answered, and hidden when
    orphan was set to 'Yes', bothParentsAlive answered, and orphan set
    back to 'No'. *)
Theorem root_providerNote_follows_the_last_change :
  (forall id st radio,
     List.find (fun el => hasId id el && bool_decide (el_type el = "radio"))
       (allFields st) = Some radio ->
     el_checked radio = false ->
     (el_name radio = "orphan" ->
      (PROVIDER_NOTE ∈ shown (Root.change id st) <-> el_value radio = "Yes"))
     /\ (el_name radio = "bothParentsAlive" -> el_value radio = "No" ->
         PROVIDER_NOTE ∈ shown (Root.change id st)))
  /\ (let st := Root.init rootPage in
      let parentsOnly := Root.change "bothParentsAlive_no" st in
      let orphanLast :=
        Root.change "orphan_no"
          (Root.change "bothParentsAlive_no" (Root.change "orphan_yes" st)) in
      parentAnswers parentsOnly = (Some "No", Some "No")
      /\ parentAnswers orphanLast = (Some "No", Some "No")
      /\ bool_decide (PROVIDER_NOTE ∈ shown parentsOnly) = true
      /\ bool_decide (PROVIDER_NOTE ∈ shown orphanLast) = false).
Proof.
  split.
  - intros id st radio Hfind Hunchecked. unfold Root.change.
    rewrite Hfind, Hunchecked. split.
    + intros ->. unfold Root.radioChanged.
      rewrite bool_decide_eq_true_2 by reflexivity.
      rewrite root_setDisplay_shown.
      destruct (decide (PROVIDER_NOTE = PROVIDER_NOTE)) as [_|Hne];
        [|congruence].
      apply bool_decide_eq_true.
    + intros -> ->. unfold Root.radioChanged.
      rewrite (bool_decide_eq_false_2 ("bothParentsAlive" = "orphan"))
        by discriminate.
      rewrite (bool_decide_eq_false_2 ("bothParentsAlive" = "disability"))
        by discriminate.
      rewrite (bool_decide_eq_false_2 ("bothParentsAlive" = "previousBursary"))
        by discriminate.
      rewrite !bool_decide_eq_true_2 by reflexivity.
      apply root_setDisplay_shown.
      destruct (decide (PROVIDER_NOTE = PROVIDER_NOTE)); congruence.
  - vm_compute. repeat split.
Qed.

(** ** The copies side by side: the financial rule *)

Section OlderCopies.

Variable parseFloat : string -> float.
Variable offsetParentSet : Z -> gset string -> string -> bool.

Lemma cached_financialRule_nonpositive answer income tuition amount :
  JsNum.js_gt tuition 0 = true -> JsNum.js_le amount 0 = true ->
  (forall p, answer p = true) ->
  fin_ok (Cached.financialRule answer income tuition amount) = true.
Proof.
  intros Hpos Hle Hall. unfold Cached.financialRule.
  rewrite (JsFacts.gt_not_le _ _ Hpos).
  assert (JsNum.js_gt amount tuition = false) as ->.
  { destruct (JsNum.js_gt amount tuition) eqn:Hgt; [|reflexivity].
    pose proof (JsFacts.gt_not_le _ _ (JsFacts.gt_pos_pos _ _ Hpos Hgt)).
    congruence. }
  cbv zeta. rewrite !Hall. cbn [negb]. rewrite !andb_false_r. reflexivity.
Qed.

(** C5.  The two older copies of [validateFinancialFields] (part_000
    and the older script kept in staticfiles/app.js) have no test on the
    sign of the amount: with a positive tuition fee, an amount requested
    that is zero or negative and every dialog accepted they return true
    and show no error, and in part_000 the button [toStep3] then leaves
    the financial step.  On the same page the later copy
    (staticfiles/app.js, static/app.js) does not return true, shows
    'Amount requested must be greater than zero.' and keeps a forward
    move on step 2. *)
Theorem C5_older_copies_pass_a_nonpositive_amount answer st :
  JsNum.js_gt (fieldNumber parseFloat ID_TUITION st) 0 = true ->
  JsNum.js_le (fieldNumber parseFloat ID_AMOUNT st) 0 = true ->
  (forall p, answer p = true) ->
  ((Cached.validateFinancialFields parseFloat answer st).1 = Some true
   /\ banner (Cached.validateFinancialFields parseFloat answer st).2 = banner st
   /\ (currentStep st = 2 ->
       (Cached.validateStep offsetParentSet 2 st).1 = true ->
       currentStep (Cached.click parseFloat offsetParentSet toStep3 answer st)
       = 3))
  /\ (Legacy.validateFinancialFields parseFloat answer st).1 = Some true
  /\ ((Staticfiles.validateFinancialFields parseFloat answer st).1 <> Some true
      /\ banner (Staticfiles.validateFinancialFields parseFloat answer st).2
         = BannerError MsgAmountPositive
      /\ (currentStep st = 2 -> forall n, n > 2 ->
          currentStep (Staticfiles.goToStep parseFloat offsetParentSet answer n
                         st) = 2)).
Proof.
  intros Hpos Hle Hall.
  pose proof (JsFacts.gt_not_le _ _ Hpos) as Hnle.
  assert (Hngt : JsNum.js_gt (fieldNumber parseFloat ID_AMOUNT st)
                   (fieldNumber parseFloat ID_TUITION st) = false).
  { destruct (JsNum.js_gt (fieldNumber parseFloat ID_AMOUNT st)
                (fieldNumber parseFloat ID_TUITION st)) eqn:Hgt; [|reflexivity].
    pose proof (JsFacts.gt_not_le _ _ (JsFacts.gt_pos_pos _ _ Hpos Hgt)).
    congruence. }
  pose proof (cached_financialRule_nonpositive answer
                (fieldNumber parseFloat ID_INCOME st) _ _ Hpos Hle Hall) as Hok.
  destruct (cached_financialRule_passes_quietly _ _ _ _ Hok) as [Herr Hfoc].
  assert (Hbad : fin_ok (Staticfiles.financialRule answer
                           (fieldNumber parseFloat ID_INCOME st)
                           (fieldNumber parseFloat ID_TUITION st)
                           (fieldNumber parseFloat ID_AMOUNT st)) = false
                 /\ fin_error (Staticfiles.financialRule answer
                                 (fieldNumber parseFloat ID_INCOME st)
                                 (fieldNumber parseFloat ID_TUITION st)
                                 (fieldNumber parseFloat ID_AMOUNT st))
                    = Some MsgAmountPositive).
  { unfold Staticfiles.financialRule. rewrite Hnle, Hle. split; reflexivity. }
  destruct Hbad as [Hbad Hmsg].
  split; [split; [|split]|split; [|split; [|split]]].
  - unfold Cached.validateFinancialFields.
    rewrite applyOutcome_value, Hfoc, Hok. reflexivity.
  - unfold Cached.validateFinancialFields.
    rewrite applyOutcome_banner, Herr. reflexivity.
  - intros Hcur Hvalid. cbn [Cached.click]. unfold Cached.clickToStep3.
    pose proof (cached_validateStep_frame parseFloat offsetParentSet 2 st)
      as Hd.
    destruct (Cached.validateStep offsetParentSet 2 st) as [ok st1] eqn:Hv;
      cbn [fst snd] in *.
    subst ok. cbn [negb].
    pose proof Hd as (Hc1 & Hs1 & _).
    unfold Cached.validateFinancialFields.
    rewrite !(fieldNumber_sections parseFloat _ _ _ Hs1).
    set (o := Cached.financialRule _ _ _ _) in *.
    pose proof (applyOutcome_value o st1) as Hval.
    pose proof (applyOutcome_frame o st1) as [Hd2 _].
    rewrite Hfoc, Hok in Hval.
    destruct (applyOutcome o st1) as [r st2]; cbn [fst snd] in *.
    subst r. cbn [negb].
    pose proof (sameDocument_trans _ _ _ Hd Hd2) as Hd3.
    pose proof Hd3 as (Hc3 & _).
    unfold Cached.goToStep.
    destruct (decide (3 > currentStep st2)); [|lia].
    rewrite Hc3, Hcur.
    pose proof (cached_validateStep_document offsetParentSet 2 st st2 Hd3)
      as Hsame.
    rewrite Hv in Hsame. cbn [fst] in Hsame.
    destruct (Cached.validateStep offsetParentSet 2 st2) as [ok st3];
      cbn [fst] in Hsame.
    subst ok. reflexivity.
  - unfold Legacy.validateFinancialFields. cbv zeta.
    rewrite Hnle, Hngt, !Hall. cbn [negb]. rewrite !andb_false_r.
    reflexivity.
  - unfold Staticfiles.validateFinancialFields.
    apply applyOutcome_passes, Hbad.
  - unfold Staticfiles.validateFinancialFields.
    rewrite applyOutcome_banner, Hmsg. reflexivity.
  - intros Hcur n Hn.
    apply goToStep_financial_gate; [exact Hcur|exact Hn|exact Hbad].
Qed.

(** ** The copies side by side: submission *)

Lemma cached_validateStep_control step st :
  sameControl st (Cached.validateStep offsetParentSet step st).2.
Proof.
  unfold Cached.validateStep, sameControl.
  destruct (sectionAt step st) as [sec|]; [|simpl; tauto].
  destruct (Cached.firstInvalid _) as [[el m]|]; [simpl; tauto|].
  destruct (Staticfiles.firstUnanswered _ _ _ _ _ _) as [[[grp lbl]|] he];
    simpl; tauto.
Qed.

Lemma cached_submitLoop_fail steps st0 st s :
  sameDocument st0 st ->
  List.find (fun s => negb (cachedStepValid offsetParentSet s st0)) steps
  = Some s ->
  exists st1,
    sameDocument st0 st1 /\ sameControl st st1
    /\ Cached.submitLoop offsetParentSet steps st
       = set_submitBtn false (submitText st1)
           (showError MsgAggregate (Cached.goToStep offsetParentSet s st1)).
Proof.
  revert st. induction steps as [|s' steps IH]; intros st Hdoc; simpl;
    [discriminate|].
  unfold cachedStepValid at 1.
  rewrite <- (cached_validateStep_document offsetParentSet s' st0 st Hdoc).
  pose proof (cached_validateStep_frame parseFloat offsetParentSet s' st) as Hd.
  pose proof (cached_validateStep_control s' st) as Hctl.
  destruct (Cached.validateStep offsetParentSet s' st) as [ok st1];
    cbn [fst snd] in *.
  destruct ok; cbn [negb].
  - intros Hrest.
    destruct (IH st1 (sameDocument_trans _ _ _ Hdoc Hd) Hrest)
      as (st2 & Hd2 & Hc2 & Heq).
    exists st2. split; [exact Hd2|]. split; [|exact Heq].
    eapply sameControl_trans; eauto.
  - intros [= <-]. exists st1.
    split; [eapply sameDocument_trans; eauto|]. split; [exact Hctl|].
    f_equal. unfold Cached.goToStep.
    destruct (decide (s' > currentStep st1)); [|reflexivity].
    pose proof (cached_validateStep_control (currentStep st1) st1)
      as (_ & _ & Ht).
    destruct (Cached.validateStep _ _ _) as [ok st2]; cbn [fst snd] in *.
    destruct ok; cbn; congruence.
Qed.

(** C6.  In staticfiles/app.js the submit handler validates the steps in
    the order [1 .. totalSteps] and submits nothing when one fails.  When
    the first failing step [s] is not ahead of the step on display, or
    the step on display is not step 2, the handler lands on [s], shows
    the aggregate banner and leaves the submit control enabled with its
    label restored; when every step passes it disables and relabels the
    control and submits.  But a submit event raised on step 2 while a
    later step is the first to fail goes through the financial gate of
    [goToStep]: the handler reaches the failing step only when the rule
    passes, and stays on step 2 when it fails; on a page without the
    tuition field the call of [focus] then throws, and the listener ends
    under the message of the rule, without the aggregate banner and
    without touching the submit control.  In part_000 a submit event on a
    step that fails [validateStep] returns at once: the step on display,
    the submit control and the message of that step stay, there is no
    aggregate banner and no move to the first failing step; and when the
    step on display passes and [s] is the first failing step, the handler
    lands on [s] under the aggregate banner and enables the control, but
    leaves its label as it is. *)
Theorem C6_submit_can_stay_off_the_failing_step answer st :
  let st' := Staticfiles.submitHandler parseFloat offsetParentSet answer st in
  let st'' := Cached.submitHandler offsetParentSet st in
  (forall s, firstFailing offsetParentSet st = Some s ->
     (1 <= s <= totalSteps st /\ stepValid offsetParentSet s st = false
      /\ forall s', 1 <= s' < s -> stepValid offsetParentSet s' st = true)
     /\ submitted st' = submitted st
     /\ (s <= currentStep st \/ (1 <= currentStep st /\ currentStep st <> 2) ->
         currentStep st' = s /\ banner st' = BannerError MsgAggregate
         /\ submitDisabled st' = false
         /\ submitText st' = "Submit Application")
     /\ (currentStep st = 2 -> 2 < s ->
         currentStep st'
         = if financiallyValid parseFloat answer st then s else 2)
     /\ (currentStep st = 2 -> 2 < s -> getElementById ID_TUITION st = None ->
         banner st' = BannerError MsgTuitionPositive
         /\ submitDisabled st' = submitDisabled st
         /\ submitText st' = submitText st))
  /\ (firstFailing offsetParentSet st = None ->
      submitDisabled st' = true /\ submitText st' = "Submitting..."
      /\ submitted st' = true /\ currentStep st' = currentStep st)
  /\ (1 <= currentStep st <= totalSteps st ->
      cachedStepValid offsetParentSet (currentStep st) st = false ->
      currentStep st'' = currentStep st
      /\ (exists m, banner st'' = BannerError m /\ m <> MsgAggregate)
      /\ submitDisabled st'' = submitDisabled st
      /\ submitText st'' = submitText st
      /\ submitted st'' = submitted st)
  /\ (forall s,
        cachedStepValid offsetParentSet (currentStep st) st = true ->
        cachedFirstFailing offsetParentSet st = Some s ->
        currentStep st'' = s /\ banner st'' = BannerError MsgAggregate
        /\ submitDisabled st'' = false
        /\ submitText st'' = submitText st
        /\ submitted st'' = submitted st).
Proof.
  cbv zeta. split; [|split; [|split]].
  - intros s Hfirst.
    split; [exact (firstFailing_least offsetParentSet st s Hfirst)|].
    split; [rewrite (submitHandler_submitted parseFloat), Hfirst; reflexivity|].
    unfold Staticfiles.submitHandler.
    destruct (submitLoop_fail parseFloat offsetParentSet answer (stepsOf st) st
                st s (sameDocument_refl st) Hfirst) as (st1 & Hd & Hc & ->).
    destruct (firstFailing_least offsetParentSet st s Hfirst)
      as (_ & _ & Hleast).
    split; [|split].
    + intros Hcase. pose proof Hd as (Hcur & _).
      destruct (decide (s <= currentStep st)) as [Hback|Hfwd].
      * rewrite (goToStepCall_back parseFloat offsetParentSet) by lia.
        repeat split.
      * destruct Hcase as [Hback|[Hlow Hne]]; [lia|].
        destruct (goToStepCall_forward parseFloat offsetParentSet answer s st1)
          as (st2 & _ & ->); [lia|congruence| |repeat split].
        unfold stepValid.
        rewrite (validateStep_document offsetParentSet (currentStep st1) st st1
                   Hd), Hcur.
        apply Hleast. lia.
    + intros Hcur Hs.
      assert (Hgate : currentStep
                (Staticfiles.goToStep parseFloat offsetParentSet answer s st1)
              = if financiallyValid parseFloat answer st then s else 2).
      { pose proof Hd as (Hcur1 & Hs1 & _).
        assert (financiallyValid parseFloat answer st
                = financiallyValid parseFloat answer st1) as ->.
        { unfold financiallyValid.
          rewrite !(fieldNumber_sections parseFloat _ _ _ Hs1). reflexivity. }
        apply goToStep_from_step_2; [congruence|lia|].
        unfold stepValid.
        rewrite (validateStep_document offsetParentSet 2 st st1 Hd).
        apply Hleast. lia. }
      unfold Staticfiles.goToStep in Hgate.
      destruct (Staticfiles.goToStepCall _ _ _ _ _) as [[[]|] st2];
        exact Hgate.
    + intros Hcur Hs Hnone.
      pose proof Hd as (Hcur1 & Hs1 & _).
      unfold Staticfiles.goToStepCall.
      destruct (decide (s > currentStep st1)); [|lia].
      pose proof (validateStep_frame parseFloat offsetParentSet (currentStep st1)
                    st1) as ((Hc2 & Hs2 & _) & Hctl2 & _).
      pose proof (validateStep_document offsetParentSet (currentStep st1) st st1
                    Hd) as Hv.
      rewrite Hcur1, Hcur in Hv.
      fold (stepValid offsetParentSet 2 st) in Hv.
      rewrite (Hleast 2) in Hv by lia.
      rewrite Hcur1, Hcur in *.
      destruct (Staticfiles.validateStep offsetParentSet 2 st1) as [ok st2];
        cbn [fst snd] in *.
      subst ok. cbn [negb].
      destruct (decide (currentStep st2 = 2)); [|congruence].
      unfold Staticfiles.validateFinancialFields.
      assert (Ht : fieldNumber parseFloat ID_TUITION st2 = 0%float).
      { rewrite (fieldNumber_sections parseFloat ID_TUITION st1 st2 Hs2),
          (fieldNumber_sections parseFloat ID_TUITION st st1 Hs1).
        unfold fieldNumber. rewrite Hnone. reflexivity. }
      rewrite Ht.
      assert (Hmiss : getElementById ID_TUITION st2 = None).
      { unfold getElementById, allFields in *. rewrite Hs2, Hs1. exact Hnone. }
      set (o := Staticfiles.financialRule _ _ _ _).
      assert (Ho : fin_error o = Some MsgTuitionPositive
                   /\ fin_focus o = Some ID_TUITION) by (split; reflexivity).
      destruct Ho as [Herr Hfoc].
      pose proof (applyOutcome_value o st2) as Hval.
      pose proof (applyOutcome_banner o st2) as Hban.
      pose proof (applyOutcome_frame o st2) as (_ & Hctl3).
      rewrite Hfoc, Hmiss in Hval. rewrite Herr in Hban.
      destruct (applyOutcome o st2) as [r st3]; cbn [fst snd] in *.
      subst r. split; [exact Hban|].
      destruct Hc as (_ & Hc1 & Hc2'), Hctl2 as (_ & Hc3 & Hc4),
        Hctl3 as (_ & Hc5 & Hc6).
      split; congruence.
  - intros Hnone.
    unfold Staticfiles.submitHandler.
    destruct (submitLoop_pass parseFloat offsetParentSet answer (stepsOf st) st
                st (sameDocument_refl st) Hnone) as (st1 & Hd & Hc & ->).
    cbn. destruct Hd as (Hcur & _). auto.
  - intros Hrange Hbad. unfold Cached.submitHandler.
    revert Hbad. unfold cachedStepValid, Cached.validateStep.
    destruct (sectionAt (currentStep st) st) as [sec|] eqn:Hsec.
    + destruct (Cached.firstInvalid _) as [[el m]|] eqn:Hinv.
      * intros _. cbn. repeat split.
        exists m. split; [reflexivity|].
        assert (Hm : Cached.fieldError el = Some m).
        { clear -Hinv. induction (Staticfiles.requiredEls sec) as [|a l IH];
            simpl in Hinv; [discriminate|].
          destruct (Cached.fieldError a) eqn:Ha; [|exact (IH Hinv)].
          injection Hinv as <- <-. exact Ha. }
        unfold Cached.fieldError in Hm.
        repeat match type of Hm with
               | (if ?c then _ else _) = _ => destruct c
               end; congruence.
      * destruct (Staticfiles.firstUnanswered _ _ _ _ _ _)
          as [[[grp lbl]|] he]; [|discriminate].
        intros _. cbn. repeat split. eexists. split; [reflexivity|discriminate].
    + exfalso. unfold sectionAt in Hsec.
      destruct (decide (currentStep st - 1 < 0)); [lia|].
      apply lookup_ge_None in Hsec. unfold totalSteps in Hrange. lia.
  - intros s Hok Hfirst. unfold Cached.submitHandler.
    unfold cachedStepValid in Hok.
    pose proof (cached_validateStep_frame parseFloat offsetParentSet
                  (currentStep st) st) as Hd.
    pose proof (cached_validateStep_control (currentStep st) st) as Hctl.
    destruct (Cached.validateStep offsetParentSet (currentStep st) st)
      as [ok st1] eqn:Hv; cbn [fst snd] in *.
    subst ok. cbn [negb].
    assert (Hsteps : stepsOf st1 = stepsOf st).
    { unfold stepsOf. destruct Hd as (_ & -> & _). reflexivity. }
    rewrite Hsteps.
    destruct (cached_submitLoop_fail (stepsOf st) st st1 s Hd Hfirst)
      as (st2 & Hd2 & Hc2 & ->).
    pose proof Hd2 as (Hcur2 & _).
    destruct Hctl as (Hs1 & Hb1 & Ht1), Hc2 as (Hs2 & Hb2 & Ht2).
    assert (Hgo : currentStep (Cached.goToStep offsetParentSet s st2) = s
                  /\ submitted (Cached.goToStep offsetParentSet s st2)
                     = submitted st2).
    { unfold Cached.goToStep.
      destruct (decide (s > currentStep st2)); [|split; reflexivity].
      pose proof (cached_validateStep_document offsetParentSet (currentStep st2)
                    st st2 Hd2) as Hsame.
      rewrite Hcur2, Hv in Hsame. cbn [fst] in Hsame.
      pose proof (cached_validateStep_control (currentStep st2) st2)
        as (Hs3 & _).
      rewrite Hcur2 in *.
      destruct (Cached.validateStep offsetParentSet (currentStep st) st2)
        as [ok st3]; cbn [fst snd] in *.
      subst ok. cbn. split; [reflexivity|exact Hs3]. }
    destruct Hgo as [Hgo1 Hgo2].
    cbn [currentStep banner submitDisabled submitText submitted set_submitBtn
         showError set_banner].
    split; [exact Hgo1|]. split; [reflexivity|]. split; [reflexivity|].
    split; congruence.
Qed.

End OlderCopies.

(** ** The older copies of the radio defaults *)

Lemma find_checked_uncheck_radios name l :
  forallb
    (fun el =>
       negb (bool_decide (el_tag el = INPUT) && bool_decide (el_name el = name))
       || bool_decide (el_type el = "radio")) l = true ->
  List.find (isCheckedInput name) (map (uncheckGroup name) l) = None.
Proof.
  induction l as [|a l IH]; simpl; [reflexivity|].
  intros [Ha Hl]%andb_true_iff.
  assert (isCheckedInput name (uncheckGroup name a) = false) as ->;
    [|exact (IH Hl)].
  unfold uncheckGroup, isCheckedInput in *.
  destruct (bool_decide (el_tag a = INPUT)) eqn:E1,
           (bool_decide (el_name a = name)) eqn:E2,
           (bool_decide (el_type a = "radio")) eqn:E3;
    cbn in *; rewrite ?E1, ?E2; cbn; try reflexivity; discriminate.
Qed.

(** [radio.checked = true] on an option of a group of radio buttons
    leaves that option the checked one, whatever was checked before. *)
Lemma checkFirst_replaces name value st :
  is_Some (List.find (isOption name value) (allFields st)) ->
  radioGroup name st = true ->
  getRadioValue name (checkFirst (isOption name value) st) = Some value.
Proof.
  intros [r Hopt] Hgrp. unfold checkFirst. rewrite Hopt.
  pose proof (find_some _ _ Hopt) as [Hin Hr].
  assert (Htype : bool_decide (el_type r = "radio") = true).
  { unfold radioGroup in Hgrp. rewrite forallb_forall in Hgrp.
    specialize (Hgrp r Hin). unfold isOption in Hr.
    apply andb_true_iff in Hr as [Hr _]. rewrite Hr in Hgrp. exact Hgrp. }
  rewrite Htype. unfold getRadioValue, allFields. cbn [sections set_sections].
  rewrite fieldsOf_updateFirst, fieldsOf_map.
  rewrite (isOption_name _ _ _ Hr).
  rewrite (find_checked_updateFirst name value _ (uncheckGroup name r)).
  - cbn. f_equal. apply isOption_value with (name := name).
    rewrite isOption_uncheckGroup. exact Hr.
  - apply find_checked_uncheck_radios. exact Hgrp.
  - rewrite find_option_map_uncheck. unfold allFields in Hopt. rewrite Hopt.
    reflexivity.
Qed.

Lemma forallb_updateFirst (f p : Element -> bool) (g : Element -> Element) l :
  (forall el, f (g el) = f el) ->
  forallb f (updateFirst p g l) = forallb f l.
Proof.
  intros Hg. induction l as [|a l IH]; simpl; [reflexivity|].
  destruct (p a); simpl; [rewrite Hg; reflexivity|]. rewrite IH. reflexivity.
Qed.

Lemma forallb_map_same (f : Element -> bool) (g : Element -> Element) l :
  (forall el, f (g el) = f el) -> forallb f (map g l) = forallb f l.
Proof.
  intros Hg. induction l as [|a l IH]; simpl; [reflexivity|].
  rewrite Hg, IH. reflexivity.
Qed.

Lemma radioGroup_checkFirst name p st :
  radioGroup name (checkFirst p st) = radioGroup name st.
Proof.
  unfold radioGroup, checkFirst.
  destruct (List.find p (allFields st)) as [r|]; [|reflexivity].
  unfold allFields. cbn [sections set_sections].
  rewrite fieldsOf_updateFirst, forallb_updateFirst by reflexivity.
  destruct (bool_decide (el_type r = "radio")); [|reflexivity].
  rewrite fieldsOf_map. apply forallb_map_same.
  intros el. unfold uncheckGroup.
  destruct (bool_decide (el_type el = "radio")
            && bool_decide (el_name el = el_name r)); reflexivity.
Qed.

Lemma root_init_default name st :
  In name DEFAULTED_GROUPS ->
  is_Some (List.find (isOption name "No") (allFields st)) ->
  radioGroup name st = true ->
  getRadioValue name (Root.init st) = Some "No".
Proof.
  unfold Root.init, DEFAULTED_GROUPS. cbn [In]. cbv zeta.
  set (st0 := Root.setDisplay PROVIDER_NOTE false _).
  change (allFields st) with (allFields st0).
  change (radioGroup name st) with (radioGroup name st0).
  clearbody st0.
  intros [<-|[<-|[<-|[<-|[]]]]] Hopt Hgrp.
  - unfold getRadioValue. rewrite !checkFirst_other_group by discriminate.
    apply checkFirst_replaces; assumption.
  - unfold getRadioValue. rewrite !checkFirst_other_group by discriminate.
    apply checkFirst_replaces.
    + apply find_option_checkFirst, Hopt.
    + rewrite radioGroup_checkFirst. exact Hgrp.
  - unfold getRadioValue. rewrite !checkFirst_other_group by discriminate.
    apply checkFirst_replaces.
    + apply find_option_checkFirst, find_option_checkFirst, Hopt.
    + rewrite !radioGroup_checkFirst. exact Hgrp.
  - apply checkFirst_replaces.
    + apply find_option_checkFirst, find_option_checkFirst,
        find_option_checkFirst, Hopt.
    + rewrite !radioGroup_checkFirst. exact Hgrp.
Qed.

(** C8.  The two older copies set the default over an answer.  In
    part_000, [setRadioDefault] on a group of radio buttons whose default
    option exists leaves the default checked although another option was
    checked, where the function of staticfiles/app.js leaves the page as
    it is; and the start-up code of the root app.js, on a page that has
    what it dereferences, leaves 'No' checked in each of its four groups,
    whatever was checked on the page. *)
Theorem C8_older_copies_replace_a_checked_option :
  (forall name value st v,
     is_Some (List.find (isOption name value) (allFields st)) ->
     radioGroup name st = true ->
     getRadioValue name st = Some v ->
     getRadioValue name (Cached.setRadioDefault name value st) = Some value
     /\ Staticfiles.setRadioDefault name value st = st)
  /\ (forall name st v,
        rootPageComplete st = true ->
        In name DEFAULTED_GROUPS ->
        radioGroup name st = true ->
        getRadioValue name st = Some v ->
        getRadioValue name (Root.init st) = Some "No").
Proof.
  split.
  - intros name value st v Hopt Hgrp Hv. split.
    + apply checkFirst_replaces; assumption.
    + unfold Staticfiles.setRadioDefault. rewrite Hv.
      destruct (List.find _ _); reflexivity.
  - intros name st v Hpage Hin Hgrp _.
    apply root_init_default; [exact Hin| |exact Hgrp].
    unfold rootPageComplete in Hpage.
    apply andb_true_iff in Hpage as [_ Hopts].
    rewrite forallb_forall in Hopts. specialize (Hopts name Hin).
    apply existsb_exists in Hopts as (x & Hx & Hp).
    destruct (List.find (isOption name "No") (allFields st)) as [r|] eqn:Hf;
      [eexists; reflexivity|].
    rewrite (find_none _ _ Hf x Hx) in Hp. discriminate.
Qed.

(** ** Required controls of hidden blocks in the root script *)

Lemma cached_firstInvalid_Some l x m :
  Cached.firstInvalid l = Some (x, m) ->
  In x l /\ Cached.fieldError x = Some m.
Proof.
  induction l as [|a l IH]; simpl; [discriminate|].
  destruct (Cached.fieldError a) as [m'|] eqn:Ha.
  - intros [= <- <-]. auto.
  - intros H. destruct (IH H). auto.
Qed.

Lemma cached_firstInvalid_None l x :
  Cached.firstInvalid l = None -> In x l -> Cached.fieldError x = None.
Proof.
  induction l as [|a l IH]; simpl; [contradiction|].
  destruct (Cached.fieldError a) as [m'|] eqn:Ha; [discriminate|].
  intros H [<-|Hin]; auto.
Qed.

Lemma required_checkFirst p st :
  map el_required (allFields (checkFirst p st))
  = map el_required (allFields st).
Proof.
  unfold checkFirst.
  destruct (List.find p (allFields st)) as [r|]; [|reflexivity].
  unfold allFields. cbn [sections set_sections].
  rewrite fieldsOf_updateFirst.
  assert (forall l, map el_required (updateFirst p (with_checked true) l)
                    = map el_required l) as ->.
  { induction l as [|a l IH]; simpl; [reflexivity|].
    destruct (p a); simpl; [reflexivity|]. rewrite IH. reflexivity. }
  destruct (bool_decide (el_type r = "radio")); [|reflexivity].
  rewrite fieldsOf_map, map_map. apply map_ext.
  intros el. unfold uncheckGroup.
  destruct (bool_decide (el_type el = "radio")
            && bool_decide (el_name el = el_name r)); reflexivity.
Qed.

Lemma root_init_required html :
  map el_required (allFields (Root.init html))
  = map el_required (allFields html).
Proof. unfold Root.init. cbv zeta. rewrite !required_checkFirst. reflexivity. Qed.

Lemma root_radioChanged_allFields name value st :
  allFields (Root.radioChanged name value st) = allFields st.
Proof.
  unfold Root.radioChanged.
  destruct (bool_decide (name = "orphan")); [reflexivity|].
  destruct (bool_decide (name = "disability")); [reflexivity|].
  destruct (bool_decide (name = "previousBursary")); [reflexivity|].
  destruct (bool_decide (name = "bothParentsAlive")); [|reflexivity].
  destruct (bool_decide (value = "No")); [reflexivity|].
  destruct (getRadioValue "orphan" st) as [v|]; [|reflexivity].
  destruct (bool_decide (v = "No")); reflexivity.
Qed.

Lemma root_change_required id st :
  map el_required (allFields (Root.change id st))
  = map el_required (allFields st).
Proof.
  unfold Root.change. cbv zeta.
  destruct (List.find _ (allFields st)) as [radio|]; [|reflexivity].
  destruct (el_checked radio); [reflexivity|].
  rewrite root_radioChanged_allFields. apply required_checkFirst.
Qed.

Lemma root_init_hidden html id :
  In id FIVE_BLOCKS -> id ∉ shown (Root.init html).
Proof.
  unfold Root.init. cbv zeta. rewrite !shown_checkFirst.
  unfold Root.setDisplay. cbn [shown set_shown].
  rewrite !elem_of_difference, !elem_of_singleton.
  unfold FIVE_BLOCKS. cbn [In].
  intros [<-|[<-|[<-|[<-|[<-|[]]]]]] (((((_ & H1) & H2) & H3) & H4) & H5);
    first [ exact (H1 eq_refl) | exact (H2 eq_refl) | exact (H3 eq_refl)
          | exact (H4 eq_refl) | exact (H5 eq_refl) ].
Qed.

(** C2.  The root app.js hides its five containers through
    [style.display]: none of them is displayed after start-up; and
    neither the start-up code nor the change listener touches the
    [required] attribute of a control.  Its [validateStep] skips nothing:
    on a step whose displayed required controls all pass the three tests,
    a required, empty control inside a container that is not displayed
    makes [validateStep] return false; it stops on a control of a hidden
    container, shows a message, gives it focus, and [goToStep] to a later
    step stays where it is. *)
Theorem C2_root_validateStep_stops_on_a_hidden_control :
  (forall html id, In id FIVE_BLOCKS -> id ∉ shown (Root.init html))
  /\ (forall html,
        map el_required (allFields (Root.init html))
        = map el_required (allFields html))
  /\ (forall id st,
        map el_required (allFields (Root.change id st))
        = map el_required (allFields st))
  /\ (forall step st sec el,
        sectionAt step st = Some sec ->
        In el (sec_fields sec) ->
        el_required el = true -> insideHiddenBlock st el = true ->
        el_type el <> "file" -> isBlank (el_value el) = true ->
        (forall x, In x (sec_fields sec) -> el_required x = true ->
           insideHiddenBlock st x = false -> Cached.fieldError x = None) ->
        exists x m,
          Root.validateStep step st
          = (Some false, focus (el_id x) (showError m st))
          /\ In x (sec_fields sec) /\ el_required x = true
          /\ insideHiddenBlock st x = true
          /\ (step = currentStep st -> forall n, n > step ->
              Root.goToStep n st = focus (el_id x) (showError m st))).
Proof.
  split; [exact root_init_hidden|].
  split; [exact root_init_required|].
  split; [exact root_change_required|].
  intros step st sec el Hsec Hin Hreq Hhid Htype Hblank Hvisible.
  unfold Root.validateStep. rewrite Hsec.
  destruct (Cached.firstInvalid (Staticfiles.requiredEls sec))
    as [[x m]|] eqn:Hinv.
  - destruct (cached_firstInvalid_Some _ _ _ Hinv) as [Hx Hm].
    unfold Staticfiles.requiredEls in Hx.
    apply filter_In in Hx as [Hx Hxreq].
    exists x, m. split; [reflexivity|]. split; [exact Hx|].
    split; [exact Hxreq|]. split.
    + destruct (insideHiddenBlock st x) eqn:Hxh; [reflexivity|].
      rewrite (Hvisible x Hx Hxreq Hxh) in Hm. discriminate.
    + intros -> n Hn. unfold Root.goToStep, Root.validateStep.
      destruct (decide (n > currentStep st)); [|lia].
      rewrite Hsec, Hinv. reflexivity.
  - exfalso.
    assert (Hel : In el (Staticfiles.requiredEls sec)).
    { unfold Staticfiles.requiredEls. apply filter_In. auto. }
    pose proof (cached_firstInvalid_None _ _ Hinv Hel) as Hnone.
    unfold Cached.fieldError in Hnone.
    rewrite (bool_decide_eq_false_2 _ Htype), Hblank in Hnone.
    destruct (_ && _); discriminate.
Qed.

(** * The further properties at work *)

(** X2 at work: on the page as served, hiding and showing
    [disabilityDetails] leaves [disabilityNature] required. *)
Lemma hide_then_show_witness_disability_block :
  originalsInSync DISABILITY_DETAILS (examplePage "" "" "") = true
  /\ map el_required
       (allFields
          (Staticfiles.showHideConditional DISABILITY_DETAILS true
             (Staticfiles.showHideConditional DISABILITY_DETAILS false
                (examplePage "" "" ""))))
     = map el_required (allFields (examplePage "" "" "")).
Proof.
  assert (H1 : DISABILITY_DETAILS ∈ containers (examplePage "" "" ""))
    by member.
  assert (H2 : originalsInSync DISABILITY_DETAILS (examplePage "" "" "") = true)
    by run.
  pose proof (hide_then_show_restores_required DISABILITY_DETAILS
                (examplePage "" "" "") H1 H2) as [H _].
  split; [exact H2|exact H].
Defined.

(** X6 at work: with 5000 asked against 10000 a click on [toStep3]
    leaves step 2, and both checks had passed. *)
Lemma no_event_skips_witness_within_budget :
  currentStep
    (Staticfiles.step parseDecimal allRendered
       (Staticfiles.Click toStep3 acceptAll) pageWithinBudget) = 3
  /\ stepValid allRendered 2 pageWithinBudget = true
  /\ financiallyValid parseDecimal
       (answersOf (Staticfiles.Click toStep3 acceptAll)) pageWithinBudget
     = true.
Proof.
  assert (H1 : currentStep pageWithinBudget = 2) by run.
  assert (H2 : 2 < currentStep
                     (Staticfiles.step parseDecimal allRendered
                        (Staticfiles.Click toStep3 acceptAll) pageWithinBudget))
    by run.
  pose proof (no_event_skips_the_financial_gate parseDecimal allRendered
                (Staticfiles.Click toStep3 acceptAll) pageWithinBudget H1 H2)
    as [Ha Hb].
  split; [run|]. split; [exact Ha|exact Hb].
Defined.

(** X7 at work: in part_000, with 15000 asked against 10000, Enter in a
    text field goes to step 3 and the button stays on step 2. *)
Lemma cached_enter_witness_asking_too_much :
  currentStep (Cached.keydownEnter allRendered (Some INPUT)
                 cachedPageAskingTooMuch) = 3
  /\ currentStep (Cached.click parseDecimal allRendered toStep3 acceptAll
                    cachedPageAskingTooMuch) = 2.
Proof.
  assert (H1 : currentStep cachedPageAskingTooMuch = 2) by run.
  assert (H2 : 2 < totalSteps cachedPageAskingTooMuch) by run.
  assert (H3 : Some INPUT <> Some TEXTAREA) by discriminate.
  assert (H4 : (Cached.validateStep allRendered 2 cachedPageAskingTooMuch).1
               = true) by run.
  pose proof (cached_enter_skips_the_financial_rule parseDecimal allRendered
                (Some INPUT) acceptAll cachedPageAskingTooMuch H1 H2 H3 H4)
    as [(Ha & _) Hb].
  split; [exact Ha|]. apply Hb. run.
Defined.

(** X8 at work: 15000 typed against 10000 is wiped on blur, and the
    form then stays on step 2. *)
Lemma wiped_amount_witness_asking_too_much :
  stepValid allRendered 2
    (Staticfiles.amountBlur parseDecimal pageAskingTooMuch) = false
  /\ currentStep
       (Staticfiles.goToStep parseDecimal allRendered acceptAll 3
          (Staticfiles.amountBlur parseDecimal pageAskingTooMuch)) = 2.
Proof.
  assert (H1 : amountFieldOnStep2 pageAskingTooMuch = true) by run.
  assert (H2 : amountExceedsTuition parseDecimal pageAskingTooMuch = true)
    by run.
  pose proof (wiped_amount_holds_the_form parseDecimal allRendered
                pageAskingTooMuch H1 H2) as (Ha & Hb & _).
  split; [exact Ha|]. apply Hb; run.
Defined.

(** X9 at work: the page as served and initialised. *)
Lemma required_only_inside_shown_witness_page_served :
  requiredOnlyWhenShown pageServed.
Proof.
  exact (required_only_inside_shown_blocks parseDecimal allRendered
           (examplePage "" "" "") pageServed
           (Staticfiles.reach_init parseDecimal allRendered
              (examplePage "" "" ""))).
Defined.

(** X11 at work: the father's name typed in and the answer to
    singleParent are gone once orphan is answered "True". *)
Lemma static_orphan_wipes_witness_parents_page :
  blockCleared Static.PARENT_INFO_GROUP
    (Static.handleConditionalFields parentsPage)
  /\ el_value <$> getElementById "fatherName" parentsPage = Some "John"
  /\ el_value <$> getElementById "fatherName"
                    (Static.handleConditionalFields parentsPage) = Some ""
  /\ getRadioValue "singleParent" (Static.handleConditionalFields parentsPage)
     = None.
Proof.
  assert (H1 : Static.PARENT_INFO_GROUP ∈ containers parentsPage)
    by member.
  assert (H2 : answeredTrue "orphan" parentsPage = true) by run.
  pose proof (static_orphan_wipes_the_parent_blocks Static.PARENT_INFO_GROUP
                parentsPage (or_introl eq_refl) H1 H2) as (Ha & _).
  split; [exact Ha|]. split; [run|]. split; run.
Defined.

(** X15 at work: the second cookie of the jar is read back. *)
Lemma getCookie_witness_csrftoken :
  Cookie.getCookie decodePlain "csrftoken" (cookieString exampleJar)
  = Cookie.Returns (Some "tok-1").
Proof.
  assert (H1 : wellFormedJar exampleJar)
    by (repeat constructor; vm_compute; reflexivity).
  assert (H2 : allUnits isNameUnit "csrftoken" = true) by run.
  rewrite (getCookie_reads_the_jar decodePlain "csrftoken" exampleJar H1 H2).
  reflexivity.
Defined.

(** X16 at work: in the older copy, 15000 asked against 10000 does not
    keep a click on [toStep3] from reaching step 3. *)
Lemma legacy_toStep3_witness_asking_too_much :
  currentStep (Legacy.click parseDecimal allRendered toStep3 acceptAll
                 cachedPageAskingTooMuch) = 3.
Proof.
  assert (H1 : currentStep cachedPageAskingTooMuch = 2) by run.
  pose proof (legacy_toStep3_ignores_the_financial_rule parseDecimal
                allRendered acceptAll cachedPageAskingTooMuch H1) as H.
  etransitivity; [exact H|]. run.
Defined.

(** X17 at work: the example page filled in to the end, on step 1, with
    15000 asked against 10000: the rule fails and the form is
    submitted. *)
Lemma submit_witness_asking_too_much :
  Staticfiles.reachable parseDecimal allRendered
    (examplePage "0" "10000" "15000") pageSignedAskingTooMuch
  /\ currentStep pageSignedAskingTooMuch = 1
  /\ financiallyValid parseDecimal acceptAll pageSignedAskingTooMuch = false
  /\ submitted
       (Staticfiles.submitHandler parseDecimal allRendered acceptAll
          pageSignedAskingTooMuch) = true.
Proof.
  assert (H1 : firstFailing allRendered pageSignedAskingTooMuch = None) by run.
  pose proof (submit_of_a_valid_form_skips_the_financial_rule parseDecimal allRendered
                acceptAll pageSignedAskingTooMuch H1) as (Ha & _).
  split; [apply Staticfiles.reach_step, Staticfiles.reach_init|].
  split; [run|]. split; [run|exact Ha].
Defined.

(** X18 at work: after start-up, picking 'Yes' for orphan shows the
    note. *)
Lemma root_providerNote_witness_orphan_yes :
  PROVIDER_NOTE ∈ shown (Root.change "orphan_yes" rootPageServed).
Proof.
  assert (H1 : List.find
                 (fun el => hasId "orphan_yes" el
                            && bool_decide (el_type el = "radio"))
                 (allFields rootPageServed)
               = Some (radioInput "orphan_yes" "orphan" "Yes" false []))
    by run.
  assert (H2 : el_checked (radioInput "orphan_yes" "orphan" "Yes" false [])
               = false) by reflexivity.
  pose proof root_providerNote_follows_the_last_change as [H _].
  destruct (H "orphan_yes" rootPageServed _ H1 H2) as [Ha _].
  apply Ha; reflexivity.
Defined.

(** * The copies side by side, at work *)

(** C5 at work: in part_000, on the example page with nothing asked
    against a tuition fee of 10000, the rule returns true and the button
    [toStep3] leaves step 2; staticfiles/app.js shows its message. *)
Lemma C5_witness_nothing_asked :
  (Cached.validateFinancialFields parseDecimal acceptAll
     cachedPageAskingNothing).1 = Some true
  /\ currentStep (Cached.click parseDecimal allRendered toStep3 acceptAll
                    cachedPageAskingNothing) = 3
  /\ banner (Staticfiles.validateFinancialFields parseDecimal acceptAll
               cachedPageAskingNothing).2 = BannerError MsgAmountPositive.
Proof.
  assert (H1 : JsNum.js_gt
                 (fieldNumber parseDecimal ID_TUITION cachedPageAskingNothing) 0
               = true) by run.
  assert (H2 : JsNum.js_le
                 (fieldNumber parseDecimal ID_AMOUNT cachedPageAskingNothing) 0
               = true) by run.
  assert (H3 : forall p, acceptAll p = true) by reflexivity.
  assert (H4 : currentStep cachedPageAskingNothing = 2) by run.
  assert (H5 : (Cached.validateStep allRendered 2 cachedPageAskingNothing).1
               = true) by run.
  pose proof (C5_older_copies_pass_a_nonpositive_amount parseDecimal allRendered
                acceptAll cachedPageAskingNothing H1 H2 H3)
    as ((Ha & _ & Hb) & _ & (_ & Hc & _)).
  split; [exact Ha|]. split; [exact (Hb H4 H5)|exact Hc].
Defined.

(** C8 at work: the answer 'True' (or 'Yes') to orphan that the page
    came with is replaced by the default. *)
Lemma C8_witness_answer_replaced :
  (getRadioValue "orphan" pageOrphanChecked = Some "True"
   /\ getRadioValue "orphan"
        (Cached.setRadioDefault "orphan" "False" pageOrphanChecked)
      = Some "False")
  /\ (getRadioValue "orphan" rootPageOrphanChecked = Some "Yes"
      /\ getRadioValue "orphan" (Root.init rootPageOrphanChecked) = Some "No").
Proof.
  assert (H1 : is_Some (List.find (isOption "orphan" "False")
                          (allFields pageOrphanChecked)))
    by (vm_compute; eexists; reflexivity).
  assert (H2 : radioGroup "orphan" pageOrphanChecked = true) by run.
  assert (H3 : getRadioValue "orphan" pageOrphanChecked = Some "True") by run.
  assert (H4 : rootPageComplete rootPageOrphanChecked = true) by run.
  assert (H5 : In "orphan" DEFAULTED_GROUPS) by (left; reflexivity).
  assert (H6 : radioGroup "orphan" rootPageOrphanChecked = true) by run.
  assert (H7 : getRadioValue "orphan" rootPageOrphanChecked = Some "Yes")
    by run.
  pose proof C8_older_copies_replace_a_checked_option as [Ha Hb].
  destruct (Ha "orphan" "False" pageOrphanChecked "True" H1 H2 H3) as [Ha1 _].
  pose proof (Hb "orphan" rootPageOrphanChecked "Yes" H4 H5 H6 H7) as Hb1.
  split; [split; [exact H3|exact Ha1]|split; [exact H7|exact Hb1]].
Defined.

Lemma currentStep_focus_showError id m st :
  currentStep (focus id (showError m st)) = currentStep st.
Proof. reflexivity. Qed.

(** C2 at work: the page of the root script after start-up, its name
    filled in.  [disabilityDetails] is hidden, [disabilityNature] inside
    it is required and empty: [validateStep(1)] returns false and
    [goToStep(2)] stays on step 1. *)
Lemma C2_witness_disability_nature :
  bool_decide (DISABILITY_DETAILS ∈ shown rootFormServed) = false
  /\ (Root.validateStep 1 rootFormServed).1 = Some false
  /\ focused (Root.validateStep 1 rootFormServed).2 = Some "disabilityNature"
  /\ currentStep (Root.goToStep 2 rootFormServed) = 1.
Proof.
  assert (H1 : sectionAt 1 rootFormServed = Some rootFormStep1) by run.
  assert (H2 : In disabilityNature (sec_fields rootFormStep1))
    by (vm_compute; repeat first [left; reflexivity | right]).
  assert (H3 : el_required disabilityNature = true) by reflexivity.
  assert (H4 : insideHiddenBlock rootFormServed disabilityNature = true) by run.
  assert (H5 : el_type disabilityNature <> "file") by discriminate.
  assert (H6 : isBlank (el_value disabilityNature) = true) by reflexivity.
  assert (H7 : forall x, In x (sec_fields rootFormStep1) ->
                 el_required x = true ->
                 insideHiddenBlock rootFormServed x = false ->
                 Cached.fieldError x = None).
  { intros x Hin Hr Hh. vm_compute in Hin.
    repeat (destruct Hin as [<-|Hin];
            [first [ vm_compute; reflexivity
                   | vm_compute in Hr; discriminate Hr
                   | vm_compute in Hh; discriminate Hh ]|]).
    destruct Hin. }
  assert (H8 : 1 = currentStep rootFormServed) by run.
  pose proof C2_root_validateStep_stops_on_a_hidden_control as (_ & _ & _ & H).
  destruct (H 1 rootFormServed rootFormStep1 disabilityNature
              H1 H2 H3 H4 H5 H6 H7)
    as (x & m & Hv & _ & _ & _ & Hgo).
  split; [run|]. split; [rewrite Hv; reflexivity|]. split; [run|].
  rewrite (Hgo H8 2 ltac:(lia)), currentStep_focus_showError. run.
Defined.

(** C6 at work.  Submitting from step 5 with the amounts of step 2 left
    empty leads back to step 2 under the aggregate banner.  A submit
    event on step 2 (Enter in a text field) of the page asking 15000
    against 10000, its signature missing on step 5, stays on step 2; on
    the page without the tuition field it ends under the message of the
    rule.  In part_000, submitting from step 5 with the signature missing
    stays on step 5 under the message of that step, although step 2 is
    the first failing step; once signed, it leads to step 2 with the
    label of the submit control as it was. *)
Lemma C6_witness_submissions :
  (currentStep (Staticfiles.submitHandler parseDecimal allRendered acceptAll
                  pageOnLastStep) = 2
   /\ banner (Staticfiles.submitHandler parseDecimal allRendered acceptAll
                pageOnLastStep) = BannerError MsgAggregate)
  /\ (firstFailing allRendered pageAskingTooMuch = Some 5
      /\ currentStep (Staticfiles.submitHandler parseDecimal allRendered
                        acceptAll pageAskingTooMuch) = 2)
  /\ banner (Staticfiles.submitHandler parseDecimal allRendered acceptAll
               pageWithoutTuition) = BannerError MsgTuitionPositive
  /\ (cachedFirstFailing allRendered cachedPageOnLastStep = Some 2
      /\ currentStep (Cached.submitHandler allRendered cachedPageOnLastStep) = 5
      /\ banner (Cached.submitHandler allRendered cachedPageOnLastStep)
         = BannerError MsgFillAll)
  /\ (currentStep (Cached.submitHandler allRendered cachedPageSigned) = 2
      /\ submitText (Cached.submitHandler allRendered cachedPageSigned)
         = submitText cachedPageSigned).
Proof.
  assert (H1 : firstFailing allRendered pageOnLastStep = Some 2) by run.
  assert (H2 : 2 <= currentStep pageOnLastStep
               \/ (1 <= currentStep pageOnLastStep
                   /\ currentStep pageOnLastStep <> 2))
    by (left; vm_compute; discriminate).
  assert (H3 : firstFailing allRendered pageAskingTooMuch = Some 5) by run.
  assert (H4 : currentStep pageAskingTooMuch = 2) by run.
  assert (H5 : 2 < 5) by lia.
  assert (H6 : financiallyValid parseDecimal acceptAll pageAskingTooMuch = false)
    by run.
  assert (H7 : 1 <= currentStep cachedPageOnLastStep
               <= totalSteps cachedPageOnLastStep)
    by (vm_compute; split; discriminate).
  assert (H8 : cachedStepValid allRendered (currentStep cachedPageOnLastStep)
                 cachedPageOnLastStep = false) by run.
  assert (H9 : firstFailing allRendered pageWithoutTuition = Some 3) by run.
  assert (H10 : currentStep pageWithoutTuition = 2) by run.
  assert (H11 : 2 < 3) by lia.
  assert (H12 : getElementById ID_TUITION pageWithoutTuition = None) by run.
  assert (H13 : cachedStepValid allRendered (currentStep cachedPageSigned)
                  cachedPageSigned = true) by run.
  assert (H14 : cachedFirstFailing allRendered cachedPageSigned = Some 2)
    by run.
  pose proof (C6_submit_can_stay_off_the_failing_step parseDecimal allRendered
                acceptAll pageOnLastStep) as [Ha _].
  pose proof (C6_submit_can_stay_off_the_failing_step parseDecimal allRendered
                acceptAll pageAskingTooMuch) as [Hb _].
  pose proof (C6_submit_can_stay_off_the_failing_step parseDecimal allRendered
                acceptAll pageWithoutTuition) as [Hc _].
  pose proof (C6_submit_can_stay_off_the_failing_step parseDecimal allRendered
                acceptAll cachedPageOnLastStep) as (_ & _ & Hd & _).
  pose proof (C6_submit_can_stay_off_the_failing_step parseDecimal allRendered
                acceptAll cachedPageSigned) as (_ & _ & _ & He).
  cbv zeta in Ha, Hb, Hc, Hd, He.
  destruct (Ha 2 H1) as (_ & _ & Hback & _).
  destruct (Hback H2) as (Ha1 & Ha2 & _).
  destruct (Hb 5 H3) as (_ & _ & _ & Hgate & _).
  destruct (Hc 3 H9) as (_ & _ & _ & _ & Hthrow).
  destruct (Hthrow H10 H11 H12) as (Hc1 & _).
  destruct (Hd H7 H8) as (Hd1 & _).
  destruct (He 2 H13 H14) as (He1 & _ & _ & He2 & _).
  split; [split; [exact Ha1|exact Ha2]|].
  split; [split; [exact H3|]|].
  { rewrite (Hgate H4 H5), H6. reflexivity. }
  split; [exact Hc1|].
  split; [split; [run|split; [rewrite Hd1; run|run]]|].
  split; [exact He1|exact He2].
Defined.
